(** * Clinical-record backend: document integrity, signatures and audit trail

    A shallow embedding of the Mongoose models [AuditLog], [Firma] and
    [Expediente], of the error middleware and of the controllers that sign
    records, verify signatures and query the audit trail.

    JavaScript values that may be [undefined] or [null] are [option]s, dates
    are milliseconds since the epoch in [Z], an object that is serialized
    carries the order of its keys, a collection is the list of its
    documents in insertion order (oldest first), and asynchronous code is
    written in a state-and-exception monad over the [World]: a thrown error
    keeps every effect made before the throw, as in JavaScript. *)

From Stdlib Require Import ZArith List String Bool Lia Permutation.
From Stdlib Require Import Sorting.Sorted.
From Stdlib Require Import DecimalString Ascii.
Import ListNotations.

Local Open Scope string_scope.
Local Open Scope Z_scope.

(** ** JavaScript prelude *)

Definition ObjectId := string.

(** The errors the code raises: [new Error(msg)], the middleware's
    [AppError(message, statusCode)], Mongoose's validation error with the
    paths that failed, a [TypeError] of the runtime, and a driver error. *)
Inductive JsError : Type :=
| Error (msg : string)
| AppError (msg : string) (statusCode : Z)
| ValidationError (paths : list string)
| TypeError (msg : string)
| MongoError (msg : string).

(** [error.message] *)
Definition message (e : JsError) : string :=
  match e with
  | Error m => m
  | AppError m _ => m
  | ValidationError _ => "Validation failed"
  | TypeError m => m
  | MongoError m => m
  end.

Inductive Completion (A : Type) : Type :=
| Return (a : A)
| Throw (e : JsError).
Arguments Return {A} a.
Arguments Throw {A} e.

(** [if (s)] on a string that may be undefined. *)
Definition truthy (s : option string) : bool :=
  match s with
  | Some v => negb (String.eqb v "")
  | None => false
  end.

Definition str_in (s : string) (l : list string) : bool :=
  existsb (String.eqb s) l.

Definition opt_eqb (a : option string) (b : string) : bool :=
  match a with
  | Some v => String.eqb v b
  | None => false
  end.

(** Mongoose's [required] on a String path: set and not empty. *)
Definition required_string (path : string) (v : option string) : list string :=
  if truthy v then [] else [path].

(** Mongoose's [required] on any other path: set. *)
Definition required {A : Type} (path : string) (v : option A) : list string :=
  match v with
  | Some _ => []
  | None => [path]
  end.

(** Mongoose's [enum]: an unset value passes, [required] reports it. *)
Definition enum (path : string) (allowed : list string) (v : option string)
  : list string :=
  match v with
  | Some s => if str_in s allowed then [] else [path]
  | None => []
  end.

(** ** Documents *)

Module AuditDoc.
Record t : Type := mk {
  _id : ObjectId;
  usuario : option ObjectId;
  rolUsuario : option string;
  accion : option string;
  entidad_tipo : option string;
  entidad_id : option ObjectId;
  detalles : string;
  seguridad_ip : option string;
  seguridad_userAgent : option string;
  seguridad_sessionId : option string;
  resultado_exitoso : option bool;
  resultado_mensaje : option string;
  resultado_codigoError : option string;
  timestamp : Z;
  isNew : bool
}.
End AuditDoc.

Module FirmaDoc.
Inductive Estado : Type := Valida | Revocada | Expirada.

Record Revocacion : Type := mkRevocacion {
  fecha : Z;
  motivo : string;
  revocadaPor : ObjectId
}.

(** What the nested path [certificado.emisor] is given: an object with
    the keys of the schema, or a string, which Mongoose cannot cast to
    that object. *)
Inductive Emisor : Type :=
| EmisorObject (nombreComun organizacion unidad pais : option string)
| EmisorString (s : string).

(** A persisted signature: every path the schema requires is present. *)
Record t : Type := mk {
  _id : ObjectId;
  expediente : ObjectId;
  firmante : ObjectId;
  numeroSerie : string;
  emisor : option Emisor;
  vigencia_inicio : Z;
  vigencia_fin : Z;
  certificadoPublico : string;
  algoritmo : string;
  cadenaOriginal : string;
  selloDigital : string;
  hashDocumento : string;
  timestamp_fecha : Z;
  proposito : string;
  estado : Estado;
  revocacion : option Revocacion
}.

(** The plain object handed to [Firma.create]; keys that are not schema
    paths are dropped by Mongoose's strict mode, so only schema paths
    appear here. A caller may also set the paths that have a default,
    [timestamp.fecha] and [estado], and the revocation. *)
Record Input : Type := mkInput {
  in_expediente : option ObjectId;
  in_firmante : option ObjectId;
  in_numeroSerie : option string;
  in_emisor : option Emisor;
  in_vigencia_inicio : option Z;
  in_vigencia_fin : option Z;
  in_certificadoPublico : option string;
  in_algoritmo : option string;
  in_cadenaOriginal : option string;
  in_selloDigital : option string;
  in_hashDocumento : option string;
  in_timestamp_fecha : option Z;
  in_proposito : option string;
  in_estado : option string;
  in_revocacion : option Revocacion
}.
End FirmaDoc.

Module ExpedienteDoc.
Inductive Estado : Type := Borrador | Firmado | Cancelado.

(** [contenido]: its own keys in the order the object lists them, which
    is the order [JSON.stringify] follows, and their values;
    [datosEspecificos] is the text of the Mixed value and [version] is
    [metadata.version]. *)
Record Contenido : Type := mkContenido {
  claves : list string;
  fecha : Z;
  motivo : option string;
  padecimientoActual : option string;
  diagnostico : option string;
  tratamiento : option string;
  pronostico : option string;
  datosEspecificos : option string;
  version : Z
}.

Record Documento : Type := mkDocumento {
  url : option string;
  hash : option string;
  createdAt : option Z
}.

(** What is assigned to the String path [firmaDigital.selloDigital]: a
    string, or an object, which Mongoose cannot cast to a string. *)
Inductive Sello : Type :=
| SelloString (s : string)
| SelloObject (cadenaOriginal selloDigital hashDocumento : string).

Record FirmaDigital : Type := mkFirmaDigital {
  firmante : option ObjectId;
  fechaFirma : option Z;
  certificado_numeroSerie : option string;
  certificado_inicio : option Z;
  certificado_fin : option Z;
  selloDigital : option Sello
}.

Record t : Type := mk {
  _id : ObjectId;
  paciente : option ObjectId;
  tipo : option string;
  contenido : Contenido;
  documento : Documento;
  firmaDigital : option FirmaDigital;
  estado : Estado;
  createdBy : option ObjectId;
  active : bool;
  (** Mongoose's change tracking: [isModified('contenido')]. *)
  contenido_modified : bool;
  isNew : bool
}.
End ExpedienteDoc.

Record User : Type := mkUser {
  user_id : ObjectId;
  user_role : string;
  user_name : string;
  user_email : string
}.

Record Paciente : Type := mkPaciente {
  paciente_id : ObjectId;
  nombreCompleto : string
}.

(** ** The platform

    Library functions the code calls and this repository does not define:
    Node's [crypto] and [JSON.stringify], the BSON size the storage engine
    charges a document, and the PDF renderer. *)
Class Platform : Type := {
  sha256_hex : string -> string;
  (** [JSON.stringify(contenido)]: the keys come out in the order the
      object lists them; nothing sorts them. *)
  JSON_stringify : ExpedienteDoc.Contenido -> string;
  (** Mongoose's constructor and its [init]: the order of the keys of
      [contenido] in a new document built from an object that lists them
      in a given order, and in a document read from the store that was
      written with them in a given order. *)
  constructed_keys : list string -> list string;
  hydrated_keys : list string -> list string;
  (** [crypto.createVerify(alg).update(data).verify(key, signature)]; it
      throws on an unknown algorithm or a malformed key. *)
  crypto_verify : string -> string -> string -> string -> Completion bool;
  bsonSize : AuditDoc.t -> Z;
  generarPDF : ExpedienteDoc.t -> option Paciente -> Completion string
}.

(** ** The world and the monad of asynchronous code *)

Record World : Type := mkWorld {
  auditlogs : list AuditDoc.t;
  (** whether a write to the audit collection reaches the store *)
  audit_store_up : bool;
  firmas : list FirmaDoc.t;
  expedientes : list ExpedienteDoc.t;
  pacientes : list Paciente;
  users : list User;
  files : list (string * string);
  (** what [console.error] printed, oldest first *)
  console : list JsError;
  (** the clock, read by [new Date()] and [Date.now] *)
  now : Z;
  (** the next [ObjectId] the driver hands out *)
  next_id : ObjectId
}.

Definition M (A : Type) : Type := World -> Completion A * World.

Definition ret {A : Type} (a : A) : M A := fun w => (Return a, w).

Definition throw {A : Type} (e : JsError) : M A := fun w => (Throw e, w).

Definition bind {A B : Type} (m : M A) (k : A -> M B) : M B :=
  fun w =>
    match m w with
    | (Return a, w') => k a w'
    | (Throw e, w') => (Throw e, w')
    end.

(** [try { m } catch (error) { h error }] *)
Definition try_catch {A : Type} (m : M A) (h : JsError -> M A) : M A :=
  fun w =>
    match m w with
    | (Return a, w') => (Return a, w')
    | (Throw e, w') => h e w'
    end.

Definition lift {A : Type} (c : Completion A) : M A := fun w => (c, w).

Definition gets {A : Type} (f : World -> A) : M A := fun w => (Return (f w), w).

Definition modify (f : World -> World) : M unit := fun w => (Return tt, f w).

Declare Scope js_scope.
Delimit Scope js_scope with js.
Notation "x <- m ;; k" := (bind m (fun x => k))
  (at level 100, m at next level, right associativity) : js_scope.
Notation "m ;;; k" := (bind m (fun _ => k))
  (at level 100, right associativity) : js_scope.
Local Open Scope js_scope.

Definition console_error (e : JsError) : M unit :=
  modify (fun w =>
    mkWorld (auditlogs w) (audit_store_up w) (firmas w) (expedientes w)
            (pacientes w) (users w) (files w) (console w ++ [e]) (now w)
            (next_id w)).

Definition set_auditlogs (l : list AuditDoc.t) (w : World) : World :=
  mkWorld l (audit_store_up w) (firmas w) (expedientes w) (pacientes w)
          (users w) (files w) (console w) (now w) (next_id w).

Definition set_firmas (l : list FirmaDoc.t) (w : World) : World :=
  mkWorld (auditlogs w) (audit_store_up w) l (expedientes w) (pacientes w)
          (users w) (files w) (console w) (now w) (next_id w).

Definition set_expedientes (l : list ExpedienteDoc.t) (w : World) : World :=
  mkWorld (auditlogs w) (audit_store_up w) (firmas w) l (pacientes w)
          (users w) (files w) (console w) (now w) (next_id w).

Definition set_files (l : list (string * string)) (w : World) : World :=
  mkWorld (auditlogs w) (audit_store_up w) (firmas w) (expedientes w)
          (pacientes w) (users w) l (console w) (now w) (next_id w).

Definition set_audit_store_up (b : bool) (w : World) : World :=
  mkWorld (auditlogs w) b (firmas w) (expedientes w) (pacientes w)
          (users w) (files w) (console w) (now w) (next_id w).

(** A fresh [_id]: the counter is extended, so consecutive ids differ. *)
Definition fresh_id : M ObjectId :=
  fun w =>
    (Return (next_id w),
     mkWorld (auditlogs w) (audit_store_up w) (firmas w) (expedientes w)
             (pacientes w) (users w) (files w) (console w) (now w)
             (String.append (next_id w) "0")).

(** ** models/AuditLog.js *)

Module AuditLog.
Import AuditDoc.

Definition roles : list string := ["admin"; "doctor"; "paciente"].

Definition acciones : list string :=
  ["login"; "logout"; "reset_password"; "change_password";
   "crear"; "leer"; "actualizar"; "eliminar";
   "firmar_documento"; "generar_pdf"; "subir_archivo"; "descargar_archivo";
   "otorgar_acceso"; "revocar_acceso"].

Definition entidades : list string :=
  ["Usuario"; "Paciente"; "Expediente"; "Documento"].

(** The schema option [capped: { size: 5242880, max: 10000 }]. *)
Definition capped_size : Z := 5242880.
Definition capped_max : Z := 10000.

Record Entidad : Type := mkEntidad {
  tipo : option string;
  id : option ObjectId
}.

Record Seguridad : Type := mkSeguridad {
  ip : option string;
  userAgent : option string;
  sessionId : option string
}.

Record Resultado : Type := mkResultado {
  exitoso : option bool;
  mensaje : option string;
  codigoError : option string
}.

(** The argument of [registrar]: the keys [registrar] reads, and the nested
    [seguridad] and [resultado] objects that callers pass and it never
    reads. *)
Record Datos : Type := mkDatos {
  d_usuario : option ObjectId;
  d_rolUsuario : option string;
  d_accion : option string;
  d_entidad : option Entidad;
  d_detalles : option string;
  d_ip : option string;
  d_userAgent : option string;
  d_sessionId : option string;
  d_exitoso : option bool;
  d_mensaje : option string;
  d_codigoError : option string;
  d_seguridad : option Seguridad;
  d_resultado : option Resultado
}.

(** Schema validation: the paths that fail. *)
Definition validate (d : t) : list string :=
  required "usuario" (usuario d)
  ++ required_string "rolUsuario" (rolUsuario d)
  ++ enum "rolUsuario" roles (rolUsuario d)
  ++ required_string "accion" (accion d)
  ++ enum "accion" acciones (accion d)
  ++ required_string "entidad.tipo" (entidad_tipo d)
  ++ enum "entidad.tipo" entidades (entidad_tipo d)
  ++ required "entidad.id" (entidad_id d)
  ++ required_string "seguridad.ip" (seguridad_ip d)
  ++ required "resultado.exitoso" (resultado_exitoso d).

(** [auditLogSchema.pre('save', ...)] *)
Definition pre_save (d : t) : M unit :=
  if negb (isNew d)
  then throw (Error "Los registros de auditoría no pueden ser modificados")
  else ret tt.

Definition persisted (d : t) : t :=
  mk (_id d) (usuario d) (rolUsuario d) (accion d) (entidad_tipo d)
     (entidad_id d) (detalles d) (seguridad_ip d) (seguridad_userAgent d)
     (seguridad_sessionId d) (resultado_exitoso d) (resultado_mensaje d)
     (resultado_codigoError d) (timestamp d) false.

Section Store.
Context {P : Platform}.

Definition total_size (l : list t) : Z :=
  fold_right (fun d acc => bsonSize d + acc) 0 l.

Definition fits (l : list t) : bool :=
  (Z.of_nat (List.length l) <=? capped_max) && (total_size l <=? capped_size).

(** Modelled from the spec: the storage engine's eviction for a capped
    collection, which the schema configures and this repository does not
    implement. When the size or count ceiling is passed the oldest
    documents are dropped first, until the collection fits again. *)
Fixpoint evict (l : list t) : list t :=
  match l with
  | [] => []
  | _ :: rest => if fits l then l else evict rest
  end.

(** Modelled from the spec: an insert into the capped collection appends
    the document and evicts; a document larger than the whole collection
    is refused, and so is any write while the store is unreachable. *)
Definition insert (d : t) : M unit :=
  up <- gets audit_store_up ;;
  if negb up then throw (MongoError "audit store unreachable")
  else if capped_size <? bsonSize d
  then throw (MongoError "document exceeds the capped size")
  else modify (fun w => set_auditlogs (evict (auditlogs w ++ [d])) w).

Definition replace_doc (d : t) (l : list t) : list t :=
  map (fun x => if String.eqb (_id x) (_id d) then d else x) l.

(** The write of a document whose hooks have passed: an insert for a new
    document, an update in place otherwise. *)
Definition write (d : t) : M unit :=
  if isNew d then insert (persisted d)
  else
    up <- gets audit_store_up ;;
    if negb up then throw (MongoError "audit store unreachable")
    else modify (fun w => set_auditlogs (replace_doc (persisted d) (auditlogs w)) w).

(** [doc.save()]: Mongoose validates first (its validation is the first
    pre-save hook), then runs the schema's own pre-save hooks, then
    writes. *)
Definition save (d : t) : M t :=
  match validate d with
  | [] => ret tt
  | paths => throw (ValidationError paths)
  end ;;;
  pre_save d ;;;
  write d ;;;
  ret (persisted d).

(** [new this({...})] inside [registrar]: the security context and the
    outcome are read from the top level of [datos]. *)
Definition build (datos : Datos) : M t :=
  oid <- fresh_id ;;
  ts <- gets now ;;
  ret (mk oid
          (d_usuario datos)
          (d_rolUsuario datos)
          (d_accion datos)
          (match d_entidad datos with Some e => tipo e | None => None end)
          (match d_entidad datos with Some e => id e | None => None end)
          (match d_detalles datos with Some s => s | None => "{}" end)
          (d_ip datos)
          (d_userAgent datos)
          (d_sessionId datos)
          (d_exitoso datos)
          (d_mensaje datos)
          (d_codigoError datos)
          ts
          true).

(** [auditLogSchema.statics.registrar]; [None] is JavaScript's [null]. *)
Definition registrar (datos : Datos) : M (option t) :=
  try_catch
    (log <- build datos ;;
     saved <- save log ;;
     ret (Some saved))
    (fun error =>
       console_error error ;;;
       ret None).

End Store.

(** *** Queries *)

(** A Mongo filter on the audit collection; an unset key constrains
    nothing. *)
Record Query : Type := mkQuery {
  q_usuario : option ObjectId;
  q_rolUsuario : option string;
  q_accion : option string;
  q_entidad_tipo : option string;
  q_entidad_id : option ObjectId;
  q_exitoso : option bool;
  q_gte : option Z;
  q_lte : option Z
}.

Definition cond {A : Type} (q : option A) (test : A -> bool) : bool :=
  match q with
  | Some v => test v
  | None => true
  end.

Definition opt_bool_eqb (a : option bool) (b : bool) : bool :=
  match a with
  | Some v => Bool.eqb v b
  | None => false
  end.

Definition matches (q : Query) (d : t) : bool :=
  cond (q_usuario q) (opt_eqb (usuario d))
  && cond (q_rolUsuario q) (opt_eqb (rolUsuario d))
  && cond (q_accion q) (opt_eqb (accion d))
  && cond (q_entidad_tipo q) (opt_eqb (entidad_tipo d))
  && cond (q_entidad_id q) (opt_eqb (entidad_id d))
  && cond (q_exitoso q) (opt_bool_eqb (resultado_exitoso d))
  && cond (q_gte q) (fun lo => lo <=? timestamp d)
  && cond (q_lte q) (fun hi => timestamp d <=? hi).

(** [.sort({ timestamp: -1 })]: newest first, by insertion. *)
Fixpoint insert_desc (d : t) (l : list t) : list t :=
  match l with
  | [] => [d]
  | x :: rest =>
      if timestamp x <? timestamp d then d :: l else x :: insert_desc d rest
  end.

Definition sort_desc (l : list t) : list t := fold_right insert_desc [] l.

(** [.limit(n)]: zero means no limit, a negative limit counts as its
    absolute value. *)
Definition limit (n : Z) (l : list t) : list t :=
  if n =? 0 then l else firstn (Z.to_nat (Z.abs n)) l.

(** [.populate('usuario', 'name email role')] *)
Definition populate (us : list User) (d : t) : t * option User :=
  (d, match usuario d with
      | Some u => find (fun x => String.eqb (user_id x) u) us
      | None => None
      end).

(** [find(q).sort({ timestamp: -1 }).skip(sk).limit(lim).populate(...)]:
    whatever the order of the calls, the driver filters, sorts, skips and
    then limits; it refuses a negative skip. *)
Definition page (q : Query) (sk lim : Z) : M (list (t * option User)) :=
  if sk <? 0 then throw (MongoError "skip must be non-negative")
  else
    fun w =>
      (Return (map (populate (users w))
                 (limit lim
                    (skipn (Z.to_nat sk)
                       (sort_desc (filter (matches q) (auditlogs w)))))),
       w).


(** A date as a caller gives it to [buscar]: a [Date] object, or a
    number of milliseconds that [new Date(n)] turns into one. *)
Inductive Fecha : Type :=
| FechaDate (ms : Z)
| FechaNumber (ms : Z).

(** The argument of [buscar]; the page size and offset are counts. *)
Record Filtros : Type := mkFiltros {
  f_usuario : option string;
  f_accion : option string;
  f_entidadTipo : option string;
  f_entidadId : option string;
  f_exitoso : option bool;
  f_fechaInicio : option Fecha;
  f_fechaFin : option Fecha;
  f_limite : option nat;
  f_skip : option nat
}.

(** [if (v) bound = new Date(v)]: an object is truthy, the number 0 is
    not. *)
Definition given_fecha (v : option Fecha) : option Z :=
  match v with
  | Some (FechaDate ms) => Some ms
  | Some (FechaNumber ms) => if ms =? 0 then None else Some ms
  | None => None
  end.

(** [if (v) query.k = v] *)
Definition given (v : option string) : option string :=
  if truthy v then v else None.

(** [n || d] on a count *)
Definition or_count (n : option nat) (d : nat) : nat :=
  match n with
  | Some (S k) => S k
  | _ => d
  end.

Definition buscar_query (f : Filtros) : Query :=
  mkQuery (given (f_usuario f)) None (given (f_accion f))
          (given (f_entidadTipo f)) (given (f_entidadId f))
          (f_exitoso f) (given_fecha (f_fechaInicio f))
          (given_fecha (f_fechaFin f)).

(** [auditLogSchema.statics.buscar] *)
Definition buscar (f : Filtros) : M (list (t * option User)) :=
  page (buscar_query f)
       (Z.of_nat (or_count (f_skip f) 0))
       (Z.of_nat (or_count (f_limite f) 100)).

End AuditLog.

(** ** models/Firma.js *)

Module Firma.
Import FirmaDoc.

Definition algoritmos : list string := ["RSA-SHA256"; "ECDSA-P256-SHA256"].

Definition propositos : list string :=
  ["creacion_expediente"; "actualizacion_expediente"; "nota_medica";
   "receta"; "consentimiento_informado"; "resultado_laboratorio"].

Definition estados : list string := ["valida"; "revocada"; "expirada"].

(** Setting the nested path [certificado.emisor] to a string that is not
    empty is a cast error, reported as a failure of that path. *)
Definition cast_emisor (path : string) (v : option Emisor) : list string :=
  match v with
  | Some (EmisorString s) => if String.eqb s "" then [] else [path]
  | _ => []
  end.

(** Schema validation of the object given to [Firma.create]. *)
Definition validate (i : Input) : list string :=
  cast_emisor "certificado.emisor" (in_emisor i)
  ++ required "expediente" (in_expediente i)
  ++ required "firmante" (in_firmante i)
  ++ required_string "certificado.numeroSerie" (in_numeroSerie i)
  ++ required "certificado.vigencia.inicio" (in_vigencia_inicio i)
  ++ required "certificado.vigencia.fin" (in_vigencia_fin i)
  ++ required_string "certificado.certificadoPublico" (in_certificadoPublico i)
  ++ enum "firma.algoritmo" algoritmos (in_algoritmo i)
  ++ required_string "firma.cadenaOriginal" (in_cadenaOriginal i)
  ++ required_string "firma.selloDigital" (in_selloDigital i)
  ++ required_string "firma.hashDocumento" (in_hashDocumento i)
  ++ required_string "metadata.proposito" (in_proposito i)
  ++ enum "metadata.proposito" propositos (in_proposito i)
  ++ enum "estado" estados (in_estado i).

(** The state a valid [estado] string names; 'valida' is the default. *)
Definition estado_of (v : option string) : Estado :=
  match v with
  | Some s =>
      if String.eqb s "revocada" then Revocada
      else if String.eqb s "expirada" then Expirada
      else Valida
  | None => Valida
  end.

(** The document of a valid input, with the schema's defaults where the
    input is silent: [firma.algoritmo] is RSA-SHA256, [timestamp.fecha]
    is the clock and [estado] is 'valida'. *)
Definition hydrate (oid : ObjectId) (ts : Z) (i : Input) : option t :=
  match in_expediente i, in_firmante i, in_numeroSerie i,
        in_vigencia_inicio i, in_vigencia_fin i, in_certificadoPublico i,
        in_cadenaOriginal i, in_selloDigital i, in_hashDocumento i,
        in_proposito i with
  | Some e, Some f, Some ns, Some vi, Some vf, Some cp,
    Some co, Some sd, Some hd, Some pr =>
      Some (mk oid e f ns (in_emisor i) vi vf cp
               (match in_algoritmo i with Some a => a | None => "RSA-SHA256" end)
               co sd hd
               (match in_timestamp_fecha i with Some t => t | None => ts end)
               pr (estado_of (in_estado i)) (in_revocacion i))
  | _, _, _, _, _, _, _, _, _, _ => None
  end.

(** [Firma.create(obj)] *)
Definition create (i : Input) : M t :=
  oid <- fresh_id ;;
  ts <- gets now ;;
  match validate i, hydrate oid ts i with
  | [], Some d =>
      modify (fun w => set_firmas (firmas w ++ [d]) w) ;;;
      ret d
  | paths, _ => throw (ValidationError paths)
  end.

(** Validation when an existing signature is saved: the required paths. *)
Definition validate_doc (d : t) : list string :=
  required_string "certificado.numeroSerie" (Some (numeroSerie d))
  ++ required_string "certificado.certificadoPublico" (Some (certificadoPublico d))
  ++ required_string "firma.cadenaOriginal" (Some (cadenaOriginal d))
  ++ required_string "firma.selloDigital" (Some (selloDigital d))
  ++ required_string "firma.hashDocumento" (Some (hashDocumento d))
  ++ required_string "metadata.proposito" (Some (proposito d))
  ++ enum "metadata.proposito" propositos (Some (proposito d)).

Definition replace_doc (d : t) (l : list t) : list t :=
  map (fun x => if String.eqb (_id x) (_id d) then d else x) l.

(** [this.save()] on an existing signature; the schema has no hook. *)
Definition save (d : t) : M t :=
  match validate_doc d with
  | [] =>
      modify (fun w => set_firmas (replace_doc d (firmas w)) w) ;;;
      ret d
  | paths => throw (ValidationError paths)
  end.

(** What [verificarFirma] returns. *)
Record Verificacion : Type := mkVerificacion {
  valida : bool;
  mensaje : string;
  detalles : option Revocacion;
  error : option string
}.

Section Methods.
Context {P : Platform}.

(** [firmaSchema.methods.verificarFirma] *)
Definition verificarFirma (this : t) : M Verificacion :=
  try_catch
    (ahora <- gets now ;;
     if (ahora <? vigencia_inicio this) || (vigencia_fin this <? ahora)
     then ret (mkVerificacion false "El certificado ha expirado" None None)
     else
       match estado this with
       | Revocada =>
           ret (mkVerificacion false "La firma ha sido revocada"
                               (revocacion this) None)
       | _ =>
           firmaValida <- lift (crypto_verify (algoritmo this)
                                              (cadenaOriginal this)
                                              (certificadoPublico this)
                                              (selloDigital this)) ;;
           ret (mkVerificacion firmaValida
                  (if firmaValida then "Firma válida" else "Firma inválida")
                  None None)
       end)
    (fun err =>
       ret (mkVerificacion false "Error al verificar la firma" None
                           (Some (message err)))).

Definition with_revocacion (this : t) (r : Revocacion) : t :=
  mk (_id this) (expediente this) (firmante this) (numeroSerie this)
     (emisor this) (vigencia_inicio this) (vigencia_fin this)
     (certificadoPublico this) (algoritmo this) (cadenaOriginal this)
     (selloDigital this) (hashDocumento this) (timestamp_fecha this)
     (proposito this) Revocada (Some r).

(** [firmaSchema.methods.revocar]; the result is [this] after the call. *)
Definition revocar (this : t) (usuario : User) (motivo : string) : M t :=
  ahora <- gets now ;;
  let this' := with_revocacion this (mkRevocacion ahora motivo (user_id usuario)) in
  saved <- save this' ;;
  AuditLog.registrar
    (AuditLog.mkDatos
       (Some (user_id usuario)) (Some (user_role usuario))
       (Some "revocar_firma")
       (Some (AuditLog.mkEntidad (Some "Firma") (Some (_id this))))
       (Some motivo)
       None None None None None None
       None
       (Some (AuditLog.mkResultado (Some true)
                (Some "Firma revocada exitosamente") None))) ;;;
  ret saved.

End Methods.
End Firma.

(** ** models/Expediente.js *)

Module Expediente.
Import ExpedienteDoc.

Definition tipos : list string :=
  ["historia_clinica"; "nota_evolucion"; "nota_interconsulta";
   "nota_referencia"; "nota_urgencias"; "nota_hospitalizacion";
   "consentimiento_informado"; "resultado_laboratorio"; "estudio_imagen";
   "receta_medica"].

(** Assigning an object to the String path [firmaDigital.selloDigital]
    is a cast error, reported as a failure of that path. *)
Definition cast_sello (path : string) (v : option Sello) : list string :=
  match v with
  | Some (SelloObject _ _ _) => [path]
  | _ => []
  end.

Definition validate (d : t) : list string :=
  required "paciente" (paciente d)
  ++ required_string "tipo" (tipo d)
  ++ enum "tipo" tipos (tipo d)
  ++ required "contenido.datosEspecificos" (datosEspecificos (contenido d))
  ++ required "firmaDigital.firmante"
       (match firmaDigital d with Some f => firmante f | None => None end)
  ++ required "firmaDigital.fechaFirma"
       (match firmaDigital d with Some f => fechaFirma f | None => None end)
  ++ cast_sello "firmaDigital.selloDigital"
       (match firmaDigital d with Some f => selloDigital f | None => None end)
  ++ required "createdBy" (createdBy d).

Definition with_documento (d : t) (doc : Documento) : t :=
  mk (_id d) (paciente d) (tipo d) (contenido d) doc (firmaDigital d)
     (estado d) (createdBy d) (active d) (contenido_modified d) (isNew d).

(** The document as it is once written: nothing is new or modified. *)
Definition persisted (d : t) : t :=
  mk (_id d) (paciente d) (tipo d) (contenido d) (documento d)
     (firmaDigital d) (estado d) (createdBy d) (active d) false false.

Definition replace_doc (d : t) (l : list t) : list t :=
  map (fun x => if String.eqb (_id x) (_id d) then d else x) l.

Section Methods.
Context {P : Platform}.

(** The hash binder: [crypto.createHash('sha256')] over
    [JSON.stringify(contenido)], in hexadecimal. *)
Definition hashContenido (c : Contenido) : string :=
  sha256_hex (JSON_stringify c).

(** [expedienteSchema.pre('save', ...)]: the document after the hook. *)
Definition pre_save (this : t) : M t :=
  if contenido_modified this
  then
    ahora <- gets now ;;
    ret (with_documento this
           (mkDocumento (url (documento this))
                        (Some (hashContenido (contenido this)))
                        (Some ahora)))
  else ret this.

(** [expedienteSchema.methods.verificarIntegridad] *)
Definition verificarIntegridad (this : t) : bool :=
  opt_eqb (hash (documento this)) (hashContenido (contenido this)).

(** [doc.save()]: validation, the pre-save hook, then the write: an
    insert for a new document, an update in place otherwise. *)
Definition save (d : t) : M t :=
  match validate d with
  | [] => ret tt
  | paths => throw (ValidationError paths)
  end ;;;
  d' <- pre_save d ;;
  modify (fun w =>
    set_expedientes
      (if isNew d' then expedientes w ++ [persisted d']
       else replace_doc (persisted d') (expedientes w)) w) ;;;
  ret (persisted d').

End Methods.

(** A document as the store hands it out: the values that were written,
    the keys of [contenido] in the order of hydration. *)
Definition hydrate {P : Platform} (d : t) : t :=
  mk (_id d) (paciente d) (tipo d)
     (mkContenido (hydrated_keys (claves (contenido d)))
        (fecha (contenido d)) (motivo (contenido d))
        (padecimientoActual (contenido d)) (diagnostico (contenido d))
        (tratamiento (contenido d)) (pronostico (contenido d))
        (datosEspecificos (contenido d)) (version (contenido d)))
     (documento d) (firmaDigital d) (estado d) (createdBy d) (active d)
     false false.

(** [Expediente.findById(id)] behind the [pre(/^find/)] hook, which
    hides the documents whose [active] is false. *)
Definition findById {P : Platform} (oid : ObjectId) : M (option t) :=
  gets (fun w =>
    option_map hydrate
      (find (fun d => String.eqb (_id d) oid && active d) (expedientes w))).

End Expediente.

(** [Paciente.findById(id)] *)
Definition Paciente_findById (oid : option ObjectId) : M (option Paciente) :=
  gets (fun w =>
    match oid with
    | Some i => find (fun p => String.eqb (paciente_id p) i) (pacientes w)
    | None => None
    end).

(** [fs.writeFile(path, data)] *)
Definition writeFile (path data : string) : M unit :=
  modify (fun w => set_files (files w ++ [(path, data)]) w).

(** ** The request *)

Record Vigencia : Type := mkVigencia {
  inicio : option Z;
  fin : option Z
}.

(** [req.body.certificado] *)
Record Certificado : Type := mkCertificado {
  numeroSerie : option string;
  emisor : option FirmaDoc.Emisor;
  vigencia : option Vigencia
}.

(** [req.query] of the audit routes; dates and integers are parsed,
    [None] is a missing or unparsable value. *)
Record AuditParams : Type := mkAuditParams {
  p_usuario : option string;
  p_rolUsuario : option string;
  p_accion : option string;
  p_entidadTipo : option string;
  p_entidadId : option string;
  p_exitoso : option string;
  p_fechaInicio : option Z;
  p_fechaFin : option Z;
  p_page : option Z;
  p_limit : option Z
}.

Record Request : Type := mkRequest {
  user : User;
  params_id : ObjectId;
  ip : option string;
  userAgent : option string;
  sessionID : option string;
  originalUrl : string;
  method : string;
  body_certificado : option Certificado;
  query : AuditParams
}.

(** ** middlewares/errorHandler.js *)

Module ErrorHandler.
Section Middleware.
Context {P : Platform}.

(** [logError]: the error is written to the audit trail, with the
    security context and the outcome nested under [seguridad] and
    [resultado]. *)
Definition logError (err : JsError) (req : Request) : M unit :=
  try_catch
    (AuditLog.registrar
       (AuditLog.mkDatos
          (Some (user_id (user req))) (Some (user_role (user req)))
          (Some "error_sistema")
          (Some (AuditLog.mkEntidad (Some "Sistema") None))
          (Some (message err))
          None None None None None None
          (Some (AuditLog.mkSeguridad (ip req) (userAgent req) (sessionID req)))
          (Some (AuditLog.mkResultado (Some false)
                   (Some (message err)) None))) ;;;
     ret tt)
    (fun error => console_error error).

(** [errorHandler]: the error is logged and then answered. The JSON body
    of the answer is a rendering of the error and is identified with it. *)
Definition errorHandler {A : Type} (err : JsError) (req : Request) : M A :=
  logError err req ;;;
  throw err.

(** [catchAsync(fn)], with the error middleware behind [next]. *)
Definition catchAsync {A : Type} (fn : Request -> M A) (req : Request) : M A :=
  try_catch (fn req) (fun err => errorHandler err req).

End Middleware.
End ErrorHandler.

(** ** controllers/expedienteController.js *)

Module ExpedienteController.
Section Controller.
Context {P : Platform}.

(** [registrarAuditoria(req, accion, entidadId, detalles, exitoso, mensaje)] *)
Definition registrarAuditoria (req : Request) (accion : string)
    (entidadId : option ObjectId) (detalles : option string)
    (exitoso : bool) (mensaje : string) : M unit :=
  AuditLog.registrar
    (AuditLog.mkDatos
       (Some (user_id (user req))) (Some (user_role (user req)))
       (Some accion)
       (Some (AuditLog.mkEntidad (Some "Expediente") entidadId))
       detalles
       None None None None None None
       (Some (AuditLog.mkSeguridad (ip req) (userAgent req) (sessionID req)))
       (Some (AuditLog.mkResultado (Some exitoso) (Some mensaje) None))) ;;;
  ret tt.

(** The object the controller hands to [Firma.create]. Its keys
    [expedienteId] and [doctorId] are not paths of the schema, so the
    paths [expediente] and [firmante] stay unset; [new Date(undefined)]
    is an invalid date and leaves its path unset as well. *)
Definition firmaInput (c : Certificado) (v : Vigencia) : FirmaDoc.Input :=
  FirmaDoc.mkInput None None (numeroSerie c) (emisor c) (inicio v) (fin v)
                   None None None None None None None None None.

Definition firmar (e : ExpedienteDoc.t) (quien : ObjectId) (cuando : Z)
    (firma : FirmaDoc.t) : ExpedienteDoc.t :=
  ExpedienteDoc.mk
    (ExpedienteDoc._id e) (ExpedienteDoc.paciente e) (ExpedienteDoc.tipo e)
    (ExpedienteDoc.contenido e) (ExpedienteDoc.documento e)
    (Some (ExpedienteDoc.mkFirmaDigital
             (Some quien) (Some cuando)
             (Some (FirmaDoc.numeroSerie firma))
             (Some (FirmaDoc.vigencia_inicio firma))
             (Some (FirmaDoc.vigencia_fin firma))
             (Some (ExpedienteDoc.SelloObject
                      (FirmaDoc.cadenaOriginal firma)
                      (FirmaDoc.selloDigital firma)
                      (FirmaDoc.hashDocumento firma)))))
    ExpedienteDoc.Firmado
    (ExpedienteDoc.createdBy e) (ExpedienteDoc.active e)
    (ExpedienteDoc.contenido_modified e) (ExpedienteDoc.isNew e).

(** [exports.firmarExpediente], the function inside [catchAsync];
    [return next(err)] is a throw to the error middleware. *)
Definition firmarExpediente (req : Request) : M ExpedienteDoc.t :=
  if negb (String.eqb (user_role (user req)) "doctor")
  then throw (AppError "Solo doctores pueden firmar expedientes" 403)
  else
    found <- Expediente.findById (params_id req) ;;
    match found with
    | None => throw (AppError "No se encontró el expediente" 404)
    | Some expediente =>
        match ExpedienteDoc.estado expediente with
        | ExpedienteDoc.Firmado =>
            throw (AppError "El expediente ya está firmado" 400)
        | _ =>
            match body_certificado req with
            | None => throw (TypeError "req.body.certificado is undefined")
            | Some c =>
                match vigencia c with
                | None => throw (TypeError "certificado.vigencia is undefined")
                | Some v =>
                    firma <- Firma.create (firmaInput c v) ;;
                    ahora <- gets now ;;
                    saved <- Expediente.save
                               (firmar expediente (user_id (user req)) ahora firma) ;;
                    paciente <- Paciente_findById (ExpedienteDoc.paciente saved) ;;
                    pdfBuffer <- lift (generarPDF saved paciente) ;;
                    writeFile (String.append "expediente_"
                                 (String.append (ExpedienteDoc._id saved) ".pdf"))
                              pdfBuffer ;;;
                    registrarAuditoria req "firmar"
                      (Some (ExpedienteDoc._id saved))
                      (Some (FirmaDoc._id firma)) true
                      "Expediente firmado exitosamente" ;;;
                    ret saved
                end
            end
        end
    end.

End Controller.
End ExpedienteController.

(** ** controllers/auditController.js *)

Module AuditController.
Section Controller.
Context {P : Platform}.




(** The filter [getAuditLogs] builds from [req.query]. *)
Definition filtros (p : AuditParams) : AuditLog.Query :=
  AuditLog.mkQuery
    (AuditLog.given (p_usuario p))
    (AuditLog.given (p_rolUsuario p))
    (AuditLog.given (p_accion p))
    (AuditLog.given (p_entidadTipo p))
    (AuditLog.given (p_entidadId p))
    (match p_exitoso p with
     | Some s => Some (String.eqb s "true")
     | None => None
     end)
    (p_fechaInicio p)
    (p_fechaFin p).


End Controller.
End AuditController.

(** ** The spec's error taxonomy, as the code raises it *)

Definition ImmutableRecordViolation : JsError :=
  Error "Los registros de auditoría no pueden ser modificados".


(** The integrity failure of the download path, the only place where the
    code compares a record's stored hash with its content. *)
Definition ContentHashMismatch : JsError :=
  AppError "El documento ha sido alterado" 400.

Definition ExpiredCertificate : string := "El certificado ha expirado".

(** ** A platform and sample data to run the model on *)

(** A rendering of [JSON.stringify] that walks the keys in the order
    the object lists them; a date is rendered by its milliseconds. *)
Definition comillas (s : string) : string :=
  String "034"%char (String.append s (String "034"%char "")).

Definition digits (n : Z) : string := NilZero.string_of_int (Z.to_int n).

Definition sample_value (c : ExpedienteDoc.Contenido) (k : string)
  : option string :=
  if String.eqb k "fecha" then Some (digits (ExpedienteDoc.fecha c))
  else if String.eqb k "motivo"
  then option_map comillas (ExpedienteDoc.motivo c)
  else if String.eqb k "padecimientoActual"
  then option_map comillas (ExpedienteDoc.padecimientoActual c)
  else if String.eqb k "diagnostico"
  then option_map comillas (ExpedienteDoc.diagnostico c)
  else if String.eqb k "tratamiento"
  then option_map comillas (ExpedienteDoc.tratamiento c)
  else if String.eqb k "pronostico"
  then option_map comillas (ExpedienteDoc.pronostico c)
  else if String.eqb k "datosEspecificos"
  then ExpedienteDoc.datosEspecificos c
  else if String.eqb k "metadata"
  then Some (String.append "{"
               (String.append (comillas "version")
                  (String.append ":"
                     (String.append (digits (ExpedienteDoc.version c)) "}"))))
  else None.

Definition sample_stringify (c : ExpedienteDoc.Contenido) : string :=
  String.append "{"
    (String.append
       (String.concat ","
          (flat_map
             (fun k =>
                match sample_value c k with
                | Some v => [String.append (comillas k) (String.append ":" v)]
                | None => []
                end)
             (ExpedienteDoc.claves c)))
       "}").

(** The keys of [contenido] in the order of the schema. *)
Definition schema_keys : list string :=
  ["fecha"; "motivo"; "padecimientoActual"; "diagnostico"; "tratamiento";
   "pronostico"; "datosEspecificos"; "metadata"].

(** A sample platform. Its constructor leaves [metadata], which has a
    plain default, before the keys of the body and [fecha], whose
    default is a function, after them when the body does not give it;
    its store hands the keys out in the order of the schema. *)
Definition sample_platform : Platform := {|
  sha256_hex := fun s => String.append "sha256:" s;
  JSON_stringify := sample_stringify;
  constructed_keys := fun ks =>
    ("metadata" :: filter (fun k => negb (String.eqb k "metadata")) ks
     ++ (if str_in "fecha" ks then [] else ["fecha"]))%list;
  hydrated_keys := fun ks => filter (fun k => str_in k ks) schema_keys;
  crypto_verify := fun alg data key sig =>
    if str_in alg Firma.algoritmos
    then Return (String.eqb sig (String.append key data))
    else Throw (Error "Invalid digest");
  bsonSize := fun _ => 512;
  generarPDF := fun _ p =>
    match p with
    | Some _ => Return "%PDF"
    | None => Throw (TypeError "paciente is null")
    end
|}.

Definition doctor : User := mkUser "u1" "doctor" "Ana" "ana@example.org".
Definition admin : User := mkUser "u2" "admin" "Luis" "luis@example.org".
Definition patient : User := mkUser "u3" "paciente" "Eva" "eva@example.org".

Definition no_params : AuditParams :=
  mkAuditParams None None None None None None None None None None.

Definition empty_world : World :=
  mkWorld [] true [] [] [] [doctor; admin; patient] [] [] 1700000000000 "a".

(** A login record as [registrar] writes it when the security context
    and the outcome are given at the top level. *)
Definition login_datos (ok : bool) : AuditLog.Datos :=
  AuditLog.mkDatos (Some "u1") (Some "doctor") (Some "login")
    (Some (AuditLog.mkEntidad (Some "Usuario") (Some "u1"))) None
    (Some "10.0.0.1") (Some "curl") (Some "s1") (Some ok) (Some "login") None
    None None.

Definition login_doc (oid : ObjectId) (ok : bool) (ts : Z) (new : bool)
  : AuditDoc.t :=
  AuditDoc.mk oid (Some "u1") (Some "doctor") (Some "login") (Some "Usuario")
    (Some "u1") "{}" (Some "10.0.0.1") (Some "curl") (Some "s1") (Some ok)
    (Some "login") None ts new.

(** A stored record, loaded and given a role outside the schema's enum. *)
Definition tampered_doc : AuditDoc.t :=
  AuditDoc.mk "r1" (Some "u1") (Some "root") (Some "login") (Some "Usuario")
    (Some "u1") "{}" (Some "10.0.0.1") (Some "curl") (Some "s1") (Some true)
    (Some "login") None 1700000000000 false.

Definition sample_request (u : User) (cert : option Certificado) : Request :=
  mkRequest u "e1" (Some "10.0.0.1") (Some "curl") (Some "s1")
            "/api/expedientes/e1/firmar" "POST" cert no_params.

Definition sample_certificado : Certificado :=
  mkCertificado (Some "00001000000504465028")
                (Some (FirmaDoc.EmisorString "SAT"))
                (Some (mkVigencia (Some 1577836800000) (Some 1609459200000))).

(** The audit collection holding one stored login record. *)
Definition stored_world : World :=
  set_auditlogs [login_doc "r1" true 1700000000000 false] empty_world.

(** The argument the controllers' audit helper builds: the security
    context and the outcome are nested. *)
Definition nested_datos : AuditLog.Datos :=
  AuditLog.mkDatos (Some "u1") (Some "doctor") (Some "crear")
    (Some (AuditLog.mkEntidad (Some "Expediente") (Some "e1"))) None
    None None None None None None
    (Some (AuditLog.mkSeguridad (Some "10.0.0.1") (Some "curl") (Some "s1")))
    (Some (AuditLog.mkResultado (Some true) (Some "creado") None)).

(** Newest first: no record is older than one that follows it. *)
Definition newest_first (a b : AuditDoc.t) : Prop :=
  AuditDoc.timestamp b <= AuditDoc.timestamp a.

(** A date is given when the filter carries a date object, or a number
    of milliseconds other than 0. *)
Definition fecha_dada (v : option AuditLog.Fecha) (ms : Z) : Prop :=
  v = Some (AuditLog.FechaDate ms) \/
  (v = Some (AuditLog.FechaNumber ms) /\ ms <> 0).

(** The filters of an audit query as the spec words them: a record is
    selected when it agrees with every filter that is given, and its
    timestamp lies in the closed range between the dates that are given. *)
Definition selected (f : AuditLog.Filtros) (d : AuditDoc.t) : Prop :=
  (forall u, AuditLog.f_usuario f = Some u -> u <> "" ->
             AuditDoc.usuario d = Some u) /\
  (forall a, AuditLog.f_accion f = Some a -> a <> "" ->
             AuditDoc.accion d = Some a) /\
  (forall t, AuditLog.f_entidadTipo f = Some t -> t <> "" ->
             AuditDoc.entidad_tipo d = Some t) /\
  (forall i, AuditLog.f_entidadId f = Some i -> i <> "" ->
             AuditDoc.entidad_id d = Some i) /\
  (forall b, AuditLog.f_exitoso f = Some b ->
             AuditDoc.resultado_exitoso d = Some b) /\
  (forall lo, fecha_dada (AuditLog.f_fechaInicio f) lo ->
              lo <= AuditDoc.timestamp d) /\
  (forall hi, fecha_dada (AuditLog.f_fechaFin f) hi ->
              AuditDoc.timestamp d <= hi).


(** January 2024: failed and successful logins, and a failed login in
    February, in insertion order. *)
Definition january_world : World :=
  set_auditlogs
    [login_doc "r1" false 1704103200000 false;
     login_doc "r2" true 1704999600000 false;
     login_doc "r3" false 1705500000000 false;
     login_doc "r4" false 1707000000000 false]
    empty_world.

Definition january_failed_logins : AuditLog.Filtros :=
  AuditLog.mkFiltros None (Some "login") None None (Some false)
                     (Some (AuditLog.FechaDate 1704067200000))
                     (Some (AuditLog.FechaDate 1706659200000)) None None.

(** The audit collection at its count ceiling. *)
Definition full_world : World :=
  set_auditlogs
    (login_doc "r0" true 1600000000000 false
     :: repeat (login_doc "r1" true 1700000000000 false) 9999)
    empty_world.

(** A signature whose certificate ran from 2020-01-01 to 2021-01-01. *)
Definition sample_firma (st : FirmaDoc.Estado)
    (rev : option FirmaDoc.Revocacion) : FirmaDoc.t :=
  FirmaDoc.mk "f1" "e1" "u1" "00001000000504465028"
    (Some (FirmaDoc.EmisorObject (Some "SAT") None None (Some "MX")))
    1577836800000 1609459200000 "PEM" "RSA-SHA256" "||e1|u1||" "PEM||e1|u1||"
    "sha256:h" 1580000000000 "nota_medica" st rev.

Definition revoked_firma : FirmaDoc.t :=
  sample_firma FirmaDoc.Revocada
    (Some (FirmaDoc.mkRevocacion 1590000000000 "clave comprometida" "u2")).

(** The world on 2022-01-01 and on 2020-07-01, holding one signature. *)
Definition world_2022 (f : FirmaDoc.t) : World :=
  mkWorld [] true [f] [] [] [doctor; admin; patient] [] [] 1640995200000 "a".

Definition world_2020 (f : FirmaDoc.t) : World :=
  mkWorld [] true [f] [] [] [doctor; admin; patient] [] [] 1593561600000 "a".

Definition sample_contenido : ExpedienteDoc.Contenido :=
  ExpedienteDoc.mkContenido
    ["fecha"; "motivo"; "diagnostico"; "datosEspecificos"; "metadata"]
    1700000000000 (Some "cefalea") None (Some "migraña") None None
    (Some "{}") 1.

(** A record as the controller finds it: stored, active, not modified. *)
Definition sample_expediente (st : ExpedienteDoc.Estado)
    (h : option string) : ExpedienteDoc.t :=
  ExpedienteDoc.mk "e1" (Some "p1") (Some "nota_evolucion") sample_contenido
    (ExpedienteDoc.mkDocumento (Some "/uploads/expedientes/expediente_e1.pdf")
                               h (Some 1700000000000))
    (Some (ExpedienteDoc.mkFirmaDigital (Some "u1") (Some 1700000000000)
             None None None None))
    st (Some "u1") true false false.


Definition world_with (e : ExpedienteDoc.t) : World :=
  mkWorld [] true [] [e] [mkPaciente "p1" "Eva Luna"] [doctor; admin; patient]
          [] [] 1700000000000 "a".

(** A draft whose stored hash is not the hash of its content. *)
Definition stale_expediente : ExpedienteDoc.t :=
  sample_expediente ExpedienteDoc.Borrador (Some "sha256:stale").

Definition signed_expediente : ExpedienteDoc.t :=
  sample_expediente ExpedienteDoc.Firmado
    (Some (String.append "sha256:" (sample_stringify sample_contenido))).

(** ** middlewares/errorHandler.js: the [AppError] class *)

Module AppErrorClass.

(** [`${statusCode}`]: the number in decimal. *)
Definition template (statusCode : Z) : string :=
  NilZero.string_of_int (Z.to_int statusCode).

(** [this.status] as the constructor sets it. *)
Definition status (statusCode : Z) : string :=
  if String.prefix "4" (template statusCode) then "fail" else "error".

End AppErrorClass.

(** ** middlewares/authMiddleware.js *)

Module AuthMiddleware.

(** What a middleware does with a request: it calls [next()], or it
    answers with a status code, a message and, for [protect], the
    message of the error. *)
Inductive Answer (A : Type) : Type :=
| Next (a : A)
| Respond (statusCode : Z) (mensaje : string) (error : option string).
Arguments Next {A} a.
Arguments Respond {A} statusCode mensaje error.

(** The request before [protect] has set [req.user]. *)
Record Incoming : Type := mkIncoming {
  authorization : option string;
  in_params_id : ObjectId;
  in_ip : option string;
  in_userAgent : option string;
  in_sessionID : option string;
  in_originalUrl : string;
  in_method : string;
  in_body_certificado : option Certificado;
  in_query : AuditParams
}.

(** [req.user = user] *)
Definition with_user (i : Incoming) (u : User) : Request :=
  mkRequest u (in_params_id i) (in_ip i) (in_userAgent i) (in_sessionID i)
            (in_originalUrl i) (in_method i) (in_body_certificado i)
            (in_query i).

(** What the middleware takes from outside this repository: the token
    library, and the [active] flag and the [changedPasswordAfter] method
    of the User model. [jwt_verify] gives [decoded.id] and [decoded.iat]
    or throws. *)
Class Accounts : Type := {
  jwt_verify : string -> Completion (ObjectId * Z);
  changedPasswordAfter : User -> Z -> bool;
  active : User -> bool
}.

(** [s.split(sep)] on a one-character separator. *)
Fixpoint split (sep : ascii) (s : string) : list string :=
  match s with
  | EmptyString => [EmptyString]
  | String c rest =>
      if Ascii.eqb c sep then EmptyString :: split sep rest
      else
        match split sep rest with
        | piece :: pieces => String c piece :: pieces
        | [] => [String c EmptyString]
        end
  end.

(** The token [protect] reads from the [Authorization] header. *)
Definition token (header : option string) : option string :=
  match header with
  | Some h =>
      if String.prefix "Bearer" h then nth_error (split " " h) 1 else None
  | None => None
  end.

Section Middleware.
Context {P : Platform} {Acc : Accounts}.

(** [req.user?.role || 'anonymous'] *)
Definition role_or_anonymous (u : option User) : string :=
  match u with
  | Some x => if String.eqb (user_role x) "" then "anonymous" else user_role x
  | None => "anonymous"
  end.

(** [registrarIntentoFallido(req, razon)], on the parts of [req] it
    reads: the user, when there is one, the security context, the route
    and the method. *)
Definition registrarIntentoFallido (u : option User)
    (seguridad : AuditLog.Seguridad) (ruta metodo razon : string) : M unit :=
  try_catch
    (AuditLog.registrar
       (AuditLog.mkDatos
          (option_map user_id u) (Some (role_or_anonymous u))
          (Some "acceso_denegado")
          (Some (AuditLog.mkEntidad (Some "Sistema") None))
          (Some (String.append ruta
                   (String.append " " (String.append metodo
                      (String.append " " razon)))))
          None None None None None None
          (Some seguridad)
          (Some (AuditLog.mkResultado (Some false) (Some razon) None))) ;;;
     ret tt)
    (fun error => console_error error).

(** [registrarAccesoExitoso(req)] *)
Definition registrarAccesoExitoso (req : Request) : M unit :=
  try_catch
    (AuditLog.registrar
       (AuditLog.mkDatos
          (Some (user_id (user req))) (Some (user_role (user req)))
          (Some "acceso_exitoso")
          (Some (AuditLog.mkEntidad (Some "Sistema") None))
          (Some (String.append (originalUrl req)
                   (String.append " " (method req))))
          None None None None None None
          (Some (AuditLog.mkSeguridad (ip req) (userAgent req) (sessionID req)))
          (Some (AuditLog.mkResultado (Some true)
                   (Some "Acceso autorizado") None))) ;;;
     ret tt)
    (fun error => console_error error).

Definition seguridad_of (i : Incoming) : AuditLog.Seguridad :=
  AuditLog.mkSeguridad (in_ip i) (in_userAgent i) (in_sessionID i).

(** [User.findById(id)] *)
Definition User_findById (oid : ObjectId) : M (option User) :=
  gets (fun w => find (fun x => String.eqb (user_id x) oid) (users w)).

(** [exports.protect] *)
Definition protect (i : Incoming) : M (Answer Request) :=
  try_catch
    (match token (authorization i) with
     | Some t =>
         if String.eqb t ""
         then
           registrarIntentoFallido None (seguridad_of i) (in_originalUrl i)
             (in_method i) "No se proporcionó token" ;;;
           ret (Respond 401 "No está autorizado para acceder a este recurso"
                        None)
         else
           try_catch
             (decoded <- lift (jwt_verify t) ;;
              found <- User_findById (fst decoded) ;;
              match found with
              | None => throw (Error "El usuario ya no existe")
              | Some u =>
                  if changedPasswordAfter u (snd decoded)
                  then throw (Error "Usuario cambió recientemente su contraseña")
                  else if negb (active u)
                  then throw (Error "Usuario inactivo")
                  else
                    registrarAccesoExitoso (with_user i u) ;;;
                    ret (Next (with_user i u))
              end)
             (fun error =>
                registrarIntentoFallido None (seguridad_of i)
                  (in_originalUrl i) (in_method i) (message error) ;;;
                throw error)
     | None =>
         registrarIntentoFallido None (seguridad_of i) (in_originalUrl i)
           (in_method i) "No se proporcionó token" ;;;
         ret (Respond 401 "No está autorizado para acceder a este recurso"
                      None)
     end)
    (fun error =>
       ret (Respond 401 "No está autorizado para acceder a este recurso"
                    (Some (message error)))).

(** [exports.restrictTo(...roles)] *)
Definition restrictTo (roles : list string) (req : Request)
  : M (Answer Request) :=
  if negb (str_in (user_role (user req)) roles)
  then
    registrarIntentoFallido (Some (user req))
      (AuditLog.mkSeguridad (ip req) (userAgent req) (sessionID req))
      (originalUrl req) (method req)
      "Acceso denegado por rol insuficiente" ;;;
    ret (Respond 403 "No tiene permiso para realizar esta acción" None)
  else ret (Next req).

End Middleware.
End AuthMiddleware.

(** ** controllers/expedienteController.js: the download *)

Module ExpedienteDownload.

(** Node's [path.basename] on POSIX paths: trailing slashes are dropped
    and what follows the last remaining slash is kept. *)
Fixpoint drop_slashes (l : list ascii) : list ascii :=
  match l with
  | c :: rest => if Ascii.eqb c "/" then drop_slashes rest else l
  | [] => []
  end.

Fixpoint until_slash (l : list ascii) : list ascii :=
  match l with
  | c :: rest => if Ascii.eqb c "/" then [] else c :: until_slash rest
  | [] => []
  end.

Definition basename (p : string) : string :=
  string_of_list_ascii
    (rev (until_slash (drop_slashes (rev (list_ascii_of_string p))))).

Section Controller.
Context {P : Platform}.

(** [config.fileUploadDir] *)
Variable fileUploadDir : string.

(** [exports.downloadPDF], the function inside [catchAsync]. The
    answer is the list of segments handed to [path.join] and then to
    [res.download]; [pacienteId] is [req.user.pacienteId]. *)
Definition downloadPDF (req : Request) (pacienteId : option ObjectId)
  : M (list string) :=
  found <- Expediente.findById (params_id req) ;;
  match found with
  | None => throw (AppError "No se encontró el expediente" 404)
  | Some expediente =>
      paciente <- Paciente_findById (ExpedienteDoc.paciente expediente) ;;
      (if String.eqb (user_role (user req)) "paciente"
       then
         match paciente with
         | None => throw (TypeError "expediente.paciente is null")
         | Some p =>
             if negb (opt_eqb pacienteId (paciente_id p))
             then throw (AppError
                           "No tiene permiso para descargar este expediente"
                           403)
             else ret tt
         end
       else ret tt) ;;;
      match ExpedienteDoc.url (ExpedienteDoc.documento expediente) with
      | None => throw (TypeError "The path argument must be of type string")
      | Some u =>
          let pdfPath := [fileUploadDir; "expedientes"; basename u] in
          if negb (Expediente.verificarIntegridad expediente)
          then throw (AppError "El documento ha sido alterado" 400)
          else
            ExpedienteController.registrarAuditoria req "descargar"
              (Some (ExpedienteDoc._id expediente)) None true
              "Descarga de expediente exitosa" ;;;
            ret pdfPath
      end
  end.

End Controller.
End ExpedienteDownload.

(** ** controllers/auditController.js: export and statistics *)

Module AuditReports.

(** A row of the export. *)
Record Fila : Type := mkFila {
  Fecha : string;
  Usuario : string;
  Email : string;
  Rol : option string;
  Accion : option string;
  EntidadTipo : option string;
  EntidadId : option ObjectId;
  ResultadoExitoso : string;
  Mensaje : option string;
  IP : option string;
  UserAgent : option string
}.

(** [{ timestamp: { $gte, $lte } }], the only filter of the export
    and of the statistics. *)
Definition rango (desde hasta : option Z) : AuditLog.Query :=
  AuditLog.mkQuery None None None None None None desde hasta.

(** [$group: { _id: '$key', count: { $sum: 1 } }], one document at a
    time. *)
Definition key_eqb (a b : option string) : bool :=
  match a, b with
  | Some x, Some y => String.eqb x y
  | None, None => true
  | _, _ => false
  end.

Fixpoint tally (k : option string) (groups : list (option string * Z))
  : list (option string * Z) :=
  match groups with
  | [] => [(k, 1)]
  | (k', n) :: rest =>
      if key_eqb k k' then (k', n + 1) :: rest else (k', n) :: tally k rest
  end.

Definition group_count (key : AuditDoc.t -> option string)
    (l : list AuditDoc.t) : list (option string * Z) :=
  fold_left (fun groups d => tally (key d) groups) l [].

(** [$sort: { count: -1 }] *)
Fixpoint insert_count (g : option string * Z)
    (l : list (option string * Z)) : list (option string * Z) :=
  match l with
  | [] => [g]
  | x :: rest => if snd x <? snd g then g :: l else x :: insert_count g rest
  end.

Definition sort_count (l : list (option string * Z))
  : list (option string * Z) :=
  fold_right insert_count [] l.

(** [$sum: { $cond: [{ $eq: ['$resultado.exitoso', b] }, 1, 0] }] *)
Definition count_exitoso (b : bool) (l : list AuditDoc.t) : Z :=
  Z.of_nat (List.length
              (filter (fun d =>
                         AuditLog.opt_bool_eqb (AuditDoc.resultado_exitoso d) b)
                      l)).

Record Stats : Type := mkStats {
  totalRegistros : Z;
  accionesExitosas : Z;
  accionesFallidas : Z
}.

Record Estadisticas : Type := mkEstadisticas {
  stats : option Stats;
  distribucionAcciones : list (option string * Z);
  distribucionRoles : list (option string * Z);
  periodo : Z * Z
}.

Section Controller.
Context {P : Platform}.

(** [date.toLocaleString()] and the [json2csv] parser with the
    controller's columns. *)
Variable toLocaleString : Z -> string.
Variable parse : list Fila -> string.

(** [fechaInicio.setDate(fechaInicio.getDate() - 30)]: the instant
    thirty calendar days before, in the server's time zone. *)
Variable thirtyDaysBefore : Z -> Z.

(** The row [exportAuditLogs] makes of a populated record. *)
Definition fila (pop : AuditDoc.t * option User) : Fila :=
  let (log, u) := pop in
  mkFila (toLocaleString (AuditDoc.timestamp log))
         (match u with Some x => user_name x | None => "N/A" end)
         (match u with Some x => user_email x | None => "N/A" end)
         (AuditDoc.rolUsuario log)
         (AuditDoc.accion log)
         (AuditDoc.entidad_tipo log)
         (AuditDoc.entidad_id log)
         (match AuditDoc.resultado_exitoso log with
          | Some true => "Sí"
          | _ => "No"
          end)
         (AuditDoc.resultado_mensaje log)
         (AuditDoc.seguridad_ip log)
         (AuditDoc.seguridad_userAgent log).

(** [exports.exportAuditLogs], the function inside [catchAsync]; the
    answer is the CSV text. *)
Definition exportAuditLogs (req : Request) : M string :=
  if negb (String.eqb (user_role (user req)) "admin")
  then throw (AppError
                "No tiene permiso para exportar registros de auditoría" 403)
  else
    let filtros := rango (p_fechaInicio (query req)) (p_fechaFin (query req)) in
    found <- AuditLog.page filtros 0 0 ;;
    let csv := parse (map fila found) in
    AuditLog.registrar
      (AuditLog.mkDatos
         (Some (user_id (user req))) (Some (user_role (user req)))
         (Some "exportar_auditoria")
         (Some (AuditLog.mkEntidad (Some "AuditLog") None))
         (Some "filtros")
         None None None None None None
         (Some (AuditLog.mkSeguridad (ip req) (userAgent req) (sessionID req)))
         (Some (AuditLog.mkResultado (Some true)
                  (Some "Exportación de registros de auditoría exitosa")
                  None))) ;;;
    ret csv.

(** The three aggregations of [getAuditStats] over the matched
    records. *)
Definition resumen (l : list AuditDoc.t) : option Stats :=
  match l with
  | [] => None
  | _ =>
      Some (mkStats (Z.of_nat (List.length l))
                    (count_exitoso true l) (count_exitoso false l))
  end.

(** [exports.getAuditStats], the function inside [catchAsync]. *)
Definition getAuditStats (req : Request) : M Estadisticas :=
  if negb (String.eqb (user_role (user req)) "admin")
  then throw (AppError
                "No tiene permiso para ver estadísticas de auditoría" 403)
  else
    fechaFin <- gets now ;;
    let fechaInicio := thirtyDaysBefore fechaFin in
    matched <- gets (fun w =>
                 filter (AuditLog.matches
                           (rango (Some fechaInicio) (Some fechaFin)))
                        (auditlogs w)) ;;
    AuditLog.registrar
      (AuditLog.mkDatos
         (Some (user_id (user req))) (Some (user_role (user req)))
         (Some "consultar_estadisticas_auditoria")
         (Some (AuditLog.mkEntidad (Some "AuditLog") None))
         (Some "periodo")
         None None None None None None
         (Some (AuditLog.mkSeguridad (ip req) (userAgent req) (sessionID req)))
         (Some (AuditLog.mkResultado (Some true)
                  (Some "Consulta de estadísticas exitosa") None))) ;;;
    ret (mkEstadisticas
           (resumen matched)
           (sort_count (group_count AuditDoc.accion matched))
           (sort_count (group_count AuditDoc.rolUsuario matched))
           (fechaInicio, fechaFin)).

End Controller.
End AuditReports.

(** A string with no space in it. *)
Definition spaceless (t : string) : Prop :=
  ~ In " "%char (list_ascii_of_string t).

(** ** controllers/expedienteController.js: the creation *)

Module ExpedienteCreate.

(** [req.body.contenido]: its keys in the order the body lists them;
    every key may be missing. *)
Record BodyContenido : Type := mkBodyContenido {
  c_claves : list string;
  c_fecha : option Z;
  c_motivo : option string;
  c_padecimientoActual : option string;
  c_diagnostico : option string;
  c_tratamiento : option string;
  c_pronostico : option string;
  c_datosEspecificos : option string;
  c_version : option Z
}.

(** [req.body] of the creation, on the paths of the schema; [estado]
    and [createdBy] are overwritten by the controller and are left
    out, and so is [_id]: the body leaves the id to the store. *)
Record Body : Type := mkBody {
  b_paciente : option ObjectId;
  b_tipo : option string;
  b_contenido : option BodyContenido;
  b_documento : option ExpedienteDoc.Documento;
  b_firmaDigital : option ExpedienteDoc.FirmaDigital;
  b_active : option bool
}.

Definition or_else {A : Type} (v : option A) (d : A) : A :=
  match v with
  | Some x => x
  | None => d
  end.

(** The content of the new document: the keys of the body, with the
    defaults of the schema, [Date.now] for [fecha] and 1 for
    [metadata.version], in the order the constructor leaves them. *)
Definition contenido_of {P : Platform} (c : option BodyContenido) (ahora : Z)
  : ExpedienteDoc.Contenido :=
  match c with
  | Some b =>
      ExpedienteDoc.mkContenido (constructed_keys (c_claves b))
        (or_else (c_fecha b) ahora) (c_motivo b)
        (c_padecimientoActual b) (c_diagnostico b) (c_tratamiento b)
        (c_pronostico b) (c_datosEspecificos b) (or_else (c_version b) 1)
  | None =>
      ExpedienteDoc.mkContenido (constructed_keys []) ahora None None None
        None None None 1
  end.

(** [new Expediente({...req.body, createdBy, estado: 'borrador'})]: a
    new document; [contenido] counts as modified when the body sets
    it. *)
Definition nuevo {P : Platform} (oid : ObjectId) (ahora : Z) (b : Body)
    (creador : ObjectId) : ExpedienteDoc.t :=
  ExpedienteDoc.mk oid (b_paciente b) (b_tipo b)
    (contenido_of (b_contenido b) ahora)
    (or_else (b_documento b) (ExpedienteDoc.mkDocumento None None None))
    (b_firmaDigital b)
    ExpedienteDoc.Borrador (Some creador) (or_else (b_active b) true)
    (match b_contenido b with Some _ => true | None => false end)
    true.

Section Controller.
Context {P : Platform}.

(** [config.fileUploadDir] and Node's [path.join]. *)
Variable fileUploadDir : string.
Variable path_join : list string -> string.

(** [Expediente.create(obj)] *)
Definition create (b : Body) (creador : ObjectId) : M ExpedienteDoc.t :=
  oid <- fresh_id ;;
  ahora <- gets now ;;
  Expediente.save (nuevo oid ahora b creador).

(** [`expediente_${expediente._id}.pdf`] *)
Definition pdfFileName (e : ExpedienteDoc.t) : string :=
  String.append "expediente_" (String.append (ExpedienteDoc._id e) ".pdf").

(** [exports.createExpediente], the function inside [catchAsync];
    [fs.mkdir] makes the directory of the file and is not recorded. *)
Definition createExpediente (req : Request) (b : Body) : M ExpedienteDoc.t :=
  if negb (String.eqb (user_role (user req)) "doctor")
  then throw (AppError "Solo doctores pueden crear expedientes" 403)
  else
    paciente <- Paciente_findById (b_paciente b) ;;
    match paciente with
    | None => throw (AppError "No se encontró el paciente" 404)
    | Some p =>
        expediente <- create b (user_id (user req)) ;;
        pdfBuffer <- lift (generarPDF expediente (Some p)) ;;
        writeFile (path_join [fileUploadDir; "expedientes";
                              pdfFileName expediente])
                  pdfBuffer ;;;
        ahora <- gets now ;;
        saved <- Expediente.save
                   (Expediente.with_documento expediente
                      (ExpedienteDoc.mkDocumento
                         (Some (String.append "/uploads/expedientes/"
                                  (pdfFileName expediente)))
                         (ExpedienteDoc.hash
                            (ExpedienteDoc.documento expediente))
                         (Some ahora))) ;;
        ExpedienteController.registrarAuditoria req "crear"
          (Some (ExpedienteDoc._id saved)) (Some "datos") true
          "Expediente creado exitosamente" ;;;
        ret saved
    end.

End Controller.
End ExpedienteCreate.

(** The world after an audit record was refused: the id counter has
    moved and the error is on the console. *)
Definition after_refused_audit (e : JsError) (w : World) : World :=
  mkWorld (auditlogs w) (audit_store_up w) (firmas w) (expedientes w)
          (pacientes w) (users w) (files w) (console w ++ [e]) (now w)
          (String.append (next_id w) "0").

(** The request carries a token that verifies for a stored user who is
    active and has not changed the password since the token was issued. *)
Definition authenticates {Acc : AuthMiddleware.Accounts}
    (i : AuthMiddleware.Incoming) (w : World) (u : User) : Prop :=
  exists t id iat,
    AuthMiddleware.token (AuthMiddleware.authorization i) = Some t /\
    t <> "" /\
    AuthMiddleware.jwt_verify t = Return (id, iat) /\
    find (fun x => String.eqb (user_id x) id) (users w) = Some u /\
    AuthMiddleware.changedPasswordAfter u iat = false /\
    AuthMiddleware.active u = true.

Definition unauthorized : string :=
  "No está autorizado para acceder a este recurso".

(** Accounts for the sample users: the token "tok-<id>" verifies for
    the user <id>, everybody is active but the user "u9". *)
Definition sample_accounts : AuthMiddleware.Accounts := {|
  AuthMiddleware.jwt_verify := fun t =>
    if String.prefix "tok-" t
    then Return (String.substring 4 (String.length t - 4) t, 1700000000)
    else Throw (Error "jwt malformed");
  AuthMiddleware.changedPasswordAfter := fun _ _ => false;
  AuthMiddleware.active := fun u => negb (String.eqb (user_id u) "u9")
|}.

Definition sample_incoming (header : option string) : AuthMiddleware.Incoming :=
  AuthMiddleware.mkIncoming header "e1" (Some "10.0.0.1") (Some "curl")
    (Some "s1") "/api/expedientes/e1/firmar" "POST" (Some sample_certificado)
    no_params.

(** The document [registrar] builds from [login_datos] in
    [stored_world], and a query for logins. *)
Definition built_login : AuditDoc.t :=
  login_doc "a" false 1700000000000 true.

Definition logins : AuditLog.Filtros :=
  AuditLog.mkFiltros None (Some "login") None None None None None None None.

(** A complete input for [Firma.create]. *)
Definition sample_input : FirmaDoc.Input :=
  FirmaDoc.mkInput (Some "e1") (Some "u1") (Some "00001000000504465028")
    (Some (FirmaDoc.EmisorObject (Some "SAT") None None (Some "MX")))
    (Some 1577836800000) (Some 1609459200000) (Some "PEM")
    None (Some "||e1|u1||") (Some "PEM||e1|u1||") (Some "sha256:h")
    None (Some "nota_medica") None None.

(** Two contents with the same value under every key, whatever the
    order of their keys. *)
Definition same_values (a b : ExpedienteDoc.Contenido) : Prop :=
  ExpedienteDoc.fecha a = ExpedienteDoc.fecha b /\
  ExpedienteDoc.motivo a = ExpedienteDoc.motivo b /\
  ExpedienteDoc.padecimientoActual a = ExpedienteDoc.padecimientoActual b /\
  ExpedienteDoc.diagnostico a = ExpedienteDoc.diagnostico b /\
  ExpedienteDoc.tratamiento a = ExpedienteDoc.tratamiento b /\
  ExpedienteDoc.pronostico a = ExpedienteDoc.pronostico b /\
  ExpedienteDoc.datosEspecificos a = ExpedienteDoc.datosEspecificos b /\
  ExpedienteDoc.version a = ExpedienteDoc.version b.

(** A record [r] read from the store is the record [d] that was
    written: every path has the value that was written, and the keys of
    the content come in the order of hydration. *)
Definition as_written {P : Platform} (r d : ExpedienteDoc.t) : Prop :=
  ExpedienteDoc._id r = ExpedienteDoc._id d /\
  ExpedienteDoc.paciente r = ExpedienteDoc.paciente d /\
  ExpedienteDoc.tipo r = ExpedienteDoc.tipo d /\
  same_values (ExpedienteDoc.contenido r) (ExpedienteDoc.contenido d) /\
  ExpedienteDoc.claves (ExpedienteDoc.contenido r)
  = hydrated_keys (ExpedienteDoc.claves (ExpedienteDoc.contenido d)) /\
  ExpedienteDoc.documento r = ExpedienteDoc.documento d /\
  ExpedienteDoc.firmaDigital r = ExpedienteDoc.firmaDigital d /\
  ExpedienteDoc.estado r = ExpedienteDoc.estado d /\
  ExpedienteDoc.createdBy r = ExpedienteDoc.createdBy d /\
  ExpedienteDoc.active r = ExpedienteDoc.active d.

(** The content of [sample_body_contenido] as the sample constructor
    leaves it. *)
Definition created_contenido : ExpedienteDoc.Contenido :=
  ExpedienteDoc.mkContenido
    ["metadata"; "motivo"; "diagnostico"; "datosEspecificos"; "fecha"]
    1700000000000 (Some "cefalea") None (Some "migraña") None None
    (Some "{}") 1.

(** A new record with that content, about to be saved. *)
Definition created_expediente : ExpedienteDoc.t :=
  ExpedienteDoc.mk "e2" (Some "p1") (Some "nota_evolucion") created_contenido
    (ExpedienteDoc.mkDocumento None None None)
    (Some (ExpedienteDoc.mkFirmaDigital (Some "u1") (Some 1700000000000)
             None None None None))
    ExpedienteDoc.Borrador (Some "u1") true true true.

(** The same input with the issuer given as a string. *)
Definition string_emisor_input : FirmaDoc.Input :=
  FirmaDoc.mkInput (Some "e1") (Some "u1") (Some "00001000000504465028")
    (Some (FirmaDoc.EmisorString "SAT"))
    (Some 1577836800000) (Some 1609459200000) (Some "PEM")
    None (Some "||e1|u1||") (Some "PEM||e1|u1||") (Some "sha256:h")
    None (Some "nota_medica") None None.

(** The name of a state of a signature. *)
Definition estado_name (e : FirmaDoc.Estado) : string :=
  match e with
  | FirmaDoc.Valida => "valida"
  | FirmaDoc.Revocada => "revocada"
  | FirmaDoc.Expirada => "expirada"
  end.

(** A stored record whose content has just been edited. *)
Definition edited_expediente : ExpedienteDoc.t :=
  ExpedienteDoc.mk "e1" (Some "p1") (Some "nota_evolucion") sample_contenido
    (ExpedienteDoc.mkDocumento (Some "/uploads/expedientes/expediente_e1.pdf")
                               (Some "sha256:stale") (Some 1700000000000))
    (Some (ExpedienteDoc.mkFirmaDigital (Some "u1") (Some 1700000000000)
             None None None None))
    ExpedienteDoc.Borrador (Some "u1") true true false.

(** The records of a date range, as the export and the statistics
    select them. *)
Definition in_range (desde hasta : option Z) (d : AuditDoc.t) : Prop :=
  (forall lo, desde = Some lo -> lo <= AuditDoc.timestamp d) /\
  (forall hi, hasta = Some hi -> AuditDoc.timestamp d <= hi).

(** The sum of the counts of a distribution, the count a distribution
    gives a key, and the number of records with a key. *)
Definition suma (l : list (option string * Z)) : Z :=
  fold_right (fun g acc => snd g + acc) 0 l.

Fixpoint count_of (k : option string) (l : list (option string * Z))
  : option Z :=
  match l with
  | [] => None
  | (k', n) :: rest =>
      if AuditReports.key_eqb k k' then Some n else count_of k rest
  end.

Definition with_key (key : AuditDoc.t -> option string) (k : option string)
    (l : list AuditDoc.t) : Z :=
  Z.of_nat (List.length
              (filter (fun d => AuditReports.key_eqb k (key d)) l)).

Definition most_first (a b : option string * Z) : Prop := snd b <= snd a.

Definition sample_locale (ts : Z) : string :=
  NilZero.string_of_int (Z.to_int ts).

Definition sample_csv (rows : list AuditReports.Fila) : string :=
  String.concat ";" (map AuditReports.Fecha rows).

(** A body of the creation with the signer and the signing date that
    the schema requires, a draft body without them, and a request for
    the record with a given id. *)
Definition sample_body_contenido : ExpedienteCreate.BodyContenido :=
  ExpedienteCreate.mkBodyContenido
    ["motivo"; "diagnostico"; "datosEspecificos"]
    None (Some "cefalea") None (Some "migraña") None None (Some "{}") None.

Definition signed_body : ExpedienteCreate.Body :=
  ExpedienteCreate.mkBody (Some "p1") (Some "nota_evolucion")
    (Some sample_body_contenido) None
    (Some (ExpedienteDoc.mkFirmaDigital (Some "u1") (Some 1700000000000)
             None None None None))
    None.

Definition draft_body : ExpedienteCreate.Body :=
  ExpedienteCreate.mkBody (Some "p1") (Some "nota_evolucion")
    (Some sample_body_contenido) None None None.

Definition request_for (u : User) (oid : ObjectId) : Request :=
  mkRequest u oid (Some "10.0.0.1") (Some "curl") (Some "s1")
            "/api/expedientes" "GET" None no_params.

Definition sample_join (l : list string) : string := String.concat "/" l.

(** The audit trail on the first of February 2024, for the statistics
    of the thirty days before. *)
Definition thirty_days : Z := 2592000000.

Definition stats_world : World :=
  mkWorld (auditlogs january_world) true [] [] [] [doctor; admin; patient]
          [] [] 1706745600000 "a".

Definition stats_request : Request :=
  mkRequest admin "" (Some "10.0.0.1") (Some "curl") (Some "s1")
            "/api/audit/stats" "GET" None no_params.

(** * Properties *)

(** ** The audit trail: append, immutability, the shape [registrar] reads *)

Section AuditTrail.
Context {P : Platform}.

(** The save of a document that is not new stops at validation or at the
    guard, before any write. *)
Lemma save_existing_eq (d : AuditDoc.t) (w : World) :
  AuditDoc.isNew d = false ->
  AuditLog.save d w =
    (Throw (match AuditLog.validate d with
            | [] => ImmutableRecordViolation
            | paths => ValidationError paths
            end), w).
Proof.
  intros Hnew. unfold AuditLog.save, AuditLog.pre_save, bind.
  destruct (AuditLog.validate d); simpl; [rewrite Hnew|]; reflexivity.
Qed.

(** What [registrar] does, by the outcome of building and saving. *)
Lemma registrar_eq (datos : AuditLog.Datos) (w : World) :
  AuditLog.registrar datos w =
    match (log <- AuditLog.build datos ;; AuditLog.save log) w with
    | (Return saved, w') => (Return (Some saved), w')
    | (Throw e, w') => (Return None, snd (console_error e w'))
    end.
Proof.
  unfold AuditLog.registrar, try_catch, bind.
  destruct (AuditLog.build datos w) as [[log|e] w1]; [|reflexivity].
  destruct (AuditLog.save log w1) as [[saved|e] w2]; reflexivity.
Qed.

Lemma build_eq (datos : AuditLog.Datos) (w : World) :
  exists d w',
    AuditLog.build datos w = (Return d, w') /\
    AuditDoc.seguridad_ip d = AuditLog.d_ip datos /\
    AuditDoc.resultado_exitoso d = AuditLog.d_exitoso datos /\
    AuditDoc.isNew d = true /\
    auditlogs w' = auditlogs w /\ console w' = console w /\
    firmas w' = firmas w /\ expedientes w' = expedientes w.
Proof.
  unfold AuditLog.build, bind, fresh_id, gets, ret. simpl.
  eexists; eexists; split; [reflexivity|]. simpl. repeat split.
Qed.

(** A failed save leaves the collections as they were. *)
Lemma save_throw_frame (d : AuditDoc.t) (w w' : World) (e : JsError) :
  AuditLog.save d w = (Throw e, w') -> w' = w.
Proof.
  unfold AuditLog.save, AuditLog.pre_save, AuditLog.write, AuditLog.insert,
    bind, gets, modify, throw, ret.
  destruct (AuditLog.validate d); simpl; [|intros H; inversion H; reflexivity].
  destruct (AuditDoc.isNew d); simpl; [|intros H; inversion H; reflexivity].
  destruct (audit_store_up w); simpl; [|intros H; inversion H; reflexivity].
  destruct (AuditLog.capped_size <? bsonSize (AuditLog.persisted d)); simpl;
    intros H; inversion H; reflexivity.
Qed.

Lemma save_invalid (d : AuditDoc.t) (w : World) :
  AuditLog.validate d <> [] ->
  AuditLog.save d w = (Throw (ValidationError (AuditLog.validate d)), w).
Proof.
  intros Hv. unfold AuditLog.save, bind.
  destruct (AuditLog.validate d); [congruence | reflexivity].
Qed.

(** [registrar] touches the audit collection, the console and the id
    counter, and nothing else. *)
Lemma registrar_returns (datos : AuditLog.Datos) (w : World) :
  exists r w',
    AuditLog.registrar datos w = (Return r, w') /\
    firmas w' = firmas w /\ expedientes w' = expedientes w /\
    files w' = files w /\ now w' = now w.
Proof.
  unfold AuditLog.registrar, try_catch, bind, AuditLog.build, fresh_id, gets,
    ret, AuditLog.save, AuditLog.pre_save, AuditLog.write, AuditLog.insert,
    modify, throw, console_error. simpl.
  destruct (AuditLog.validate _); simpl;
    [| eexists; eexists; split; [reflexivity | simpl; auto] ].
  destruct (audit_store_up w); simpl;
    [| eexists; eexists; split; [reflexivity | simpl; auto] ].
  destruct (AuditLog.capped_size <? _); simpl;
    eexists; eexists; (split; [reflexivity | simpl; auto]).
Qed.

Lemma validate_missing_ip (d : AuditDoc.t) :
  AuditDoc.seguridad_ip d = None -> In "seguridad.ip" (AuditLog.validate d).
Proof.
  intros H. unfold AuditLog.validate. rewrite H.
  rewrite !in_app_iff. cbn. tauto.
Qed.

Lemma validate_missing_exitoso (d : AuditDoc.t) :
  AuditDoc.resultado_exitoso d = None ->
  In "resultado.exitoso" (AuditLog.validate d).
Proof.
  intros H. unfold AuditLog.validate. rewrite H.
  rewrite !in_app_iff. cbn. tauto.
Qed.

(** The write of [registrar] when the document it builds is invalid:
    the validation error goes to the console, [null] comes back, and the
    audit collection is as before. *)
Lemma registrar_invalid (datos : AuditLog.Datos) (w : World) :
  AuditLog.d_ip datos = None \/ AuditLog.d_exitoso datos = None ->
  exists w' paths,
    AuditLog.registrar datos w = (Return None, w') /\
    auditlogs w' = auditlogs w /\
    console w' = (console w ++ [ValidationError paths])%list /\
    (AuditLog.d_ip datos = None -> In "seguridad.ip" paths) /\
    (AuditLog.d_exitoso datos = None -> In "resultado.exitoso" paths).
Proof.
  intros Hmissing. rewrite registrar_eq. unfold bind.
  destruct (build_eq datos w)
    as (d & w1 & Hb & Hip & Hex & _ & Ha & Hc & _ & _).
  rewrite Hb.
  assert (Hv : AuditLog.validate d <> []).
  { intros Hnil.
    destruct Hmissing as [Hm | Hm].
    - pose proof (validate_missing_ip d) as Hin.
      rewrite Hip, Hnil in Hin. exact (Hin Hm).
    - pose proof (validate_missing_exitoso d) as Hin.
      rewrite Hex, Hnil in Hin. exact (Hin Hm). }
  rewrite (save_invalid d w1 Hv).
  exists (snd (console_error (ValidationError (AuditLog.validate d)) w1)).
  exists (AuditLog.validate d).
  unfold console_error, modify. simpl.
  repeat split; try assumption.
  - rewrite Hc. reflexivity.
  - intros Hm. apply validate_missing_ip. rewrite Hip. exact Hm.
  - intros Hm. apply validate_missing_exitoso. rewrite Hex. exact Hm.
Qed.

(** C1 (amended). Every save of an audit document that is not new fails
    and leaves the world, and so the stored record, as it was: with the
    immutability error of the pre-save guard when the document passes
    schema validation, and with the validation error, raised before the
    guard runs, when it does not. No save of such a document returns, so
    only the creation of a new record can succeed. *)
Theorem audit_save_of_existing_record_fails (d : AuditDoc.t) (w : World) :
  AuditDoc.isNew d = false ->
  exists e,
    AuditLog.save d w = (Throw e, w) /\
    (AuditLog.validate d = [] -> e = ImmutableRecordViolation) /\
    (AuditLog.validate d <> [] -> e = ValidationError (AuditLog.validate d)) /\
    (forall d' w', AuditLog.save d w <> (Return d', w')).
Proof.
  intros Hnew. rewrite (save_existing_eq d w Hnew).
  eexists. split; [reflexivity|]. repeat split.
  - intros Hv. rewrite Hv. reflexivity.
  - intros Hv. destruct (AuditLog.validate d); [congruence | reflexivity].
  - intros d' w' H. discriminate H.
Qed.

(** C5. [registrar] never throws: it returns a document or [null]. When
    building or saving the record fails inside it, the failure is printed
    with [console.error], [null] is returned and the audit collection is
    unchanged; an unreachable store is one such failure. A caller that
    awaits [registrar] and then answers gets its own answer back, and the
    error middleware, which logs through [registrar], answers with the
    error it was given: the outcome of the append changes neither. *)
Theorem registrar_never_throws (datos : AuditLog.Datos) (w : World) :
  (exists r w', AuditLog.registrar datos w = (Return r, w')) /\
  (forall e w1,
      (log <- AuditLog.build datos ;; AuditLog.save log) w = (Throw e, w1) ->
      exists w',
        AuditLog.registrar datos w = (Return None, w') /\
        auditlogs w' = auditlogs w /\
        console w' = (console w ++ [e])%list) /\
  (audit_store_up w = false ->
   fst (AuditLog.registrar datos w) = Return None) /\
  (forall (A : Type) (x : A),
      fst ((AuditLog.registrar datos ;;; ret x) w) = Return x) /\
  (forall (A : Type) (err : JsError) (req : Request),
      fst (ErrorHandler.errorHandler (A := A) err req w) = Throw err).
Proof.
  split; [|split; [|split; [|split]]].
  - destruct (registrar_returns datos w) as (r & w' & H & _). eauto.
  - intros e w1 H. rewrite registrar_eq, H.
    eexists. split; [reflexivity|].
    unfold bind in H.
    destruct (build_eq datos w)
      as (d & w0 & Hb & _ & _ & _ & Ha & Hc & _ & _).
    rewrite Hb in H. apply save_throw_frame in H. subst w1.
    unfold console_error, modify. simpl. rewrite Ha, Hc. split; reflexivity.
  - intros Hdown.
    unfold AuditLog.registrar, try_catch, bind, AuditLog.build, fresh_id,
      gets, ret, AuditLog.save, AuditLog.pre_save, AuditLog.write,
      AuditLog.insert, modify, throw, console_error. simpl.
    destruct (AuditLog.validate _); simpl; [|reflexivity].
    rewrite Hdown. reflexivity.
  - intros A x. unfold bind.
    destruct (registrar_returns datos w) as (r & w' & H & _).
    rewrite H. reflexivity.
  - intros A err req.
    unfold ErrorHandler.errorHandler, ErrorHandler.logError, try_catch, bind.
    match goal with
    | |- context [AuditLog.registrar ?d w] =>
        destruct (registrar_returns d w) as (r & w' & H & _); rewrite H
    end.
    reflexivity.
Qed.

(** C10. [registrar] reads the origin address and the outcome from the
    top level of its argument, and the schema requires both. A call that
    leaves either one unset at the top level, whatever it carries under
    [seguridad] and [resultado], fails schema validation on that path:
    [registrar] returns [null], prints the validation error, and the audit
    collection holds what it held before. *)
Theorem registrar_drops_nested_context (datos : AuditLog.Datos) (w : World) :
  AuditLog.d_ip datos = None \/ AuditLog.d_exitoso datos = None ->
  exists w' paths,
    AuditLog.registrar datos w = (Return None, w') /\
    auditlogs w' = auditlogs w /\
    console w' = (console w ++ [ValidationError paths])%list /\
    (AuditLog.d_ip datos = None -> In "seguridad.ip" paths) /\
    (AuditLog.d_exitoso datos = None -> In "resultado.exitoso" paths).
Proof.
  exact (registrar_invalid datos w).
Qed.

(** The audit helpers of the controllers and of the error middleware
    persist nothing: each hands [registrar] the nested shape. *)
Lemma registrarAuditoria_persists_nothing (req : Request) accion entidadId
    detalles exitoso mensaje (w : World) :
  auditlogs (snd (ExpedienteController.registrarAuditoria
                    req accion entidadId detalles exitoso mensaje w))
  = auditlogs w.
Proof.
  unfold ExpedienteController.registrarAuditoria, bind.
  match goal with
  | |- context [AuditLog.registrar ?d w] =>
      destruct (registrar_invalid d w (or_introl eq_refl))
        as (w' & paths & H & Ha & _); rewrite H
  end.
  simpl. exact Ha.
Qed.

Lemma logError_persists_nothing (err : JsError) (req : Request) (w : World) :
  auditlogs (snd (ErrorHandler.logError err req w)) = auditlogs w.
Proof.
  unfold ErrorHandler.logError, try_catch, bind.
  match goal with
  | |- context [AuditLog.registrar ?d w] =>
      destruct (registrar_invalid d w (or_introl eq_refl))
        as (w' & paths & H & Ha & _); rewrite H
  end.
  simpl. exact Ha.
Qed.


End AuditTrail.

Lemma audit_save_of_existing_record_fails_witness :
  exists e,
    AuditLog.save (P := sample_platform)
      (login_doc "r1" true 1700000000000 false) stored_world
    = (Throw e, stored_world) /\
    (AuditLog.validate (login_doc "r1" true 1700000000000 false) = [] ->
     e = ImmutableRecordViolation) /\
    (AuditLog.validate (login_doc "r1" true 1700000000000 false) <> [] ->
     e = ValidationError
           (AuditLog.validate (login_doc "r1" true 1700000000000 false))) /\
    (forall d' w',
        AuditLog.save (P := sample_platform)
          (login_doc "r1" true 1700000000000 false) stored_world
        <> (Return d', w')).
Proof.
  apply (audit_save_of_existing_record_fails (P := sample_platform)).
  reflexivity.
Defined.

(** C1, as stated, fails: a stored record that is loaded, given a role
    outside the schema's enum and saved is refused by validation, which
    runs before the guard, and the error is not the immutability error. *)
Lemma audit_save_invalid_existing_counterexample :
  AuditDoc.isNew tampered_doc = false /\
  AuditLog.save (P := sample_platform) tampered_doc stored_world
  = (Throw (ValidationError ["rolUsuario"]), stored_world) /\
  ValidationError ["rolUsuario"] <> ImmutableRecordViolation.
Proof.
  split; [reflexivity|]. split; [vm_compute; reflexivity | discriminate].
Qed.

Lemma registrar_drops_nested_context_witness :
  exists w' paths,
    AuditLog.registrar (P := sample_platform) nested_datos stored_world
    = (Return None, w') /\
    auditlogs w' = auditlogs stored_world /\
    console w' = (console stored_world ++ [ValidationError paths])%list /\
    (AuditLog.d_ip nested_datos = None -> In "seguridad.ip" paths) /\
    (AuditLog.d_exitoso nested_datos = None -> In "resultado.exitoso" paths).
Proof.
  apply (registrar_drops_nested_context (P := sample_platform)).
  left. reflexivity.
Defined.

(** With the security context and the outcome at the top level the same
    call persists the record. *)
Example registrar_top_level_persists :
  auditlogs (snd (AuditLog.registrar (P := sample_platform)
                    (login_datos false) stored_world))
  = [login_doc "r1" true 1700000000000 false;
     login_doc "a" false 1700000000000 false].
Proof. vm_compute. reflexivity. Qed.

(** ** The capped audit collection *)

Section Capped.
Context {P : Platform}.

Lemma evict_fits (l : list AuditDoc.t) : AuditLog.fits (AuditLog.evict l) = true.
Proof.
  induction l as [|x rest IH]; [reflexivity|].
  cbn [AuditLog.evict].
  destruct (AuditLog.fits (x :: rest)) eqn:E; [exact E | exact IH].
Qed.

Lemma evict_suffix (l : list AuditDoc.t) :
  exists pre, l = (pre ++ AuditLog.evict l)%list.
Proof.
  induction l as [|x rest IH]; [exists []; reflexivity|].
  cbn [AuditLog.evict].
  destruct (AuditLog.fits (x :: rest)).
  - exists []. reflexivity.
  - destruct IH as [pre IH]. exists (x :: pre). simpl. rewrite <- IH.
    reflexivity.
Qed.

Lemma evict_keeps_last (l : list AuditDoc.t) (d : AuditDoc.t) :
  AuditLog.fits [d] = true ->
  exists pre, AuditLog.evict (l ++ [d]) = (pre ++ [d])%list.
Proof.
  intros Hd. induction l as [|x rest IH].
  - simpl. rewrite Hd. exists []. reflexivity.
  - change ((x :: rest) ++ [d])%list with (x :: (rest ++ [d]))%list.
    cbn [AuditLog.evict].
    destruct (AuditLog.fits (x :: (rest ++ [d])%list)).
    + exists (x :: rest). reflexivity.
    + exact IH.
Qed.

Lemma fits_bounds (l : list AuditDoc.t) :
  AuditLog.fits l = true <->
  Z.of_nat (List.length l) <= AuditLog.capped_max /\
  AuditLog.total_size l <= AuditLog.capped_size.
Proof.
  unfold AuditLog.fits. rewrite andb_true_iff, !Z.leb_le. tauto.
Qed.

Lemma fits_single (d : AuditDoc.t) :
  bsonSize d <= AuditLog.capped_size -> AuditLog.fits [d] = true.
Proof.
  intros H. apply fits_bounds. unfold AuditLog.capped_max. simpl. lia.
Qed.

(** One record more than what is kept would not fit. *)
Lemma evict_maximal (l pre : list AuditDoc.t) (x : AuditDoc.t) :
  l = (pre ++ x :: AuditLog.evict l)%list ->
  AuditLog.fits (x :: AuditLog.evict l) = false.
Proof.
  revert pre. induction l as [|y rest IH]; intros pre Heq.
  - destruct pre; discriminate Heq.
  - cbn [AuditLog.evict] in *.
    destruct (AuditLog.fits (y :: rest)) eqn:E.
    + exfalso. apply (f_equal (@List.length _)) in Heq.
      rewrite length_app in Heq. simpl in Heq. lia.
    + destruct pre as [|p pre'].
      * simpl in Heq. injection Heq as Hy Hrest.
        rewrite <- Hy, <- Hrest. exact E.
      * simpl in Heq. injection Heq as Hy Hrest.
        apply (IH pre'). exact Hrest.
Qed.

Lemma evict_fitting (l : list AuditDoc.t) :
  AuditLog.fits l = true -> AuditLog.evict l = l.
Proof.
  intros H. destruct l as [|x rest]; [reflexivity|].
  cbn [AuditLog.evict]. rewrite H. reflexivity.
Qed.

(** C8. The audit collection is capped by the schema's configured
    ceiling, 10000 documents and 5242880 bytes, and it is a ring buffer.
    An insert that reaches the store appends the record and drops
    records from the old end only: what was stored, followed by the new
    record, is what is dropped followed by what is kept. What is kept is
    within both bounds and ends in the new record, and no more is
    dropped than the bounds force: the last record dropped would not fit
    before the ones kept. At the count ceiling, when the sizes allow it,
    exactly the oldest record goes; and when the new record takes the
    store over the size ceiling, the oldest record goes, whatever the
    count. *)
Theorem capped_insert_evicts_oldest (d : AuditDoc.t) (w : World) :
  audit_store_up w = true ->
  bsonSize d <= AuditLog.capped_size ->
  exists w' dropped,
    AuditLog.insert d w = (Return tt, w') /\
    (auditlogs w ++ [d])%list = (dropped ++ auditlogs w')%list /\
    Z.of_nat (List.length (auditlogs w')) <= 10000 /\
    AuditLog.total_size (auditlogs w') <= 5242880 /\
    (exists older, auditlogs w' = (older ++ [d])%list) /\
    (forall earlier x,
        dropped = (earlier ++ [x])%list ->
        10000 < Z.of_nat (List.length (x :: auditlogs w')) \/
        5242880 < AuditLog.total_size (x :: auditlogs w')) /\
    (Z.of_nat (List.length (auditlogs w)) < 10000 ->
     AuditLog.total_size (auditlogs w ++ [d]) <= 5242880 ->
     dropped = []) /\
    (forall oldest rest,
        auditlogs w = oldest :: rest ->
        Z.of_nat (List.length (auditlogs w)) = 10000 ->
        AuditLog.total_size (rest ++ [d]) <= 5242880 ->
        dropped = [oldest] /\ auditlogs w' = (rest ++ [d])%list) /\
    (forall oldest rest,
        auditlogs w = oldest :: rest ->
        5242880 < AuditLog.total_size (auditlogs w ++ [d]) ->
        exists more, dropped = oldest :: more).
Proof.
  intros Hup Hsize.
  unfold AuditLog.insert, bind, gets, modify, throw. simpl.
  rewrite Hup. simpl.
  assert (Hlt : (AuditLog.capped_size <? bsonSize d) = false)
    by (apply Z.ltb_ge; exact Hsize).
  rewrite Hlt.
  destruct (evict_suffix (auditlogs w ++ [d])) as (dropped & Hdrop).
  eexists. exists dropped. split; [reflexivity|]. simpl.
  pose proof (evict_fits (auditlogs w ++ [d])) as Hfit.
  apply fits_bounds in Hfit. destruct Hfit as [Hcount Hbytes].
  split; [exact Hdrop|].
  split; [exact Hcount|]. split; [exact Hbytes|].
  split; [apply evict_keeps_last; apply fits_single; exact Hsize|].
  split; [|split; [|split]].
  - intros earlier x Hlast.
    assert (Hno : AuditLog.fits
                    (x :: AuditLog.evict (auditlogs w ++ [d])) = false).
    { apply (evict_maximal _ earlier). rewrite Hdrop at 1. rewrite Hlast.
      rewrite <- app_assoc. reflexivity. }
    unfold AuditLog.fits in Hno. apply andb_false_iff in Hno.
    unfold AuditLog.capped_max, AuditLog.capped_size in Hno.
    destruct Hno as [Hno|Hno]; apply Z.leb_gt in Hno; [left|right]; exact Hno.
  - intros Hroom Hbytes'.
    assert (Hall : AuditLog.fits (auditlogs w ++ [d]) = true).
    { apply fits_bounds. rewrite length_app. simpl List.length.
      unfold AuditLog.capped_max, AuditLog.capped_size. lia. }
    rewrite (evict_fitting _ Hall) in Hdrop.
    apply (f_equal (@List.length _)) in Hdrop.
    rewrite !length_app in Hdrop.
    destruct dropped; [reflexivity | simpl in Hdrop; lia].
  - intros oldest rest Hstore Hfull Hbytes'.
    assert (Hev : AuditLog.evict (auditlogs w ++ [d]) = (rest ++ [d])%list).
    { rewrite Hstore.
      change ((oldest :: rest) ++ [d])%list
        with (oldest :: (rest ++ [d]))%list.
      cbn [AuditLog.evict].
      destruct (AuditLog.fits (oldest :: (rest ++ [d])%list)) eqn:E.
      - apply fits_bounds in E. destruct E as [E _].
        rewrite Hstore in Hfull.
        simpl List.length in E, Hfull. rewrite length_app in E.
        simpl List.length in E. unfold AuditLog.capped_max in E. lia.
      - apply evict_fitting. apply fits_bounds.
        rewrite Hstore in Hfull. simpl List.length in Hfull.
        rewrite length_app. simpl List.length.
        unfold AuditLog.capped_max, AuditLog.capped_size. lia. }
    split; [|exact Hev].
    rewrite Hev, Hstore in Hdrop.
    change ((oldest :: rest) ++ [d])%list
      with ([oldest] ++ (rest ++ [d]))%list in Hdrop.
    apply app_inv_tail in Hdrop. symmetry. exact Hdrop.
  - intros oldest rest Hstore Hover.
    destruct dropped as [|x more].
    + exfalso. simpl in Hdrop. rewrite <- Hdrop in Hbytes.
      unfold AuditLog.capped_size in Hbytes. lia.
    + exists more. rewrite Hstore in Hdrop. simpl in Hdrop.
      inversion Hdrop. reflexivity.
Qed.

End Capped.

Lemma capped_insert_evicts_oldest_witness :
  exists w' dropped,
    AuditLog.insert (P := sample_platform)
      (login_doc "n" false 1800000000000 false) full_world
    = (Return tt, w') /\
    dropped = [login_doc "r0" true 1600000000000 false] /\
    (auditlogs full_world ++ [login_doc "n" false 1800000000000 false])%list
    = (dropped ++ auditlogs w')%list /\
    Z.of_nat (List.length (auditlogs w')) <= 10000 /\
    AuditLog.total_size (P := sample_platform) (auditlogs w') <= 5242880.
Proof.
  destruct (capped_insert_evicts_oldest (P := sample_platform)
              (login_doc "n" false 1800000000000 false) full_world)
    as (w' & dropped & Hrun & Hring & Hcount & Hbytes & _ & _ & _ & Hfull
        & _).
  - reflexivity.
  - vm_compute. discriminate.
  - exists w', dropped. split; [exact Hrun|].
    destruct (Hfull (login_doc "r0" true 1600000000000 false)
                (repeat (login_doc "r1" true 1700000000000 false) 9999))
      as [Hd _].
    + reflexivity.
    + vm_compute. reflexivity.
    + vm_compute. discriminate.
    + split; [exact Hd|]. split; [exact Hring|].
      split; [exact Hcount | exact Hbytes].
Defined.

(** At the ceiling, one more record through [registrar]: the oldest
    record leaves, the new one is the newest, the count stays 10000. *)
Example registrar_at_ceiling :
  let after := auditlogs (snd (AuditLog.registrar (P := sample_platform)
                                 (login_datos false) full_world)) in
  List.length after = 10000%nat /\
  hd_error after = Some (login_doc "r1" true 1700000000000 false) /\
  last after (login_doc "" true 0 false)
  = login_doc "a" false 1700000000000 false /\
  existsb (fun d => String.eqb (AuditDoc._id d) "r0") after = false.
Proof. vm_compute. repeat split. Qed.

(** ** The audit query *)

Section Query.

Lemma insert_desc_perm (d : AuditDoc.t) (l : list AuditDoc.t) :
  Permutation (AuditLog.insert_desc d l) (d :: l).
Proof.
  induction l as [|x rest IH]; simpl; [apply Permutation_refl|].
  destruct (AuditDoc.timestamp x <? AuditDoc.timestamp d).
  - apply Permutation_refl.
  - apply perm_trans with (x :: d :: rest).
    + apply perm_skip. exact IH.
    + apply perm_swap.
Qed.

Lemma sort_desc_perm (l : list AuditDoc.t) :
  Permutation (AuditLog.sort_desc l) l.
Proof.
  induction l as [|x rest IH]; simpl; [apply perm_nil|].
  eapply perm_trans; [apply insert_desc_perm|].
  apply perm_skip. exact IH.
Qed.

Lemma insert_desc_hd (d x : AuditDoc.t) (l : list AuditDoc.t) :
  newest_first x d -> HdRel newest_first x l ->
  HdRel newest_first x (AuditLog.insert_desc d l).
Proof.
  intros Hxd Hl. destruct l as [|y rest]; simpl.
  - constructor. exact Hxd.
  - destruct (AuditDoc.timestamp y <? AuditDoc.timestamp d).
    + constructor. exact Hxd.
    + constructor. inversion Hl. assumption.
Qed.

Lemma insert_desc_sorted (d : AuditDoc.t) (l : list AuditDoc.t) :
  Sorted newest_first l -> Sorted newest_first (AuditLog.insert_desc d l).
Proof.
  induction l as [|x rest IH]; intros Hs; simpl.
  - repeat constructor.
  - destruct (AuditDoc.timestamp x <? AuditDoc.timestamp d) eqn:E.
    + constructor; [exact Hs|]. constructor.
      unfold newest_first. apply Z.ltb_lt in E. lia.
    + inversion Hs as [|? ? Hrest Hhd]; subst.
      constructor; [apply IH; exact Hrest|].
      apply insert_desc_hd; [|exact Hhd].
      unfold newest_first. apply Z.ltb_ge in E. exact E.
Qed.

Lemma sort_desc_sorted (l : list AuditDoc.t) :
  StronglySorted newest_first (AuditLog.sort_desc l).
Proof.
  apply Sorted_StronglySorted.
  - intros a b c Hab Hbc. unfold newest_first in *. lia.
  - induction l as [|x rest IH]; simpl; [constructor|].
    apply insert_desc_sorted. exact IH.
Qed.

Lemma cond_given (v : option string) (x : option string) :
  AuditLog.cond (AuditLog.given v) (opt_eqb x) = true <->
  (forall s, v = Some s -> s <> "" -> x = Some s).
Proof.
  unfold AuditLog.given, truthy. destruct v as [s|]; simpl.
  - destruct (String.eqb s "") eqn:E; simpl.
    + apply String.eqb_eq in E. subst s. split; [|reflexivity].
      intros _ s Hs Hne. inversion Hs. congruence.
    + apply String.eqb_neq in E. unfold opt_eqb. split.
      * intros H s' Hs' _. inversion Hs'; subst s'.
        destruct x as [y|]; [|discriminate].
        apply String.eqb_eq in H. congruence.
      * intros H. rewrite (H s eq_refl E). apply String.eqb_refl.
  - split; [intros _ s Hs; discriminate | reflexivity].
Qed.

Lemma cond_exitoso (v : option bool) (x : option bool) :
  AuditLog.cond v (AuditLog.opt_bool_eqb x) = true <->
  (forall b, v = Some b -> x = Some b).
Proof.
  destruct v as [b|]; simpl.
  - unfold AuditLog.opt_bool_eqb. split.
    + intros H b' Hb'. inversion Hb'; subst b'.
      destruct x as [y|]; [|discriminate].
      apply Bool.eqb_prop in H. congruence.
    + intros H. rewrite (H b eq_refl). apply Bool.eqb_reflx.
  - split; [intros _ b Hb; discriminate | reflexivity].
Qed.

Lemma cond_bound (v : option Z) (test : Z -> bool) (R : Z -> Prop) :
  (forall z, test z = true <-> R z) ->
  AuditLog.cond v test = true <-> (forall z, v = Some z -> R z).
Proof.
  intros Ht. destruct v as [z|]; simpl.
  - rewrite Ht. split; [intros H z' Hz'; inversion Hz'; subst; exact H|].
    intros H. apply H. reflexivity.
  - split; [intros _ z Hz; discriminate | reflexivity].
Qed.

Lemma given_fecha_dada (v : option AuditLog.Fecha) (z : Z) :
  AuditLog.given_fecha v = Some z <-> fecha_dada v z.
Proof.
  unfold AuditLog.given_fecha, fecha_dada.
  destruct v as [[ms|ms]|].
  - split.
    + intros H. inversion H. left. reflexivity.
    + intros [H|[H _]]; inversion H; reflexivity.
  - destruct (ms =? 0) eqn:E.
    + apply Z.eqb_eq in E. split; [discriminate|].
      intros [H|[H Hne]]; inversion H. congruence.
    + apply Z.eqb_neq in E. split.
      * intros H. inversion H. subst z. right. split; [reflexivity | exact E].
      * intros [H|[H _]]; inversion H; reflexivity.
  - split; [discriminate|]. intros [H|[H _]]; discriminate H.
Qed.

Lemma cond_fecha (v : option AuditLog.Fecha) (test : Z -> bool)
    (R : Z -> Prop) :
  (forall z, test z = true <-> R z) ->
  AuditLog.cond (AuditLog.given_fecha v) test = true <->
  (forall z, fecha_dada v z -> R z).
Proof.
  intros Ht. rewrite (cond_bound _ test R Ht).
  split; intros H z Hz; apply H; apply given_fecha_dada; exact Hz.
Qed.

(** The filter [buscar] builds selects what the spec's wording selects. *)
Lemma matches_selected (f : AuditLog.Filtros) (d : AuditDoc.t) :
  AuditLog.matches (AuditLog.buscar_query f) d = true <-> selected f d.
Proof.
  unfold AuditLog.matches, AuditLog.buscar_query, selected. simpl.
  rewrite !andb_true_iff, !cond_given, cond_exitoso.
  rewrite (cond_fecha (AuditLog.f_fechaInicio f) _
             (fun lo => lo <= AuditDoc.timestamp d))
    by (intros z; apply Z.leb_le).
  rewrite (cond_fecha (AuditLog.f_fechaFin f) _
             (fun hi => AuditDoc.timestamp d <= hi))
    by (intros z; apply Z.leb_le).
  tauto.
Qed.


Lemma or_count_limit_pos (n : option nat) : AuditLog.or_count n 100 <> 0%nat.
Proof.
  destruct n as [[|k]|]; simpl; discriminate.
Qed.

Lemma limit_count (n : nat) (l : list AuditDoc.t) :
  n <> 0%nat -> AuditLog.limit (Z.of_nat n) l = firstn n l.
Proof.
  intros Hn. unfold AuditLog.limit.
  destruct (Z.of_nat n =? 0) eqn:E; [apply Z.eqb_eq in E; lia|].
  rewrite Z.abs_eq by lia. rewrite Nat2Z.id. reflexivity.
Qed.



End Query.

(** The January scenario: of four stored logins, the two failed ones of
    January 2024 are returned, the later one first. *)
Example buscar_january_failed_logins :
  fst (AuditLog.buscar january_failed_logins january_world)
  = Return [(login_doc "r3" false 1705500000000 false, Some doctor);
            (login_doc "r1" false 1704103200000 false, Some doctor)].
Proof. vm_compute. reflexivity. Qed.

(** ** Signatures: verification and revocation *)

Section Signatures.
Context {P : Platform}.

Lemma validate_doc_with_revocacion (f : FirmaDoc.t) (r : FirmaDoc.Revocacion) :
  Firma.validate_doc (Firma.with_revocacion f r) = Firma.validate_doc f.
Proof. reflexivity. Qed.

(** C3. [verificarFirma] checks the certificate window first, then the
    revocation, then the signature itself, and stops at the first check
    that fails. Outside the window the answer is invalid with the
    expired-certificate message, whatever the state of the signature and
    whatever the cryptographic check would say; inside it a revoked
    signature is reported revoked, with the revocation, before any
    cryptographic check; only then is the signature verified. The world is
    not changed. *)
Theorem verificarFirma_checks_in_order (f : FirmaDoc.t) (w : World) :
  (now w < FirmaDoc.vigencia_inicio f \/ FirmaDoc.vigencia_fin f < now w ->
   Firma.verificarFirma f w
   = (Return (Firma.mkVerificacion false ExpiredCertificate None None), w)) /\
  (FirmaDoc.vigencia_inicio f <= now w <= FirmaDoc.vigencia_fin f ->
   FirmaDoc.estado f = FirmaDoc.Revocada ->
   Firma.verificarFirma f w
   = (Return (Firma.mkVerificacion false "La firma ha sido revocada"
                (FirmaDoc.revocacion f) None), w)) /\
  (FirmaDoc.vigencia_inicio f <= now w <= FirmaDoc.vigencia_fin f ->
   FirmaDoc.estado f <> FirmaDoc.Revocada ->
   Firma.verificarFirma f w
   = (Return
        (match crypto_verify (FirmaDoc.algoritmo f) (FirmaDoc.cadenaOriginal f)
                 (FirmaDoc.certificadoPublico f) (FirmaDoc.selloDigital f) with
         | Return true => Firma.mkVerificacion true "Firma válida" None None
         | Return false => Firma.mkVerificacion false "Firma inválida" None None
         | Throw e =>
             Firma.mkVerificacion false "Error al verificar la firma" None
                                  (Some (message e))
         end), w)).
Proof.
  unfold Firma.verificarFirma, try_catch, bind, gets, ret, lift.
  split; [|split].
  - intros Hout.
    assert (Hb : (now w <? FirmaDoc.vigencia_inicio f)
                 || (FirmaDoc.vigencia_fin f <? now w) = true).
    { apply orb_true_iff. rewrite !Z.ltb_lt. exact Hout. }
    rewrite Hb. reflexivity.
  - intros Hin Hrev.
    assert (Hb : (now w <? FirmaDoc.vigencia_inicio f)
                 || (FirmaDoc.vigencia_fin f <? now w) = false).
    { apply orb_false_iff. rewrite !Z.ltb_ge. lia. }
    rewrite Hb, Hrev. reflexivity.
  - intros Hin Hrev.
    assert (Hb : (now w <? FirmaDoc.vigencia_inicio f)
                 || (FirmaDoc.vigencia_fin f <? now w) = false).
    { apply orb_false_iff. rewrite !Z.ltb_ge. lia. }
    rewrite Hb.
    destruct (FirmaDoc.estado f); [|congruence|];
      destruct (crypto_verify _ _ _ _) as [[|]|e]; reflexivity.
Qed.

(** What [revocar] does to a signature that passes validation, in any
    state. *)
Lemma revocar_eq (f : FirmaDoc.t) (u : User) (m : string) (w : World) :
  Firma.validate_doc f = [] ->
  exists w',
    Firma.revocar f u m w
    = (Return (Firma.with_revocacion f
                 (FirmaDoc.mkRevocacion (now w) m (user_id u))), w') /\
    firmas w'
    = Firma.replace_doc
        (Firma.with_revocacion f (FirmaDoc.mkRevocacion (now w) m (user_id u)))
        (firmas w).
Proof.
  intros Hv. unfold Firma.revocar, bind, gets, Firma.save.
  rewrite validate_doc_with_revocacion, Hv.
  unfold modify, ret. simpl.
  match goal with
  | |- context [AuditLog.registrar ?d ?w0] =>
      destruct (registrar_returns d w0) as (r & w' & H & Hf & _); rewrite H
  end.
  eexists. split; [reflexivity|]. rewrite Hf. reflexivity.
Qed.

(** C4 (amended). [revocar] has no guard on the state of the signature:
    on a signature that is already revoked, as on any other that passes
    validation, it returns normally, the state is 'revocada', the
    revocation record is replaced by the current date, the given reason
    and the revoking user, and the stored signature is replaced by the
    result. Nothing else of the signature changes: its references, the
    whole certificate (serial number, issuer, validity window and public
    certificate), the whole signature block (algorithm, original string,
    seal and document hash), its date and its purpose are the ones it
    had. *)
Theorem revocar_overwrites_revocation (f : FirmaDoc.t) (u : User)
    (m : string) (w : World) :
  Firma.validate_doc f = [] ->
  exists f' w',
    Firma.revocar f u m w = (Return f', w') /\
    FirmaDoc.estado f' = FirmaDoc.Revocada /\
    FirmaDoc.revocacion f'
    = Some (FirmaDoc.mkRevocacion (now w) m (user_id u)) /\
    firmas w' = Firma.replace_doc f' (firmas w) /\
    FirmaDoc.certificadoPublico f' = FirmaDoc.certificadoPublico f /\
    FirmaDoc.cadenaOriginal f' = FirmaDoc.cadenaOriginal f /\
    FirmaDoc.selloDigital f' = FirmaDoc.selloDigital f /\
    FirmaDoc.hashDocumento f' = FirmaDoc.hashDocumento f /\
    FirmaDoc._id f' = FirmaDoc._id f /\
    FirmaDoc.expediente f' = FirmaDoc.expediente f /\
    FirmaDoc.firmante f' = FirmaDoc.firmante f /\
    FirmaDoc.numeroSerie f' = FirmaDoc.numeroSerie f /\
    FirmaDoc.emisor f' = FirmaDoc.emisor f /\
    FirmaDoc.vigencia_inicio f' = FirmaDoc.vigencia_inicio f /\
    FirmaDoc.vigencia_fin f' = FirmaDoc.vigencia_fin f /\
    FirmaDoc.algoritmo f' = FirmaDoc.algoritmo f /\
    FirmaDoc.timestamp_fecha f' = FirmaDoc.timestamp_fecha f /\
    FirmaDoc.proposito f' = FirmaDoc.proposito f /\
    (forall x, In x (firmas w) -> FirmaDoc._id x <> FirmaDoc._id f ->
               In x (firmas w')) /\
    List.length (firmas w') = List.length (firmas w).
Proof.
  intros Hv. destruct (revocar_eq f u m w Hv) as (w' & Hr & Hs).
  eexists. exists w'. split; [exact Hr|]. simpl.
  repeat (split; [first [reflexivity | exact Hs]|]).
  split.
  - intros x Hin Hne. rewrite Hs. unfold Firma.replace_doc.
    apply in_map_iff. exists x. split; [|exact Hin].
    simpl. apply String.eqb_neq in Hne. rewrite Hne. reflexivity.
  - rewrite Hs. unfold Firma.replace_doc. apply length_map.
Qed.

End Signatures.

(** The scenario of the spec: a certificate valid from 2020-01-01 to
    2021-01-01, verified on 2022-01-01. *)
Example verificarFirma_expired_2022 :
  fst (Firma.verificarFirma (P := sample_platform)
         (sample_firma FirmaDoc.Valida None)
         (world_2022 (sample_firma FirmaDoc.Valida None)))
  = Return (Firma.mkVerificacion false ExpiredCertificate None None).
Proof. vm_compute. reflexivity. Qed.

(** Revoked and outside the window: the window is reported. *)
Example verificarFirma_expired_before_revoked :
  fst (Firma.verificarFirma (P := sample_platform) revoked_firma
         (world_2022 revoked_firma))
  = Return (Firma.mkVerificacion false ExpiredCertificate None None).
Proof. vm_compute. reflexivity. Qed.

Lemma revocar_overwrites_revocation_witness :
  exists f' w',
    Firma.revocar (P := sample_platform) revoked_firma doctor "duplicado"
      (world_2020 revoked_firma)
    = (Return f', w') /\
    FirmaDoc.estado f' = FirmaDoc.Revocada /\
    FirmaDoc.revocacion f'
    = Some (FirmaDoc.mkRevocacion (now (world_2020 revoked_firma))
              "duplicado" (user_id doctor)) /\
    firmas w' = Firma.replace_doc f' (firmas (world_2020 revoked_firma)) /\
    FirmaDoc.certificadoPublico f' = FirmaDoc.certificadoPublico revoked_firma /\
    FirmaDoc.cadenaOriginal f' = FirmaDoc.cadenaOriginal revoked_firma /\
    FirmaDoc.selloDigital f' = FirmaDoc.selloDigital revoked_firma /\
    FirmaDoc.hashDocumento f' = FirmaDoc.hashDocumento revoked_firma /\
    FirmaDoc._id f' = FirmaDoc._id revoked_firma /\
    FirmaDoc.expediente f' = FirmaDoc.expediente revoked_firma /\
    FirmaDoc.firmante f' = FirmaDoc.firmante revoked_firma /\
    FirmaDoc.numeroSerie f' = FirmaDoc.numeroSerie revoked_firma /\
    FirmaDoc.emisor f' = FirmaDoc.emisor revoked_firma /\
    FirmaDoc.vigencia_inicio f' = FirmaDoc.vigencia_inicio revoked_firma /\
    FirmaDoc.vigencia_fin f' = FirmaDoc.vigencia_fin revoked_firma /\
    FirmaDoc.algoritmo f' = FirmaDoc.algoritmo revoked_firma /\
    FirmaDoc.timestamp_fecha f' = FirmaDoc.timestamp_fecha revoked_firma /\
    FirmaDoc.proposito f' = FirmaDoc.proposito revoked_firma /\
    (forall x, In x (firmas (world_2020 revoked_firma)) ->
               FirmaDoc._id x <> FirmaDoc._id revoked_firma ->
               In x (firmas w')) /\
    List.length (firmas w')
    = List.length (firmas (world_2020 revoked_firma)).
Proof.
  apply (revocar_overwrites_revocation (P := sample_platform)).
  reflexivity.
Defined.

(** C4, as stated, fails: revoking a signature that is already revoked
    returns normally, and the stored revocation is no longer the one it
    was. *)
Lemma revocar_already_revoked_counterexample :
  FirmaDoc.estado revoked_firma = FirmaDoc.Revocada /\
  fst (Firma.revocar (P := sample_platform) revoked_firma doctor "duplicado"
         (world_2020 revoked_firma))
  = Return (Firma.with_revocacion revoked_firma
              (FirmaDoc.mkRevocacion 1593561600000 "duplicado" "u1")) /\
  firmas (snd (Firma.revocar (P := sample_platform) revoked_firma doctor
                 "duplicado" (world_2020 revoked_firma)))
  = [Firma.with_revocacion revoked_firma
       (FirmaDoc.mkRevocacion 1593561600000 "duplicado" "u1")] /\
  FirmaDoc.revocacion
    (Firma.with_revocacion revoked_firma
       (FirmaDoc.mkRevocacion 1593561600000 "duplicado" "u1"))
  <> FirmaDoc.revocacion revoked_firma.
Proof.
  split; [reflexivity|]. split; [vm_compute; reflexivity|].
  split; [vm_compute; reflexivity|]. vm_compute. discriminate.
Qed.

(** ** The content hash *)

Section Integrity.
Context {P : Platform}.

Lemma opt_eqb_refl (s : string) : opt_eqb (Some s) s = true.
Proof. apply String.eqb_refl. Qed.

Lemma opt_eqb_true (a : option string) (b : string) :
  opt_eqb a b = true <-> a = Some b.
Proof.
  unfold opt_eqb. destruct a as [v|].
  - rewrite String.eqb_eq. split; [intros H; rewrite H; reflexivity|].
    intros H. inversion H. reflexivity.
  - split; discriminate.
Qed.

(** An update in place: the records with the [_id] of [d] are replaced
    by [d], the others stay, and so does the order. *)
Lemma replace_doc_in_place (d : ExpedienteDoc.t) (l : list ExpedienteDoc.t) :
  Forall2
    (fun x y =>
       if String.eqb (ExpedienteDoc._id x) (ExpedienteDoc._id d)
       then y = d else y = x)
    l (Expediente.replace_doc d l).
Proof.
  induction l as [|x rest IH]; simpl; constructor; [|exact IH].
  destruct (String.eqb (ExpedienteDoc._id x) (ExpedienteDoc._id d));
    reflexivity.
Qed.

(** C6 (amended). The hash is bound over the serialization that
    [JSON.stringify] gives the content, which follows the order of the
    content's keys and is not canonical. A save of a valid record whose
    [contenido] was modified returns, and the record it writes has the
    same content and carries as [documento.hash] the SHA-256 digest of
    that serialization, so [verificarIntegridad] holds of it; the
    record is appended when it was new, and otherwise replaces in place
    the stored record of the same [_id]. [verificarIntegridad] holds of
    a record exactly when its stored hash is the digest of the
    serialization of its content; so the written record, read back from
    the store, verifies exactly when its content, in the order the store
    hands its keys out, has the digest that was bound. Two contents with
    the same serialization are bound to the same hash. *)
Theorem save_binds_content_hash (d : ExpedienteDoc.t) (w : World) :
  ExpedienteDoc.contenido_modified d = true ->
  Expediente.validate d = [] ->
  exists d' w',
    Expediente.save d w = (Return d', w') /\
    ExpedienteDoc.contenido d' = ExpedienteDoc.contenido d /\
    ExpedienteDoc.hash (ExpedienteDoc.documento d')
    = Some (sha256_hex (JSON_stringify (ExpedienteDoc.contenido d))) /\
    Expediente.verificarIntegridad d' = true /\
    (forall r,
        Expediente.verificarIntegridad r = true <->
        ExpedienteDoc.hash (ExpedienteDoc.documento r)
        = Some (sha256_hex (JSON_stringify (ExpedienteDoc.contenido r)))) /\
    (forall r,
        as_written r d' ->
        (Expediente.verificarIntegridad r = true <->
         sha256_hex (JSON_stringify (ExpedienteDoc.contenido r))
         = sha256_hex (JSON_stringify (ExpedienteDoc.contenido d)))) /\
    (ExpedienteDoc.isNew d = true ->
     expedientes w' = (expedientes w ++ [d'])%list) /\
    (ExpedienteDoc.isNew d = false ->
     Forall2
       (fun x y =>
          if String.eqb (ExpedienteDoc._id x) (ExpedienteDoc._id d)
          then y = d' else y = x)
       (expedientes w) (expedientes w')) /\
    (forall c1 c2,
        JSON_stringify c1 = JSON_stringify c2 ->
        Expediente.hashContenido c1 = Expediente.hashContenido c2).
Proof.
  intros Hmod Hvalid.
  unfold Expediente.save, Expediente.pre_save, bind, gets, modify, ret.
  rewrite Hvalid, Hmod. simpl.
  eexists. eexists. split; [reflexivity|]. simpl.
  split; [reflexivity|]. split; [reflexivity|].
  split; [apply opt_eqb_refl|].
  split; [intros r; apply opt_eqb_true|].
  split.
  { intros r (_ & _ & _ & _ & _ & Hdoc & _).
    unfold Expediente.verificarIntegridad. rewrite Hdoc. simpl.
    unfold Expediente.hashContenido. rewrite String.eqb_eq.
    split; intros H; symmetry; exact H. }
  split; [intros Hnew; rewrite Hnew; reflexivity|].
  split.
  { intros Hnew. rewrite Hnew.
    match goal with
    | |- Forall2 _ _ (Expediente.replace_doc ?d' _) =>
        exact (replace_doc_in_place d' (expedientes w))
    end. }
  intros c1 c2 Hc. unfold Expediente.hashContenido. rewrite Hc. reflexivity.
Qed.

(** A save that leaves [contenido] alone leaves the hash alone. *)
Lemma pre_save_unmodified (d : ExpedienteDoc.t) (w : World) :
  ExpedienteDoc.contenido_modified d = false ->
  Expediente.pre_save d w = (Return d, w).
Proof.
  intros H. unfold Expediente.pre_save. rewrite H. reflexivity.
Qed.

End Integrity.

Lemma save_binds_content_hash_witness :
  exists d' w',
    Expediente.save (P := sample_platform) created_expediente
      (world_with stale_expediente)
    = (Return d', w') /\
    ExpedienteDoc.contenido d' = created_contenido /\
    ExpedienteDoc.hash (ExpedienteDoc.documento d')
    = Some (String.append "sha256:" (sample_stringify created_contenido)) /\
    Expediente.verificarIntegridad (P := sample_platform) d' = true /\
    expedientes w' = [stale_expediente; d'].
Proof.
  destruct (save_binds_content_hash (P := sample_platform)
              created_expediente (world_with stale_expediente))
    as (d' & w' & Hrun & Hc & Hh & Hv & _ & _ & Hnew & _).
  - reflexivity.
  - reflexivity.
  - exists d', w'. split; [exact Hrun|]. split; [exact Hc|].
    split; [exact Hh|]. split; [exact Hv|]. apply Hnew. reflexivity.
Defined.

(** C6, as stated, fails: the serialization is not canonical. Two
    contents with the same value under every key, their keys in a
    different order, are bound to different hashes; and a new record
    that is saved verifies as the save returns it and no longer verifies
    when it is read back, its values unchanged, from a store that hands
    the keys out in another order. *)
Lemma hash_follows_key_order_counterexample :
  same_values created_contenido sample_contenido /\
  Expediente.hashContenido (P := sample_platform) created_contenido
  <> Expediente.hashContenido (P := sample_platform) sample_contenido /\
  match fst (Expediente.save (P := sample_platform) created_expediente
               (world_with stale_expediente)) with
  | Return d' =>
      Expediente.verificarIntegridad (P := sample_platform) d' = true
  | Throw _ => False
  end /\
  match fst (Expediente.findById (P := sample_platform) "e2"
               (snd (Expediente.save (P := sample_platform)
                       created_expediente (world_with stale_expediente))))
  with
  | Return (Some r) =>
      same_values (ExpedienteDoc.contenido r) created_contenido /\
      Expediente.verificarIntegridad (P := sample_platform) r = false
  | _ => False
  end.
Proof.
  split; [unfold same_values; simpl; repeat split|].
  split; [vm_compute; discriminate|].
  split; [vm_compute; reflexivity|].
  vm_compute. repeat split.
Qed.

Example verificarIntegridad_detects_stale_hash :
  Expediente.verificarIntegridad (P := sample_platform) stale_expediente = false
  /\ Expediente.verificarIntegridad (P := sample_platform) signed_expediente
     = true.
Proof. vm_compute. split; reflexivity. Qed.

(** ** Signing a record *)

Section Signing.
Context {P : Platform}.

(** [Firma.create] on the object the controller builds: the paths
    [expediente] and [firmante] are unset, so validation fails and nothing
    is stored; only the id counter has moved. *)
Lemma create_firmaInput (c : Certificado) (v : Vigencia) (w : World) :
  Firma.create (ExpedienteController.firmaInput c v) w
  = (Throw (ValidationError
              (Firma.validate (ExpedienteController.firmaInput c v))),
     snd (fresh_id w)).
Proof.
  unfold Firma.create, bind, fresh_id, gets. simpl.
  destruct (Firma.validate (ExpedienteController.firmaInput c v));
    reflexivity.
Qed.

(** Every run of [firmarExpediente] ends in an error that is not the
    integrity error, with the signatures, the records and the audit
    collection as they were. *)
Lemma firmarExpediente_outcome (req : Request) (w : World) :
  exists err w',
    ExpedienteController.firmarExpediente req w = (Throw err, w') /\
    err <> ContentHashMismatch /\
    firmas w' = firmas w /\
    expedientes w' = expedientes w /\
    auditlogs w' = auditlogs w.
Proof.
  unfold ExpedienteController.firmarExpediente.
  destruct (negb (String.eqb (user_role (user req)) "doctor")).
  { eexists; eexists; split; [reflexivity|].
    split; [discriminate|]. auto. }
  unfold bind, Expediente.findById, gets.
  destruct (find _ (expedientes w)) as [e|].
  2:{ eexists; eexists; split; [reflexivity|].
      split; [discriminate|]. auto. }
  cbn [option_map].
  change (ExpedienteDoc.estado (Expediente.hydrate e))
    with (ExpedienteDoc.estado e).
  destruct (ExpedienteDoc.estado e);
    try (eexists; eexists; split; [reflexivity|];
         split; [discriminate|]; auto; fail);
    (destruct (body_certificado req) as [c|];
     [| eexists; eexists; split; [reflexivity|];
        split; [discriminate|]; auto ];
     destruct (vigencia c) as [v|];
     [| eexists; eexists; split; [reflexivity|];
        split; [discriminate|]; auto ];
     lazy beta iota; rewrite create_firmaInput;
     eexists; eexists; split; [reflexivity|];
     split; [discriminate|]; simpl; auto).
Qed.


End Signing.

(** C2. The sign path compares no hash. A doctor signs a draft whose
    stored hash is not the hash of its content. The download of that
    record compares and is refused with the integrity error; the sign
    request is not: it ends in the validation error of [Firma.create],
    on the eight paths it also fails on when the stored hash is good. No
    signature is created, the record stays a draft, and after the error
    middleware has run the audit collection holds no record of the
    failure. *)
Lemma firmarExpediente_skips_integrity_check :
  Expediente.verificarIntegridad (P := sample_platform) stale_expediente = false
  /\ fst (ExpedienteDownload.downloadPDF (P := sample_platform) "./uploads"
            (sample_request doctor (Some sample_certificado)) None
            (world_with stale_expediente))
     = Throw ContentHashMismatch
  /\ (exists paths,
        fst (ErrorHandler.catchAsync (P := sample_platform)
               (ExpedienteController.firmarExpediente (P := sample_platform))
               (sample_request doctor (Some sample_certificado))
               (world_with stale_expediente))
        = Throw (ValidationError paths) /\
        ValidationError paths <> ContentHashMismatch /\
        Permutation paths
          ["certificado.emisor"; "expediente"; "firmante";
           "certificado.certificadoPublico"; "firma.cadenaOriginal";
           "firma.selloDigital"; "firma.hashDocumento";
           "metadata.proposito"] /\
        fst (ErrorHandler.catchAsync (P := sample_platform)
               (ExpedienteController.firmarExpediente (P := sample_platform))
               (sample_request doctor (Some sample_certificado))
               (world_with
                  (sample_expediente ExpedienteDoc.Borrador
                     (ExpedienteDoc.hash
                        (ExpedienteDoc.documento signed_expediente)))))
        = Throw (ValidationError paths))
  /\ firmas (snd (ErrorHandler.catchAsync (P := sample_platform)
                    (ExpedienteController.firmarExpediente
                       (P := sample_platform))
                    (sample_request doctor (Some sample_certificado))
                    (world_with stale_expediente)))
     = []
  /\ expedientes (snd (ErrorHandler.catchAsync (P := sample_platform)
                         (ExpedienteController.firmarExpediente
                            (P := sample_platform))
                         (sample_request doctor (Some sample_certificado))
                         (world_with stale_expediente)))
     = [stale_expediente]
  /\ auditlogs (snd (ErrorHandler.catchAsync (P := sample_platform)
                       (ExpedienteController.firmarExpediente
                          (P := sample_platform))
                       (sample_request doctor (Some sample_certificado))
                       (world_with stale_expediente)))
     = [].
Proof.
  split; [vm_compute; reflexivity|]. split; [vm_compute; reflexivity|].
  split.
  - eexists. split; [vm_compute; reflexivity|].
    split; [discriminate|]. split; [|vm_compute; reflexivity].
    apply Permutation_refl.
  - split; [vm_compute; reflexivity|].
    split; vm_compute; reflexivity.
Qed.



(** ** The [AppError] class *)

Lemma status_table :
  forallb
    (fun n =>
       Bool.eqb (String.eqb (AppErrorClass.status (Z.of_nat n)) "fail")
                ((400 <=? Z.of_nat n) && (Z.of_nat n <=? 499)))
    (seq 100 500)
  = true.
Proof. vm_compute. reflexivity. Qed.

(** X1. Over the HTTP status codes, 100 to 599, an [AppError] has
    status 'fail' exactly for the codes 400 to 499 and 'error' for every
    other code. *)
Theorem AppError_status_by_class (statusCode : Z) :
  100 <= statusCode <= 599 ->
  (400 <= statusCode <= 499 -> AppErrorClass.status statusCode = "fail") /\
  (statusCode < 400 \/ 499 < statusCode ->
   AppErrorClass.status statusCode = "error").
Proof.
  intros Hrange.
  pose proof status_table as Htable.
  rewrite forallb_forall in Htable.
  specialize (Htable (Z.to_nat statusCode)).
  rewrite Z2Nat.id in Htable by lia.
  assert (Hin : In (Z.to_nat statusCode) (seq 100 500))
    by (apply in_seq; lia).
  specialize (Htable Hin). apply Bool.eqb_prop in Htable.
  split.
  - intros H4.
    assert (Hb : (400 <=? statusCode) && (statusCode <=? 499) = true)
      by (apply andb_true_iff; rewrite !Z.leb_le; lia).
    rewrite Hb in Htable. apply String.eqb_eq in Htable. exact Htable.
  - intros Hother.
    assert (Hb : (400 <=? statusCode) && (statusCode <=? 499) = false).
    { apply andb_false_iff. rewrite !Z.leb_gt. lia. }
    rewrite Hb in Htable. unfold AppErrorClass.status in *.
    destruct (String.prefix "4" (AppErrorClass.template statusCode));
      [discriminate Htable | reflexivity].
Qed.

Lemma AppError_status_by_class_witness :
  (400 <= 404 <= 499 -> AppErrorClass.status 404 = "fail") /\
  (404 < 400 \/ 499 < 404 -> AppErrorClass.status 404 = "error").
Proof.
  apply (AppError_status_by_class 404). lia.
Defined.

(** ** The bearer token *)

Section Token.

Lemma split_spaceless (t : string) :
  spaceless t -> AuthMiddleware.split " " t = [t].
Proof.
  unfold spaceless. induction t as [|c rest IH]; intros Hno; [reflexivity|].
  simpl in *. destruct (Ascii.eqb c " ") eqn:E.
  - apply Ascii.eqb_eq in E. subst c. exfalso. apply Hno. left. reflexivity.
  - rewrite IH by (intros Hin; apply Hno; right; exact Hin). reflexivity.
Qed.

Lemma split_first (t rest : string) :
  spaceless t ->
  AuthMiddleware.split " " (String.append t (String " " rest))
  = t :: AuthMiddleware.split " " rest.
Proof.
  unfold spaceless. induction t as [|c t' IH]; intros Hno; [reflexivity|].
  simpl in *. destruct (Ascii.eqb c " ") eqn:E.
  - apply Ascii.eqb_eq in E. subst c. exfalso. apply Hno. left. reflexivity.
  - rewrite IH by (intros Hin; apply Hno; right; exact Hin). reflexivity.
Qed.

Lemma bearer_spaceless : spaceless "Bearer".
Proof.
  unfold spaceless. simpl. intros H.
  repeat (destruct H as [H|H]; [discriminate H|]). exact H.
Qed.

(** X2. The token is the second space-separated piece of an
    [Authorization] header that starts with "Bearer". A header
    "Bearer <t>" with no space in [t] gives [t] back, and so does the
    same header followed by a space and anything else; no header, the
    bare word "Bearer", and a header with another scheme give no token;
    two spaces after "Bearer" give the empty token. *)
Theorem token_of_bearer_header (t rest : string) :
  spaceless t ->
  AuthMiddleware.token (Some (String.append "Bearer " t)) = Some t /\
  AuthMiddleware.token
    (Some (String.append "Bearer " (String.append t (String " " rest))))
  = Some t /\
  AuthMiddleware.token None = None /\
  AuthMiddleware.token (Some "Bearer") = None /\
  AuthMiddleware.token (Some (String.append "Basic " t)) = None /\
  AuthMiddleware.token (Some (String.append "Bearer  " t)) = Some "".
Proof.
  intros Ht. unfold AuthMiddleware.token.
  split; [|split; [|split; [|split; [|split]]]]; try reflexivity.
  - change (String.append "Bearer " t)
      with (String.append "Bearer" (String " " t)).
    rewrite split_first by apply bearer_spaceless.
    rewrite split_spaceless by exact Ht. reflexivity.
  - change (String.append "Bearer " (String.append t (String " " rest)))
      with (String.append "Bearer"
              (String " " (String.append t (String " " rest)))).
    rewrite split_first by apply bearer_spaceless.
    rewrite split_first by exact Ht. reflexivity.
Qed.

End Token.

Lemma token_of_bearer_header_witness :
  AuthMiddleware.token (Some (String.append "Bearer " "abc.def.ghi"))
  = Some "abc.def.ghi" /\
  AuthMiddleware.token
    (Some (String.append "Bearer "
             (String.append "abc.def.ghi" (String " " "x"))))
  = Some "abc.def.ghi" /\
  AuthMiddleware.token None = None /\
  AuthMiddleware.token (Some "Bearer") = None /\
  AuthMiddleware.token (Some (String.append "Basic " "abc.def.ghi")) = None /\
  AuthMiddleware.token (Some (String.append "Bearer  " "abc.def.ghi"))
  = Some "".
Proof.
  apply (token_of_bearer_header "abc.def.ghi" "x").
  unfold spaceless. simpl. intros H.
  repeat (destruct H as [H|H]; [discriminate H|]). exact H.
Defined.

(** ** Authentication and the role gate *)

Section Gatekeeping.
Context {P : Platform} {Acc : AuthMiddleware.Accounts}.

(** [registrar] on an argument with no top-level origin address. *)
Lemma registrar_nested_eq (datos : AuditLog.Datos) (w : World) :
  AuditLog.d_ip datos = None ->
  exists paths,
    AuditLog.registrar datos w
    = (Return None, after_refused_audit (ValidationError paths) w).
Proof.
  intros Hip. rewrite registrar_eq.
  unfold bind, AuditLog.build, fresh_id, gets, ret. simpl.
  match goal with
  | |- context [AuditLog.save ?d ?w1] =>
      assert (Hv : AuditLog.validate d <> [])
  end.
  { intros Hnil.
    match type of Hnil with
    | AuditLog.validate ?d = [] =>
        pose proof (validate_missing_ip d Hip) as Hin
    end.
    rewrite Hnil in Hin. exact Hin. }
  rewrite (save_invalid _ _ Hv). eexists. reflexivity.
Qed.

Lemma registrarIntentoFallido_eq (u : option User)
    (seg : AuditLog.Seguridad) (ruta metodo razon : string) (w : World) :
  exists paths,
    AuthMiddleware.registrarIntentoFallido u seg ruta metodo razon w
    = (Return tt, after_refused_audit (ValidationError paths) w).
Proof.
  unfold AuthMiddleware.registrarIntentoFallido, try_catch, bind.
  match goal with
  | |- context [AuditLog.registrar ?d w] =>
      destruct (registrar_nested_eq d w eq_refl) as (paths & H); rewrite H
  end.
  exists paths. reflexivity.
Qed.

Lemma registrarAccesoExitoso_eq (req : Request) (w : World) :
  exists paths,
    AuthMiddleware.registrarAccesoExitoso req w
    = (Return tt, after_refused_audit (ValidationError paths) w).
Proof.
  unfold AuthMiddleware.registrarAccesoExitoso, try_catch, bind.
  match goal with
  | |- context [AuditLog.registrar ?d w] =>
      destruct (registrar_nested_eq d w eq_refl) as (paths & H); rewrite H
  end.
  exists paths. reflexivity.
Qed.

Lemma str_in_In (s : string) (l : list string) :
  str_in s l = true <-> In s l.
Proof.
  unfold str_in. rewrite existsb_exists. split.
  - intros (x & Hin & Heq). apply String.eqb_eq in Heq. subst x. exact Hin.
  - intros Hin. exists s. split; [exact Hin | apply String.eqb_refl].
Qed.

(** What [protect] does, case by case. *)
Lemma protect_cases (i : AuthMiddleware.Incoming) (w : World) :
  exists a e,
    AuthMiddleware.protect i w = (Return a, after_refused_audit e w) /\
    ((exists u, authenticates i w u /\
                a = AuthMiddleware.Next (AuthMiddleware.with_user i u)) \/
     ((forall u, ~ authenticates i w u) /\
      exists m, a = AuthMiddleware.Respond 401 unauthorized m)).
Proof.
  unfold AuthMiddleware.protect, try_catch.
  destruct (AuthMiddleware.token (AuthMiddleware.authorization i))
    as [t|] eqn:Ht.
  2:{ unfold bind.
      match goal with
      | |- context [AuthMiddleware.registrarIntentoFallido ?a ?b ?c ?d ?e w] =>
          destruct (registrarIntentoFallido_eq a b c d e w) as (paths & H);
            rewrite H
      end.
      eexists. eexists. split; [reflexivity|]. right. split.
      - intros u (t & id & iat & Ht' & _). congruence.
      - eexists. reflexivity. }
  destruct (String.eqb t "") eqn:Et.
  { unfold bind.
    match goal with
    | |- context [AuthMiddleware.registrarIntentoFallido ?a ?b ?c ?d ?e w] =>
        destruct (registrarIntentoFallido_eq a b c d e w) as (paths & H);
          rewrite H
    end.
    eexists. eexists. split; [reflexivity|]. right. split.
    - intros u (t' & id & iat & Ht' & Hne & _).
      apply String.eqb_eq in Et. congruence.
    - eexists. reflexivity. }
  apply String.eqb_neq in Et.
  unfold bind, lift, AuthMiddleware.User_findById, gets.
  destruct (AuthMiddleware.jwt_verify t) as [[id iat]|err] eqn:Hj.
  2:{ cbv beta iota. match goal with
      | |- context [AuthMiddleware.registrarIntentoFallido ?a ?b ?c ?d ?e w] =>
          destruct (registrarIntentoFallido_eq a b c d e w) as (paths & H);
            rewrite H
      end.
      eexists. eexists. split; [reflexivity|]. right. split.
      - intros u (t' & id & iat & Ht' & _ & Hj' & _). congruence.
      - eexists. reflexivity. }
  cbn [fst snd].
  destruct (find (fun x => String.eqb (user_id x) id) (users w))
    as [u|] eqn:Hf.
  2:{ unfold throw. cbv beta iota.
      match goal with
      | |- context [AuthMiddleware.registrarIntentoFallido ?a ?b ?c ?d ?e w] =>
          destruct (registrarIntentoFallido_eq a b c d e w) as (paths & H);
            rewrite H
      end.
      eexists. eexists. split; [reflexivity|]. right. split.
      - intros u (t' & id' & iat' & Ht' & _ & Hj' & Hf' & _).
        assert (t' = t) by congruence. subst t'.
        assert (id' = id) by congruence. subst id'. congruence.
      - eexists. reflexivity. }
  destruct (AuthMiddleware.changedPasswordAfter u iat) eqn:Hc.
  { unfold throw. cbv beta iota.
    match goal with
    | |- context [AuthMiddleware.registrarIntentoFallido ?a ?b ?c ?d ?e w] =>
        destruct (registrarIntentoFallido_eq a b c d e w) as (paths & H);
          rewrite H
    end.
    eexists. eexists. split; [reflexivity|]. right. split.
    - intros u' (t' & id' & iat' & Ht' & _ & Hj' & Hf' & Hc' & _).
      assert (t' = t) by congruence. subst t'.
      assert (id' = id /\ iat' = iat) as [? ?] by (split; congruence).
      subst id' iat'. assert (u' = u) by congruence. subst u'. congruence.
    - eexists. reflexivity. }
  destruct (AuthMiddleware.active u) eqn:Ha; cbn [negb]; cbv beta iota.
  2:{ unfold throw. cbv beta iota.
      match goal with
      | |- context [AuthMiddleware.registrarIntentoFallido ?a ?b ?c ?d ?e w] =>
          destruct (registrarIntentoFallido_eq a b c d e w) as (paths & H);
            rewrite H
      end.
      eexists. eexists. split; [reflexivity|]. right. split.
      - intros u' (t' & id' & iat' & Ht' & _ & Hj' & Hf' & _ & Ha').
        assert (t' = t) by congruence. subst t'.
        assert (id' = id) by congruence. subst id'.
        assert (u' = u) by congruence. subst u'. congruence.
      - eexists. reflexivity. }
  destruct (registrarAccesoExitoso_eq (AuthMiddleware.with_user i u) w)
    as (paths & H).
  rewrite H.
  eexists. eexists. split; [reflexivity|]. left.
  exists u. split; [|reflexivity].
  exists t, id, iat. repeat split; assumption.
Qed.

Lemma authenticates_unique (i : AuthMiddleware.Incoming) (w : World)
    (u u' : User) :
  authenticates i w u -> authenticates i w u' -> u = u'.
Proof.
  intros (t & id & iat & Ht & _ & Hj & Hf & _)
         (t' & id' & iat' & Ht' & _ & Hj' & Hf' & _).
  assert (t' = t) by congruence. subst t'.
  assert (id' = id) by congruence. subst id'. congruence.
Qed.

(** X3. [protect] never throws. It calls [next()], with [req.user] set
    to the stored user, exactly when the request carries a non-empty
    bearer token that verifies for a stored user who is active and has
    not changed the password since; every other request is answered 401.
    Either way the audit collection, the signatures and the records are
    as before: neither the granted nor the refused access is recorded. *)
Theorem protect_lets_through_only_authenticated
    (i : AuthMiddleware.Incoming) (w : World) :
  exists a w',
    AuthMiddleware.protect i w = (Return a, w') /\
    auditlogs w' = auditlogs w /\
    firmas w' = firmas w /\
    expedientes w' = expedientes w /\
    (forall req,
        a = AuthMiddleware.Next req <->
        exists u, authenticates i w u /\ req = AuthMiddleware.with_user i u) /\
    ((forall u, ~ authenticates i w u) ->
     exists m, a = AuthMiddleware.Respond 401 unauthorized m).
Proof.
  destruct (protect_cases i w) as (a & e & Hp & Hcase).
  exists a. eexists. split; [exact Hp|]. simpl.
  split; [reflexivity|]. split; [reflexivity|]. split; [reflexivity|].
  destruct Hcase as [(u & Hu & Ha) | (Hnone & m & Ha)]; subst a.
  - split.
    + intros req. split.
      * intros Hreq. inversion Hreq. exists u. split; [exact Hu | reflexivity].
      * intros (u' & Hu' & Hreq). subst req.
        rewrite (authenticates_unique i w u u' Hu Hu'). reflexivity.
    + intros Hnone. exfalso. exact (Hnone u Hu).
  - split.
    + intros req. split.
      * intros Hreq. discriminate Hreq.
      * intros (u & Hu & _). exfalso. exact (Hnone u Hu).
    + intros _. exists m. reflexivity.
Qed.

(** What [restrictTo] does, by whether the role is listed. *)
Lemma restrictTo_cases (roles : list string)
    (req : Request) (w : World) :
  (In (user_role (user req)) roles ->
   AuthMiddleware.restrictTo roles req w
   = (Return (AuthMiddleware.Next req), w)) /\
  (~ In (user_role (user req)) roles ->
   exists w',
     AuthMiddleware.restrictTo roles req w
     = (Return (AuthMiddleware.Respond 403
                  "No tiene permiso para realizar esta acción" None), w') /\
     auditlogs w' = auditlogs w /\
     firmas w' = firmas w /\
     expedientes w' = expedientes w).
Proof.
  unfold AuthMiddleware.restrictTo. split.
  - intros Hin. apply str_in_In in Hin. rewrite Hin. reflexivity.
  - intros Hout.
    assert (Hb : str_in (user_role (user req)) roles = false).
    { destruct (str_in (user_role (user req)) roles) eqn:E; [|reflexivity].
      apply str_in_In in E. contradiction. }
    rewrite Hb. cbn [negb]. unfold bind.
    match goal with
    | |- context [AuthMiddleware.registrarIntentoFallido ?a ?b ?c ?d ?e w] =>
        destruct (registrarIntentoFallido_eq a b c d e w) as (paths & H);
          rewrite H
    end.
    eexists. split; [reflexivity|]. simpl. repeat split.
Qed.

(** X4. [restrictTo(...roles)] calls [next()] and changes nothing when
    the user's role is one of [roles]; otherwise it answers 403, and the
    denial it tries to record does not reach the audit collection. *)
Theorem restrictTo_lets_listed_roles_through (roles : list string)
    (req : Request) (w : World) :
  (In (user_role (user req)) roles ->
   AuthMiddleware.restrictTo roles req w
   = (Return (AuthMiddleware.Next req), w)) /\
  (~ In (user_role (user req)) roles ->
   exists w',
     AuthMiddleware.restrictTo roles req w
     = (Return (AuthMiddleware.Respond 403
                  "No tiene permiso para realizar esta acción" None), w') /\
     auditlogs w' = auditlogs w /\
     firmas w' = firmas w /\
     expedientes w' = expedientes w).
Proof.
  exact (restrictTo_cases roles req w).
Qed.

End Gatekeeping.

Example protect_sample_runs :
  fst (AuthMiddleware.protect (P := sample_platform) (Acc := sample_accounts)
         (sample_incoming (Some "Bearer tok-u1")) empty_world)
  = Return (AuthMiddleware.Next
              (AuthMiddleware.with_user
                 (sample_incoming (Some "Bearer tok-u1")) doctor)) /\
  fst (AuthMiddleware.protect (P := sample_platform) (Acc := sample_accounts)
         (sample_incoming None) empty_world)
  = Return (AuthMiddleware.Respond 401 unauthorized None) /\
  fst (AuthMiddleware.protect (P := sample_platform) (Acc := sample_accounts)
         (sample_incoming (Some "Bearer forged")) empty_world)
  = Return (AuthMiddleware.Respond 401 unauthorized (Some "jwt malformed")).
Proof. vm_compute. repeat split. Qed.

(** ** More on signing and signatures *)

Section SignatureLifecycle.
Context {P : Platform}.

(** X6. No run of [firmarExpediente] signs a record. The object it
    hands to [Firma.create] never sets the required paths [expediente]
    and [firmante], so whenever the earlier checks pass the creation is
    refused by validation; every run ends in an error, no signature is
    stored and no record changes. *)
Theorem firmarExpediente_never_signs (req : Request) (w : World) :
  exists err w',
    ExpedienteController.firmarExpediente req w = (Throw err, w') /\
    firmas w' = firmas w /\
    expedientes w' = expedientes w /\
    (forall c v,
        In "expediente"
           (Firma.validate (ExpedienteController.firmaInput c v)) /\
        In "firmante"
           (Firma.validate (ExpedienteController.firmaInput c v))).
Proof.
  destruct (firmarExpediente_outcome req w)
    as (err & w' & H & _ & Hf & He & _).
  exists err, w'. split; [exact H|]. split; [exact Hf|].
  split; [exact He|].
  intros c v. unfold Firma.validate. split.
  - apply in_or_app. right. apply in_or_app. left. simpl. auto.
  - apply in_or_app. right. apply in_or_app. right.
    apply in_or_app. left. simpl. auto.
Qed.

(** X7. Revoking and then verifying: inside the certificate window, a
    signature that has just been revoked verifies as invalid with the
    revoked message, and the details are the revocation that [revocar]
    wrote: its date, reason and actor. *)
Theorem revocar_then_verificarFirma (f : FirmaDoc.t) (u : User)
    (m : string) (w : World) :
  Firma.validate_doc f = [] ->
  FirmaDoc.vigencia_inicio f <= now w <= FirmaDoc.vigencia_fin f ->
  exists f' w',
    Firma.revocar f u m w = (Return f', w') /\
    Firma.verificarFirma f' w'
    = (Return (Firma.mkVerificacion false "La firma ha sido revocada"
                 (Some (FirmaDoc.mkRevocacion (now w) m (user_id u)))
                 None), w').
Proof.
  intros Hv Hwin.
  unfold Firma.revocar, bind, gets, Firma.save.
  rewrite validate_doc_with_revocacion, Hv.
  unfold modify, ret. simpl.
  match goal with
  | |- context [AuditLog.registrar ?d ?w0] =>
      destruct (registrar_returns d w0) as (r & w' & H & _ & _ & _ & Hnow);
        rewrite H
  end.
  eexists. exists w'. split; [reflexivity|].
  simpl in Hnow.
  unfold Firma.verificarFirma, try_catch, bind, gets, ret.
  rewrite Hnow. simpl.
  assert (Hb : (now w <? FirmaDoc.vigencia_inicio f)
               || (FirmaDoc.vigencia_fin f <? now w) = false).
  { apply orb_false_iff. rewrite !Z.ltb_ge. lia. }
  rewrite Hb. reflexivity.
Qed.

End SignatureLifecycle.

Lemma revocar_then_verificarFirma_witness :
  exists f' w',
    Firma.revocar (P := sample_platform) (sample_firma FirmaDoc.Valida None)
      doctor "clave comprometida"
      (world_2020 (sample_firma FirmaDoc.Valida None))
    = (Return f', w') /\
    Firma.verificarFirma (P := sample_platform) f' w'
    = (Return (Firma.mkVerificacion false "La firma ha sido revocada"
                 (Some (FirmaDoc.mkRevocacion
                          (now (world_2020 (sample_firma FirmaDoc.Valida None)))
                          "clave comprometida" (user_id doctor)))
                 None), w').
Proof.
  apply (revocar_then_verificarFirma (P := sample_platform)).
  - reflexivity.
  - vm_compute. split; discriminate.
Defined.

(** ** Appending and finding an audit record *)

Section Visibility.
Context {P : Platform}.

Lemma map_fst_populate (us : list User) (l : list AuditDoc.t) :
  map fst (map (AuditLog.populate us) l) = l.
Proof.
  induction l as [|x rest IH]; [reflexivity|].
  simpl. rewrite IH. reflexivity.
Qed.

Lemma build_inv (datos : AuditLog.Datos) (w w1 : World) (d : AuditDoc.t) :
  AuditLog.build datos w = (Return d, w1) ->
  AuditDoc.isNew d = true /\
  audit_store_up w1 = audit_store_up w /\
  auditlogs w1 = auditlogs w.
Proof.
  unfold AuditLog.build, bind, fresh_id, gets, ret. simpl.
  intros H. inversion H. subst. simpl. auto.
Qed.

Lemma registrar_success (datos : AuditLog.Datos) (w w1 : World)
    (d : AuditDoc.t) :
  AuditLog.build datos w = (Return d, w1) ->
  AuditLog.validate d = [] ->
  audit_store_up w = true ->
  bsonSize (AuditLog.persisted d) <= AuditLog.capped_size ->
  AuditLog.registrar datos w
  = (Return (Some (AuditLog.persisted d)),
     set_auditlogs (AuditLog.evict (auditlogs w ++ [AuditLog.persisted d])) w1).
Proof.
  intros Hb Hv Hup Hsize. rewrite registrar_eq. unfold bind. rewrite Hb.
  destruct (build_inv datos w w1 d Hb) as (Hnew & Hup1 & Hlogs).
  unfold AuditLog.save, AuditLog.pre_save, AuditLog.write, AuditLog.insert,
    bind, gets, modify, throw, ret.
  rewrite Hv, Hnew. simpl. rewrite Hup1, Hup. simpl.
  assert (Hlt : (AuditLog.capped_size <? bsonSize (AuditLog.persisted d))
                = false) by (apply Z.ltb_ge; exact Hsize).
  rewrite Hlt, Hlogs. reflexivity.
Qed.

(** X8. An audit record that is appended can be found. When the
    document [registrar] builds passes validation, the store is
    reachable and the document fits the collection, [registrar] returns
    the stored record and the collection holds it; a [buscar] whose
    filters the record satisfies, that skips nothing and whose page is
    long enough for all the matching records returns it. *)
Theorem registrar_then_buscar (datos : AuditLog.Datos) (w w1 : World)
    (d : AuditDoc.t) (f : AuditLog.Filtros) :
  AuditLog.build datos w = (Return d, w1) ->
  AuditLog.validate d = [] ->
  audit_store_up w = true ->
  bsonSize (AuditLog.persisted d) <= AuditLog.capped_size ->
  exists w',
    AuditLog.registrar datos w = (Return (Some (AuditLog.persisted d)), w') /\
    In (AuditLog.persisted d) (auditlogs w') /\
    (selected f (AuditLog.persisted d) ->
     AuditLog.or_count (AuditLog.f_skip f) 0 = 0%nat ->
     (List.length
        (filter (AuditLog.matches (AuditLog.buscar_query f)) (auditlogs w'))
      <= AuditLog.or_count (AuditLog.f_limite f) 100)%nat ->
     exists found,
       fst (AuditLog.buscar f w') = Return found /\
       In (AuditLog.persisted d) (map fst found)).
Proof.
  intros Hb Hv Hup Hsize.
  rewrite (registrar_success datos w w1 d Hb Hv Hup Hsize).
  eexists. split; [reflexivity|].
  assert (Hin : In (AuditLog.persisted d)
                   (AuditLog.evict (auditlogs w ++ [AuditLog.persisted d]))).
  { destruct (evict_keeps_last (auditlogs w) (AuditLog.persisted d)
                (fits_single _ Hsize)) as (pre & Hpre).
    rewrite Hpre. apply in_or_app. right. left. reflexivity. }
  split; [exact Hin|].
  intros Hsel Hskip Hlen.
  unfold AuditLog.buscar, AuditLog.page.
  rewrite Hskip. simpl (Z.of_nat 0 <? 0). cbv iota.
  eexists. split; [reflexivity|].
  rewrite map_fst_populate.
  rewrite limit_count by apply or_count_limit_pos.
  simpl skipn. simpl auditlogs in *.
  rewrite firstn_all2.
  - apply (Permutation_in _ (Permutation_sym (sort_desc_perm _))).
    apply filter_In. split; [exact Hin|].
    apply matches_selected. exact Hsel.
  - rewrite (Permutation_length (sort_desc_perm _)). exact Hlen.
Qed.

End Visibility.

Lemma registrar_then_buscar_witness :
  exists w',
    AuditLog.registrar (P := sample_platform) (login_datos false) stored_world
    = (Return (Some (AuditLog.persisted built_login)), w') /\
    In (AuditLog.persisted built_login) (auditlogs w') /\
    (selected logins (AuditLog.persisted built_login) ->
     AuditLog.or_count (AuditLog.f_skip logins) 0 = 0%nat ->
     (List.length
        (filter (AuditLog.matches (AuditLog.buscar_query logins))
                (auditlogs w'))
      <= AuditLog.or_count (AuditLog.f_limite logins) 100)%nat ->
     exists found,
       fst (AuditLog.buscar logins w') = Return found /\
       In (AuditLog.persisted built_login) (map fst found)).
Proof.
  apply (registrar_then_buscar (P := sample_platform) (login_datos false)
           stored_world (snd (fresh_id stored_world)) built_login logins).
  - reflexivity.
  - reflexivity.
  - reflexivity.
  - vm_compute. discriminate.
Defined.

(** ** Creating a signature *)

Section FirmaCreate.

Lemma required_some {A : Type} (path : string) (v : option A) :
  required path v = [] -> exists a, v = Some a.
Proof.
  destruct v as [a|]; simpl; [eauto | discriminate].
Qed.

Lemma required_string_some (path : string) (v : option string) :
  required_string path v = [] -> exists a, v = Some a /\ a <> "".
Proof.
  unfold required_string, truthy. destruct v as [a|]; [|discriminate].
  destruct (String.eqb a "") eqn:E; simpl; [discriminate|].
  intros _. exists a. split; [reflexivity|]. apply String.eqb_neq. exact E.
Qed.

Lemma enum_in (path : string) (allowed : list string) (s : string) :
  enum path allowed (Some s) = [] -> In s allowed.
Proof.
  unfold enum. destruct (str_in s allowed) eqn:E; [|discriminate].
  intros _. unfold str_in in E. apply existsb_exists in E.
  destruct E as (x & Hin & Heq). apply String.eqb_eq in Heq. subst x.
  exact Hin.
Qed.

(** X9. [Firma.create] stores a signature or nothing. An input that
    fails validation is refused with the failing paths and the
    collection is unchanged; an issuer given as a string that is not
    empty always fails, on the path [certificado.emisor]. A valid input
    adds exactly one signature, at the end: it takes its references,
    certificate, issuer, signature block and revocation from the input;
    its state and its date are the ones the input gives, 'valida' and
    the clock when it gives none; and its algorithm and purpose are
    among the values the schema allows, RSA-SHA256 standing in for an
    algorithm that is not given. *)
Theorem Firma_create_all_or_nothing (i : FirmaDoc.Input) (w : World) :
  (Firma.validate i <> [] ->
   Firma.create i w = (Throw (ValidationError (Firma.validate i)),
                       snd (fresh_id w)) /\
   firmas (snd (fresh_id w)) = firmas w) /\
  (forall s, FirmaDoc.in_emisor i = Some (FirmaDoc.EmisorString s) ->
             s <> "" -> In "certificado.emisor" (Firma.validate i)) /\
  (Firma.validate i = [] ->
   exists d w',
     Firma.create i w = (Return d, w') /\
     firmas w' = (firmas w ++ [d])%list /\
     (FirmaDoc.in_estado i = None -> FirmaDoc.estado d = FirmaDoc.Valida) /\
     (forall s, FirmaDoc.in_estado i = Some s ->
                estado_name (FirmaDoc.estado d) = s) /\
     FirmaDoc.revocacion d = FirmaDoc.in_revocacion i /\
     (FirmaDoc.in_timestamp_fecha i = None ->
      FirmaDoc.timestamp_fecha d = now w) /\
     (forall t, FirmaDoc.in_timestamp_fecha i = Some t ->
                FirmaDoc.timestamp_fecha d = t) /\
     FirmaDoc.emisor d = FirmaDoc.in_emisor i /\
     FirmaDoc.in_expediente i = Some (FirmaDoc.expediente d) /\
     FirmaDoc.in_firmante i = Some (FirmaDoc.firmante d) /\
     FirmaDoc.in_numeroSerie i = Some (FirmaDoc.numeroSerie d) /\
     FirmaDoc.in_vigencia_inicio i = Some (FirmaDoc.vigencia_inicio d) /\
     FirmaDoc.in_vigencia_fin i = Some (FirmaDoc.vigencia_fin d) /\
     FirmaDoc.in_certificadoPublico i = Some (FirmaDoc.certificadoPublico d) /\
     FirmaDoc.in_cadenaOriginal i = Some (FirmaDoc.cadenaOriginal d) /\
     FirmaDoc.in_selloDigital i = Some (FirmaDoc.selloDigital d) /\
     FirmaDoc.in_hashDocumento i = Some (FirmaDoc.hashDocumento d) /\
     In (FirmaDoc.algoritmo d) Firma.algoritmos /\
     In (FirmaDoc.proposito d) Firma.propositos).
Proof.
  split; [|split].
  - intros Hbad. split; [|reflexivity].
    unfold Firma.create, bind, fresh_id, gets. cbv beta iota.
    destruct (Firma.validate i); [congruence | reflexivity].
  - intros s Hs Hne. unfold Firma.validate. apply in_or_app. left.
    rewrite Hs. unfold Firma.cast_emisor.
    apply String.eqb_neq in Hne. rewrite Hne. left. reflexivity.
  - intros Hok. pose proof Hok as Hv. unfold Firma.validate in Hv.
    repeat (apply app_eq_nil in Hv;
            let H := fresh "Hp" in destruct Hv as [H Hv]).
    destruct (required_some _ _ Hp0) as (e & He).
    destruct (required_some _ _ Hp1) as (fm & Hfm).
    destruct (required_string_some _ _ Hp2) as (ns & Hns & _).
    destruct (required_some _ _ Hp3) as (vi & Hvi).
    destruct (required_some _ _ Hp4) as (vf & Hvf).
    destruct (required_string_some _ _ Hp5) as (cp & Hcp & _).
    destruct (required_string_some _ _ Hp7) as (co & Hco & _).
    destruct (required_string_some _ _ Hp8) as (sd & Hsd & _).
    destruct (required_string_some _ _ Hp9) as (hd & Hhd & _).
    destruct (required_string_some _ _ Hp10) as (pr & Hpr & _).
    unfold Firma.create, bind, fresh_id, gets, modify, ret. cbv beta iota.
    rewrite Hok. unfold Firma.hydrate.
    rewrite He, Hfm, Hns, Hvi, Hvf, Hcp, Hco, Hsd, Hhd, Hpr.
    cbv beta iota.
    eexists. eexists. split; [reflexivity|]. simpl.
    split; [reflexivity|].
    split; [intros Hn; rewrite Hn; reflexivity|].
    split.
    { intros s Hs. rewrite Hs in Hv |- *.
      apply enum_in in Hv. unfold Firma.estado_of.
      simpl in Hv.
      destruct Hv as [Hv|[Hv|[Hv|[]]]]; subst s; reflexivity. }
    split; [reflexivity|].
    split; [intros Hn; rewrite Hn; reflexivity|].
    split; [intros t Ht; rewrite Ht; reflexivity|].
    repeat (split; [reflexivity|]). split.
    + destruct (FirmaDoc.in_algoritmo i) as [a|] eqn:Ea.
      * apply (enum_in _ _ _ Hp6).
      * simpl. left. reflexivity.
    + rewrite Hpr in Hp11. apply (enum_in _ _ _ Hp11).
Qed.

End FirmaCreate.

Example Firma_create_sample :
  fst (Firma.create sample_input empty_world)
  = Return (FirmaDoc.mk "a" "e1" "u1" "00001000000504465028"
              (Some (FirmaDoc.EmisorObject (Some "SAT") None None (Some "MX")))
              1577836800000 1609459200000 "PEM" "RSA-SHA256" "||e1|u1||"
              "PEM||e1|u1||" "sha256:h" 1700000000000 "nota_medica"
              FirmaDoc.Valida None) /\
  fst (Firma.create string_emisor_input empty_world)
  = Throw (ValidationError ["certificado.emisor"]).
Proof. vm_compute. split; reflexivity. Qed.

(** ** Saving and finding a record *)

Section ExpedienteStore.
Context {P : Platform}.





(** X11. A save that does not touch [contenido] does not bind the hash
    again: the record it writes has the [documento] it had, so its
    integrity check answers as before the save, for a stale hash as for
    a good one. *)
Theorem save_keeps_hash_of_unmodified (d : ExpedienteDoc.t) (w : World) :
  ExpedienteDoc.contenido_modified d = false ->
  Expediente.validate d = [] ->
  exists d' w',
    Expediente.save d w = (Return d', w') /\
    ExpedienteDoc.documento d' = ExpedienteDoc.documento d /\
    ExpedienteDoc.contenido d' = ExpedienteDoc.contenido d /\
    Expediente.verificarIntegridad d' = Expediente.verificarIntegridad d.
Proof.
  intros Hmod Hvalid.
  unfold Expediente.save, Expediente.pre_save, bind, gets, modify, ret.
  rewrite Hvalid, Hmod. simpl.
  eexists. eexists. split; [reflexivity|]. repeat split.
Qed.

End ExpedienteStore.


Lemma save_keeps_hash_of_unmodified_witness :
  exists d' w',
    Expediente.save (P := sample_platform) stale_expediente
      (world_with stale_expediente)
    = (Return d', w') /\
    ExpedienteDoc.documento d' = ExpedienteDoc.documento stale_expediente /\
    ExpedienteDoc.contenido d' = ExpedienteDoc.contenido stale_expediente /\
    Expediente.verificarIntegridad (P := sample_platform) d'
    = Expediente.verificarIntegridad (P := sample_platform) stale_expediente.
Proof.
  apply (save_keeps_hash_of_unmodified (P := sample_platform));
    reflexivity.
Defined.

(** ** Downloading a record *)

Section Basename.






End Basename.

Section Download.
Context {P : Platform}.

Lemma registrarAuditoria_eq (req : Request) accion entidadId detalles
    exitoso mensaje (w : World) :
  exists paths,
    ExpedienteController.registrarAuditoria
      req accion entidadId detalles exitoso mensaje w
    = (Return tt, after_refused_audit (ValidationError paths) w).
Proof.
  unfold ExpedienteController.registrarAuditoria, bind.
  match goal with
  | |- context [AuditLog.registrar ?d w] =>
      destruct (registrar_nested_eq d w eq_refl) as (paths & H); rewrite H
  end.
  exists paths. reflexivity.
Qed.

(** What the download does with a record that is found and has a URL. *)
Lemma downloadPDF_cases (dir : string) (req : Request)
    (pacienteId : option ObjectId) (w : World) (e : ExpedienteDoc.t)
    (u : string) :
  Expediente.findById (params_id req) w = (Return (Some e), w) ->
  ExpedienteDoc.url (ExpedienteDoc.documento e) = Some u ->
  (forall p,
      user_role (user req) = "paciente" ->
      fst (Paciente_findById (ExpedienteDoc.paciente e) w) = Return (Some p) ->
      pacienteId <> Some (paciente_id p) ->
      ExpedienteDownload.downloadPDF dir req pacienteId w
      = (Throw (AppError "No tiene permiso para descargar este expediente"
                         403), w)) /\
  ((user_role (user req) <> "paciente" \/
    exists p,
      fst (Paciente_findById (ExpedienteDoc.paciente e) w) = Return (Some p) /\
      pacienteId = Some (paciente_id p)) ->
   (Expediente.verificarIntegridad e = false ->
    ExpedienteDownload.downloadPDF dir req pacienteId w
    = (Throw ContentHashMismatch, w)) /\
   (Expediente.verificarIntegridad e = true ->
    exists w',
      ExpedienteDownload.downloadPDF dir req pacienteId w
      = (Return [dir; "expedientes"; ExpedienteDownload.basename u], w') /\
      auditlogs w' = auditlogs w /\
      expedientes w' = expedientes w)).
Proof.
  intros Hfind Hurl.
  unfold ExpedienteDownload.downloadPDF, bind.
  rewrite Hfind. cbv beta iota.
  unfold Paciente_findById, gets. cbn [fst].
  split.
  - intros p Hrole Hp Hother. rewrite Hrole.
    change (String.eqb "paciente" "paciente") with true. cbv beta iota.
    inversion Hp as [Hp']. rewrite Hp'.
    assert (Hb : opt_eqb pacienteId (paciente_id p) = false).
    { unfold opt_eqb. destruct pacienteId as [x|]; [|reflexivity].
      apply String.eqb_neq. congruence. }
    rewrite Hb. reflexivity.
  - intros Hallowed.
    assert (Hgate :
      (if String.eqb (user_role (user req)) "paciente"
       then
         match
           match ExpedienteDoc.paciente e with
           | Some i => find (fun p => String.eqb (paciente_id p) i) (pacientes w)
           | None => None
           end
         with
         | None => throw (TypeError "expediente.paciente is null")
         | Some p =>
             if negb (opt_eqb pacienteId (paciente_id p))
             then throw (AppError
                           "No tiene permiso para descargar este expediente"
                           403)
             else ret tt
         end
       else ret tt) w = (Return tt, w)).
    { destruct Hallowed as [Hrole | (p & Hp & Hpid)].
      - apply String.eqb_neq in Hrole. rewrite Hrole. reflexivity.
      - destruct (String.eqb (user_role (user req)) "paciente");
          [|reflexivity].
        inversion Hp as [Hp']. rewrite Hp'. subst pacienteId.
        unfold opt_eqb. rewrite String.eqb_refl. reflexivity. }
    rewrite Hgate. cbv beta iota. rewrite Hurl. split.
    + intros Hbad. rewrite Hbad. reflexivity.
    + intros Hgood. rewrite Hgood. cbn [negb]. cbv beta iota.
      match goal with
      | |- context [ExpedienteController.registrarAuditoria ?a ?b ?c ?d ?x ?y w] =>
          destruct (registrarAuditoria_eq a b c d x y w) as (paths & H);
            rewrite H
      end.
      eexists. split; [reflexivity|]. split; reflexivity.
Qed.

(** X12. The gates of the download, for a record that is found and has
    a stored URL. A patient whose [pacienteId] is not the record's
    patient is refused with 403. Anyone else, and the patient of the
    record, is refused with the integrity error when the stored hash is
    not the hash of the content, and is otherwise served the file named
    by the last segment of the URL, under the upload directory. Nothing
    is written on a refusal, and the served download leaves the audit
    collection as it was. *)
Theorem downloadPDF_gates (dir : string) (req : Request)
    (pacienteId : option ObjectId) (w : World) (e : ExpedienteDoc.t)
    (u : string) :
  Expediente.findById (params_id req) w = (Return (Some e), w) ->
  ExpedienteDoc.url (ExpedienteDoc.documento e) = Some u ->
  (forall p,
      user_role (user req) = "paciente" ->
      fst (Paciente_findById (ExpedienteDoc.paciente e) w) = Return (Some p) ->
      pacienteId <> Some (paciente_id p) ->
      ExpedienteDownload.downloadPDF dir req pacienteId w
      = (Throw (AppError "No tiene permiso para descargar este expediente"
                         403), w)) /\
  ((user_role (user req) <> "paciente" \/
    exists p,
      fst (Paciente_findById (ExpedienteDoc.paciente e) w) = Return (Some p) /\
      pacienteId = Some (paciente_id p)) ->
   (Expediente.verificarIntegridad e = false ->
    ExpedienteDownload.downloadPDF dir req pacienteId w
    = (Throw ContentHashMismatch, w)) /\
   (Expediente.verificarIntegridad e = true ->
    exists w',
      ExpedienteDownload.downloadPDF dir req pacienteId w
      = (Return [dir; "expedientes"; ExpedienteDownload.basename u], w') /\
      auditlogs w' = auditlogs w /\
      expedientes w' = expedientes w)).
Proof.
  exact (downloadPDF_cases dir req pacienteId w e u).
Qed.

Lemma find_replace (d : ExpedienteDoc.t) (l : list ExpedienteDoc.t) :
  (exists x, In x l /\ ExpedienteDoc._id x = ExpedienteDoc._id d) ->
  ExpedienteDoc.active d = true ->
  find (fun y => String.eqb (ExpedienteDoc._id y) (ExpedienteDoc._id d)
                 && ExpedienteDoc.active y)
       (Expediente.replace_doc d l)
  = Some d.
Proof.
  intros (x & Hin & Hid) Hact. induction l as [|y rest IH]; [contradiction|].
  simpl. destruct (String.eqb (ExpedienteDoc._id y) (ExpedienteDoc._id d))
    eqn:E.
  - simpl. rewrite String.eqb_refl, Hact. reflexivity.
  - simpl. rewrite E. simpl. apply IH.
    destruct Hin as [Hy | Hrest]; [|exact Hrest].
    subst y. rewrite Hid, String.eqb_refl in E. discriminate E.
Qed.

Lemma hydrate_fixed (d : ExpedienteDoc.t) :
  hydrated_keys (ExpedienteDoc.claves (ExpedienteDoc.contenido d))
  = ExpedienteDoc.claves (ExpedienteDoc.contenido d) ->
  ExpedienteDoc.contenido (Expediente.hydrate d) = ExpedienteDoc.contenido d.
Proof.
  intros H. unfold Expediente.hydrate. cbn [ExpedienteDoc.contenido].
  rewrite H. destruct (ExpedienteDoc.contenido d). reflexivity.
Qed.

(** X13. Saving and then downloading. When a stored, active record
    with a URL, the keys of its content in the order in which the store
    hands them out, as they are in a record that was read from it, is
    saved with modified content, the hash is bound again, and a
    download of that record by a user who is not a patient is then
    served: the integrity gate passes. *)
Theorem save_then_downloadPDF (dir : string) (req : Request)
    (pacienteId : option ObjectId) (d : ExpedienteDoc.t) (w : World)
    (u : string) :
  ExpedienteDoc.isNew d = false ->
  ExpedienteDoc.contenido_modified d = true ->
  hydrated_keys (ExpedienteDoc.claves (ExpedienteDoc.contenido d))
  = ExpedienteDoc.claves (ExpedienteDoc.contenido d) ->
  ExpedienteDoc.active d = true ->
  Expediente.validate d = [] ->
  ExpedienteDoc.url (ExpedienteDoc.documento d) = Some u ->
  (exists x, In x (expedientes w) /\
             ExpedienteDoc._id x = ExpedienteDoc._id d) ->
  params_id req = ExpedienteDoc._id d ->
  user_role (user req) <> "paciente" ->
  exists d' w' w'',
    Expediente.save d w = (Return d', w') /\
    ExpedienteDownload.downloadPDF dir req pacienteId w'
    = (Return [dir; "expedientes"; ExpedienteDownload.basename u], w'').
Proof.
  intros Hnew Hmod Hkeys Hact Hvalid Hurl Hstored Hid Hrole.
  unfold Expediente.save, Expediente.pre_save, bind, gets, modify, ret.
  rewrite Hvalid, Hmod. simpl. rewrite Hnew.
  eexists. eexists.
  match goal with
  | |- exists w'', (Return ?d', ?w') = _ /\ _ =>
      destruct (downloadPDF_cases dir req pacienteId w'
                  (Expediente.hydrate d') u) as [_ Hserve]
  end.
  - unfold Expediente.findById, gets. simpl. rewrite Hid.
    match goal with
    | |- context [find ?p (Expediente.replace_doc ?d' ?l)] =>
        assert (Hf : find p (Expediente.replace_doc d' l) = Some d')
          by (apply (find_replace d' l); [exact Hstored | exact Hact]);
          rewrite Hf
    end.
    reflexivity.
  - simpl. exact Hurl.
  - destruct (Hserve (or_introl Hrole)) as [_ Hgood].
    destruct Hgood as (w'' & Hd & _).
    + unfold Expediente.verificarIntegridad.
      rewrite hydrate_fixed by exact Hkeys.
      simpl. apply String.eqb_refl.
    + exists w''. split; [reflexivity | exact Hd].
Qed.

End Download.

Lemma downloadPDF_gates_witness :
  (forall p,
      user_role (user (sample_request doctor None)) = "paciente" ->
      fst (Paciente_findById (ExpedienteDoc.paciente signed_expediente)
             (world_with signed_expediente))
      = Return (Some p) ->
      None <> Some (paciente_id p) ->
      ExpedienteDownload.downloadPDF (P := sample_platform) "./uploads"
        (sample_request doctor None) None (world_with signed_expediente)
      = (Throw (AppError "No tiene permiso para descargar este expediente"
                         403), world_with signed_expediente)) /\
  ((user_role (user (sample_request doctor None)) <> "paciente" \/
    exists p,
      fst (Paciente_findById (ExpedienteDoc.paciente signed_expediente)
             (world_with signed_expediente))
      = Return (Some p) /\
      None = Some (paciente_id p)) ->
   (Expediente.verificarIntegridad (P := sample_platform) signed_expediente
    = false ->
    ExpedienteDownload.downloadPDF (P := sample_platform) "./uploads"
      (sample_request doctor None) None (world_with signed_expediente)
    = (Throw ContentHashMismatch, world_with signed_expediente)) /\
   (Expediente.verificarIntegridad (P := sample_platform) signed_expediente
    = true ->
    exists w',
      ExpedienteDownload.downloadPDF (P := sample_platform) "./uploads"
        (sample_request doctor None) None (world_with signed_expediente)
      = (Return ["./uploads"; "expedientes";
                 ExpedienteDownload.basename
                   "/uploads/expedientes/expediente_e1.pdf"], w') /\
      auditlogs w' = auditlogs (world_with signed_expediente) /\
      expedientes w' = expedientes (world_with signed_expediente))).
Proof.
  apply (downloadPDF_gates (P := sample_platform) "./uploads"
           (sample_request doctor None) None (world_with signed_expediente)
           signed_expediente "/uploads/expedientes/expediente_e1.pdf");
    reflexivity.
Defined.

Lemma save_then_downloadPDF_witness :
  exists d' w' w'',
    Expediente.save (P := sample_platform) edited_expediente
      (world_with stale_expediente)
    = (Return d', w') /\
    ExpedienteDownload.downloadPDF (P := sample_platform) "./uploads"
      (sample_request doctor None) None w'
    = (Return ["./uploads"; "expedientes";
               ExpedienteDownload.basename
                 "/uploads/expedientes/expediente_e1.pdf"], w'').
Proof.
  apply (save_then_downloadPDF (P := sample_platform) "./uploads"
           (sample_request doctor None) None edited_expediente
           (world_with stale_expediente)
           "/uploads/expedientes/expediente_e1.pdf").
  - reflexivity.
  - reflexivity.
  - reflexivity.
  - reflexivity.
  - reflexivity.
  - reflexivity.
  - exists stale_expediente. split; [left; reflexivity | reflexivity].
  - reflexivity.
  - discriminate.
Defined.

(** The download on the samples: a stale hash is refused, a patient
    other than the record's is refused, the record's doctor is served. *)
Example downloadPDF_sample_runs :
  fst (ExpedienteDownload.downloadPDF (P := sample_platform) "./uploads"
         (sample_request doctor None) None (world_with stale_expediente))
  = Throw ContentHashMismatch /\
  fst (ExpedienteDownload.downloadPDF (P := sample_platform) "./uploads"
         (sample_request patient None) (Some "p2")
         (world_with signed_expediente))
  = Throw (AppError "No tiene permiso para descargar este expediente" 403) /\
  fst (ExpedienteDownload.downloadPDF (P := sample_platform) "./uploads"
         (sample_request patient None) (Some "p1")
         (world_with signed_expediente))
  = Return ["./uploads"; "expedientes"; "expediente_e1.pdf"] /\
  ExpedienteDownload.basename "/uploads/expedientes/" = "expedientes" /\
  ExpedienteDownload.basename "" = "".
Proof. vm_compute. repeat split. Qed.

(** ** Export, paging and statistics of the audit trail *)

Section Reports.
Context {P : Platform}.

Lemma matches_rango (desde hasta : option Z) (d : AuditDoc.t) :
  AuditLog.matches (AuditReports.rango desde hasta) d = true <->
  in_range desde hasta d.
Proof.
  unfold AuditLog.matches, AuditReports.rango, in_range. simpl.
  rewrite andb_true_iff.
  rewrite (cond_bound desde _ (fun lo => lo <= AuditDoc.timestamp d))
    by (intros z; apply Z.leb_le).
  rewrite (cond_bound hasta _ (fun hi => AuditDoc.timestamp d <= hi))
    by (intros z; apply Z.leb_le).
  tauto.
Qed.

(** X14. The export is for administrators: anyone else is refused
    with 403 and nothing is read. For an administrator the CSV is made of
    one row per stored record of the date range, all of them, newest
    first; the range is the only filter, whatever else the query
    carries, and no paging applies. The export leaves the audit
    collection as it was. *)
Theorem exportAuditLogs_rows (toLocaleString : Z -> string)
    (parse : list AuditReports.Fila -> string) (req : Request) (w : World) :
  (user_role (user req) <> "admin" ->
   AuditReports.exportAuditLogs toLocaleString parse req w
   = (Throw (AppError
               "No tiene permiso para exportar registros de auditoría" 403),
      w)) /\
  (user_role (user req) = "admin" ->
   exists ordered w',
     AuditReports.exportAuditLogs toLocaleString parse req w
     = (Return (parse (map (AuditReports.fila toLocaleString)
                         (map (AuditLog.populate (users w)) ordered))),
        w') /\
     (forall d,
         In d ordered <->
         In d (auditlogs w) /\
         in_range (p_fechaInicio (query req)) (p_fechaFin (query req)) d) /\
     List.length ordered
     = List.length
         (filter (AuditLog.matches
                    (AuditReports.rango (p_fechaInicio (query req))
                                        (p_fechaFin (query req))))
                 (auditlogs w)) /\
     StronglySorted newest_first ordered /\
     auditlogs w' = auditlogs w).
Proof.
  unfold AuditReports.exportAuditLogs. split.
  - intros Hrole. apply String.eqb_neq in Hrole. rewrite Hrole. reflexivity.
  - intros Hrole. rewrite Hrole.
    change (negb (String.eqb "admin" "admin")) with false. cbv iota.
    unfold bind, AuditLog.page.
    change (0 <? 0) with false. cbv beta iota.
    match goal with
    | |- context [AuditLog.registrar ?d w] =>
        destruct (registrar_nested_eq d w eq_refl) as (paths & H); rewrite H
    end.
    exists (AuditLog.sort_desc
              (filter (AuditLog.matches
                         (AuditReports.rango (p_fechaInicio (query req))
                                             (p_fechaFin (query req))))
                      (auditlogs w))).
    eexists. split; [reflexivity|]. split; [|split; [|split]].
    + intros d. split.
      * intros Hin. apply (Permutation_in _ (sort_desc_perm _)) in Hin.
        apply filter_In in Hin. destruct Hin as [Hs Hm].
        split; [exact Hs | apply matches_rango; exact Hm].
      * intros [Hs Hr].
        apply (Permutation_in _ (Permutation_sym (sort_desc_perm _))).
        apply filter_In. split; [exact Hs | apply matches_rango; exact Hr].
    + apply Permutation_length. apply sort_desc_perm.
    + apply sort_desc_sorted.
    + reflexivity.
Qed.


End Reports.

Example exportAuditLogs_sample :
  fst (AuditReports.exportAuditLogs (P := sample_platform) sample_locale
         sample_csv
         (mkRequest admin "" None None None "/api/audit/export" "GET" None
            (mkAuditParams None None (Some "logout") None None None
               (Some 1704067200000) (Some 1706659200000) None None))
         january_world)
  = Return "1705500000000;1704999600000;1704103200000".
Proof. vm_compute. reflexivity. Qed.

Section Statistics.
Context {P : Platform}.

Lemma key_eqb_eq (a b : option string) :
  AuditReports.key_eqb a b = true <-> a = b.
Proof.
  destruct a as [x|], b as [y|]; simpl; split; intros H;
    try discriminate; try reflexivity.
  - apply String.eqb_eq in H. congruence.
  - inversion H. apply String.eqb_refl.
Qed.

Lemma key_eqb_refl (a : option string) : AuditReports.key_eqb a a = true.
Proof. apply key_eqb_eq. reflexivity. Qed.

Lemma key_eqb_neq (a b : option string) :
  AuditReports.key_eqb a b = false <-> a <> b.
Proof.
  split.
  - intros H Heq. apply key_eqb_eq in Heq. congruence.
  - intros H. destruct (AuditReports.key_eqb a b) eqn:E; [|reflexivity].
    apply key_eqb_eq in E. contradiction.
Qed.

Lemma suma_tally (k : option string) (g : list (option string * Z)) :
  suma (AuditReports.tally k g) = suma g + 1.
Proof.
  induction g as [|[k' n] rest IH]; simpl; [reflexivity|].
  destruct (AuditReports.key_eqb k k'); simpl; [lia|].
  rewrite IH. lia.
Qed.

Lemma count_of_tally (k kd : option string) (g : list (option string * Z)) :
  count_of k (AuditReports.tally kd g)
  = if AuditReports.key_eqb k kd
    then Some (match count_of k g with Some n => n + 1 | None => 1 end)
    else count_of k g.
Proof.
  induction g as [|[k' n] rest IH]; simpl.
  - destruct (AuditReports.key_eqb k kd); reflexivity.
  - destruct (AuditReports.key_eqb kd k') eqn:Ed; simpl.
    + apply key_eqb_eq in Ed. subst k'.
      destruct (AuditReports.key_eqb k kd); reflexivity.
    + rewrite IH.
      destruct (AuditReports.key_eqb k kd) eqn:Ek; [|reflexivity].
      apply key_eqb_eq in Ek. subst k. rewrite Ed. reflexivity.
Qed.

Lemma tally_keys (kd : option string) (g : list (option string * Z)) :
  NoDup (map fst g) -> NoDup (map fst (AuditReports.tally kd g)).
Proof.
  assert (Hkeys : forall k,
             In k (map fst (AuditReports.tally kd g)) ->
             k = kd \/ In k (map fst g)).
  { induction g as [|[k' n] rest IH]; simpl.
    - intros k [H|[]]. left. symmetry. exact H.
    - intros k. destruct (AuditReports.key_eqb kd k'); simpl.
      + intros H. right. exact H.
      + intros [H|H]; [right; left; exact H|].
        destruct (IH k H) as [Hk|Hk]; [left; exact Hk | right; right; exact Hk]. }
  clear Hkeys.
  induction g as [|[k' n] rest IH]; simpl; intros Hnd.
  - constructor; [simpl; tauto | constructor].
  - inversion Hnd as [|? ? Hnot Hrest]; subst.
    destruct (AuditReports.key_eqb kd k') eqn:Ed; simpl.
    + constructor; assumption.
    + constructor; [|apply IH; exact Hrest].
      intros Hin. apply Hnot. clear IH Hnd Hrest Hnot.
      induction rest as [|[k2 n2] rest2 IH2]; simpl in *.
      * destruct Hin as [H|[]]. subst k'. rewrite key_eqb_refl in Ed.
        discriminate Ed.
      * destruct (AuditReports.key_eqb kd k2); simpl in Hin.
        -- exact Hin.
        -- destruct Hin as [H|H]; [left; exact H | right; apply IH2; exact H].
Qed.

Lemma count_of_in (k : option string) (n : Z)
    (g : list (option string * Z)) :
  NoDup (map fst g) -> (In (k, n) g <-> count_of k g = Some n).
Proof.
  induction g as [|[k' m] rest IH]; simpl; intros Hnd.
  - split; [tauto | discriminate].
  - inversion Hnd as [|? ? Hnot Hrest]; subst.
    destruct (AuditReports.key_eqb k k') eqn:E.
    + apply key_eqb_eq in E. subst k'. split.
      * intros [H|H]; [inversion H; reflexivity|].
        exfalso. apply Hnot. apply (in_map fst) in H. exact H.
      * intros H. inversion H. left. reflexivity.
    + apply key_eqb_neq in E. rewrite <- (IH Hrest). split.
      * intros [H|H]; [inversion H; congruence | exact H].
      * intros H. right. exact H.
Qed.

Lemma with_key_snoc (key : AuditDoc.t -> option string) (k : option string)
    (done : list AuditDoc.t) (d : AuditDoc.t) :
  with_key key k (done ++ [d])
  = with_key key k done + (if AuditReports.key_eqb k (key d) then 1 else 0).
Proof.
  unfold with_key. rewrite filter_app, length_app. simpl.
  destruct (AuditReports.key_eqb k (key d)); simpl; lia.
Qed.

Lemma with_key_nonneg (key : AuditDoc.t -> option string) (k : option string)
    (l : list AuditDoc.t) : 0 <= with_key key k l.
Proof. unfold with_key. lia. Qed.

(** The groups after a run of [$group] over [todo], starting from the
    groups of the records seen so far. *)
Lemma group_fold (key : AuditDoc.t -> option string)
    (todo seen : list AuditDoc.t) (g : list (option string * Z)) :
  NoDup (map fst g) ->
  (forall k, count_of k g
             = if with_key key k seen =? 0 then None
               else Some (with_key key k seen)) ->
  suma g = Z.of_nat (List.length seen) ->
  let g' := fold_left (fun groups d => AuditReports.tally (key d) groups)
                      todo g in
  NoDup (map fst g') /\
  (forall k, count_of k g'
             = if with_key key k (seen ++ todo) =? 0 then None
               else Some (with_key key k (seen ++ todo))) /\
  suma g' = Z.of_nat (List.length (seen ++ todo)).
Proof.
  revert seen g. induction todo as [|d rest IH]; intros seen g Hnd Hcount Hsum.
  - simpl. rewrite app_nil_r. auto.
  - simpl.
    replace (seen ++ d :: rest)%list with ((seen ++ [d]) ++ rest)%list
      by (rewrite <- app_assoc; reflexivity).
    apply IH.
    + apply tally_keys. exact Hnd.
    + intros k. rewrite count_of_tally, with_key_snoc, Hcount.
      pose proof (with_key_nonneg key k seen) as Hpos.
      destruct (AuditReports.key_eqb k (key d)).
      * destruct (with_key key k seen =? 0) eqn:E0.
        -- apply Z.eqb_eq in E0. rewrite E0. reflexivity.
        -- apply Z.eqb_neq in E0.
           destruct (with_key key k seen + 1 =? 0) eqn:E1;
             [apply Z.eqb_eq in E1; lia | reflexivity].
      * rewrite Z.add_0_r. reflexivity.
    + rewrite suma_tally, Hsum, length_app. simpl. lia.
Qed.

Lemma group_count_spec (key : AuditDoc.t -> option string)
    (l : list AuditDoc.t) :
  NoDup (map fst (AuditReports.group_count key l)) /\
  (forall k n,
      In (k, n) (AuditReports.group_count key l) <->
      n = with_key key k l /\ 0 < n) /\
  suma (AuditReports.group_count key l) = Z.of_nat (List.length l).
Proof.
  destruct (group_fold key l [] [] (NoDup_nil _)) as (Hnd & Hcount & Hsum);
    [intros k; reflexivity | reflexivity |].
  simpl in Hcount, Hsum. fold (AuditReports.group_count key l) in *.
  split; [exact Hnd|]. split; [|exact Hsum].
  intros k n. rewrite (count_of_in k n _ Hnd), Hcount.
  pose proof (with_key_nonneg key k l) as Hpos.
  destruct (with_key key k l =? 0) eqn:E.
  - apply Z.eqb_eq in E. split; [discriminate | lia].
  - apply Z.eqb_neq in E. split.
    + intros H. inversion H. lia.
    + intros [Hn _]. subst n. reflexivity.
Qed.

Lemma insert_count_perm (g : option string * Z)
    (l : list (option string * Z)) :
  Permutation (AuditReports.insert_count g l) (g :: l).
Proof.
  induction l as [|x rest IH]; simpl; [apply Permutation_refl|].
  destruct (snd x <? snd g).
  - apply Permutation_refl.
  - apply perm_trans with (x :: g :: rest);
      [apply perm_skip; exact IH | apply perm_swap].
Qed.

Lemma sort_count_perm (l : list (option string * Z)) :
  Permutation (AuditReports.sort_count l) l.
Proof.
  induction l as [|x rest IH]; simpl; [apply perm_nil|].
  eapply perm_trans; [apply insert_count_perm|].
  apply perm_skip. exact IH.
Qed.

Lemma insert_count_sorted (g : option string * Z)
    (l : list (option string * Z)) :
  Sorted most_first l -> Sorted most_first (AuditReports.insert_count g l).
Proof.
  induction l as [|x rest IH]; intros Hs; simpl.
  - repeat constructor.
  - destruct (snd x <? snd g) eqn:E.
    + constructor; [exact Hs|]. constructor.
      unfold most_first. apply Z.ltb_lt in E. lia.
    + inversion Hs as [|? ? Hrest Hhd]; subst.
      constructor; [apply IH; exact Hrest|].
      apply Z.ltb_ge in E.
      destruct rest as [|y rest']; simpl.
      * constructor. exact E.
      * destruct (snd y <? snd g); constructor;
          [exact E | inversion Hhd; assumption].
Qed.

Lemma sort_count_sorted (l : list (option string * Z)) :
  StronglySorted most_first (AuditReports.sort_count l).
Proof.
  apply Sorted_StronglySorted.
  - intros a b c Hab Hbc. unfold most_first in *. lia.
  - induction l as [|x rest IH]; simpl; [constructor|].
    apply insert_count_sorted. exact IH.
Qed.

Lemma suma_perm (l l' : list (option string * Z)) :
  Permutation l l' -> suma l = suma l'.
Proof.
  intros Hp. induction Hp; simpl; lia.
Qed.

Lemma exitoso_split (l : list AuditDoc.t) :
  AuditReports.count_exitoso true l + AuditReports.count_exitoso false l
  <= Z.of_nat (List.length l).
Proof.
  unfold AuditReports.count_exitoso.
  induction l as [|d rest IH]; [simpl; lia|].
  cbn [filter].
  destruct (AuditDoc.resultado_exitoso d) as [[|]|];
    cbn [AuditLog.opt_bool_eqb Bool.eqb List.length]; lia.
Qed.

(** X16. The statistics are for administrators. For one, the answer
    covers the records from thirty days before the clock up to the
    clock: there is no summary when there is none, and otherwise the
    total is their number and the successful and failed counts together
    do not exceed it. Each distribution, by action and by role, lists
    every key that occurs exactly once with the number of records that
    carry it, sums to the number of records, and is ordered by
    decreasing count. The audit collection is left as it was. *)
Theorem getAuditStats_counts (thirtyDaysBefore : Z -> Z) (req : Request)
    (w : World) :
  user_role (user req) = "admin" ->
  let matched :=
    filter (AuditLog.matches
              (AuditReports.rango (Some (thirtyDaysBefore (now w)))
                                  (Some (now w))))
           (auditlogs w) in
  exists r w',
    AuditReports.getAuditStats thirtyDaysBefore req w = (Return r, w') /\
    auditlogs w' = auditlogs w /\
    AuditReports.periodo r = (thirtyDaysBefore (now w), now w) /\
    (AuditReports.stats r = None <-> matched = []) /\
    (forall s,
        AuditReports.stats r = Some s ->
        AuditReports.totalRegistros s = Z.of_nat (List.length matched) /\
        AuditReports.accionesExitosas s + AuditReports.accionesFallidas s
        <= AuditReports.totalRegistros s) /\
    (forall k n,
        In (k, n) (AuditReports.distribucionAcciones r) <->
        n = with_key AuditDoc.accion k matched /\ 0 < n) /\
    (forall k n,
        In (k, n) (AuditReports.distribucionRoles r) <->
        n = with_key AuditDoc.rolUsuario k matched /\ 0 < n) /\
    NoDup (map fst (AuditReports.distribucionAcciones r)) /\
    NoDup (map fst (AuditReports.distribucionRoles r)) /\
    suma (AuditReports.distribucionAcciones r)
    = Z.of_nat (List.length matched) /\
    suma (AuditReports.distribucionRoles r)
    = Z.of_nat (List.length matched) /\
    StronglySorted most_first (AuditReports.distribucionAcciones r) /\
    StronglySorted most_first (AuditReports.distribucionRoles r).
Proof.
  intros Hrole matched.
  unfold AuditReports.getAuditStats. rewrite Hrole.
  change (negb (String.eqb "admin" "admin")) with false. cbv iota.
  unfold bind, gets. cbv beta iota zeta.
  match goal with
  | |- context [AuditLog.registrar ?d w] =>
      destruct (registrar_nested_eq d w eq_refl) as (paths & H); rewrite H
  end.
  fold matched.
  eexists. eexists. split; [reflexivity|]. simpl.
  destruct (group_count_spec AuditDoc.accion matched) as (Hnd1 & Hin1 & Hs1).
  destruct (group_count_spec AuditDoc.rolUsuario matched)
    as (Hnd2 & Hin2 & Hs2).
  split; [reflexivity|]. split; [reflexivity|].
  split.
  { unfold AuditReports.resumen. destruct matched; split;
      intros Hx; try reflexivity; discriminate Hx. }
  split.
  { intros s Hs. unfold AuditReports.resumen in Hs.
    destruct matched as [|d rest] eqn:Em; [discriminate Hs|].
    inversion Hs. simpl AuditReports.totalRegistros.
    simpl AuditReports.accionesExitosas. simpl AuditReports.accionesFallidas.
    split; [reflexivity | apply exitoso_split]. }
  split.
  { intros k n. rewrite <- Hin1. split; intros Hin.
    - apply (Permutation_in _ (sort_count_perm _)). exact Hin.
    - apply (Permutation_in _ (Permutation_sym (sort_count_perm _))).
      exact Hin. }
  split.
  { intros k n. rewrite <- Hin2. split; intros Hin.
    - apply (Permutation_in _ (sort_count_perm _)). exact Hin.
    - apply (Permutation_in _ (Permutation_sym (sort_count_perm _))).
      exact Hin. }
  split.
  { apply (Permutation_NoDup
             (Permutation_sym (Permutation_map fst (sort_count_perm _)))).
    exact Hnd1. }
  split.
  { apply (Permutation_NoDup
             (Permutation_sym (Permutation_map fst (sort_count_perm _)))).
    exact Hnd2. }
  split; [rewrite (suma_perm _ _ (sort_count_perm _)); exact Hs1|].
  split; [rewrite (suma_perm _ _ (sort_count_perm _)); exact Hs2|].
  split; apply sort_count_sorted.
Qed.

End Statistics.

(** ** Creating a record *)

Section Creation.
Context {P : Platform}.

(** Replacing the record that was appended last. *)
Lemma replace_last (d d1 : ExpedienteDoc.t) (l : list ExpedienteDoc.t) :
  (forall x, In x l -> ExpedienteDoc._id x <> ExpedienteDoc._id d) ->
  ExpedienteDoc._id d1 = ExpedienteDoc._id d ->
  Expediente.replace_doc d (l ++ [d1]) = (l ++ [d])%list.
Proof.
  intros Hfresh Hid. unfold Expediente.replace_doc.
  rewrite map_app. simpl. rewrite Hid, String.eqb_refl. f_equal.
  induction l as [|x rest IH]; [reflexivity|].
  simpl. destruct (String.eqb (ExpedienteDoc._id x) (ExpedienteDoc._id d))
    eqn:E.
  - apply String.eqb_eq in E. exfalso.
    apply (Hfresh x); [left; reflexivity | exact E].
  - rewrite IH; [reflexivity|]. intros y Hy. apply Hfresh. right. exact Hy.
Qed.

Lemma validate_needs_contenido (oid : ObjectId) (ahora : Z)
    (b : ExpedienteCreate.Body) (creador : ObjectId) :
  Expediente.validate (ExpedienteCreate.nuevo oid ahora b creador) = [] ->
  exists c, ExpedienteCreate.b_contenido b = Some c.
Proof.
  intros Hv. destruct (ExpedienteCreate.b_contenido b) as [c|] eqn:E;
    [eauto|].
  exfalso. unfold Expediente.validate, ExpedienteCreate.nuevo in Hv.
  rewrite E in Hv. simpl in Hv.
  repeat (apply app_eq_nil in Hv; destruct Hv as [? Hv]).
  discriminate.
Qed.

Lemma save_new_eq (d : ExpedienteDoc.t) (w : World) :
  ExpedienteDoc.isNew d = true ->
  ExpedienteDoc.contenido_modified d = true ->
  Expediente.validate d = [] ->
  Expediente.save d w
  = (let d1 :=
       Expediente.persisted
         (Expediente.with_documento d
            (ExpedienteDoc.mkDocumento
               (ExpedienteDoc.url (ExpedienteDoc.documento d))
               (Some (Expediente.hashContenido (ExpedienteDoc.contenido d)))
               (Some (now w)))) in
     (Return d1, set_expedientes (expedientes w ++ [d1]) w)).
Proof.
  intros Hnew Hmod Hvalid.
  unfold Expediente.save, Expediente.pre_save, bind, gets, modify, ret.
  rewrite Hvalid, Hmod. simpl. rewrite Hnew. reflexivity.
Qed.

Lemma save_stored_eq (d : ExpedienteDoc.t) (w : World) :
  ExpedienteDoc.isNew d = false ->
  ExpedienteDoc.contenido_modified d = false ->
  Expediente.validate d = [] ->
  Expediente.save d w
  = (Return (Expediente.persisted d),
     set_expedientes
       (Expediente.replace_doc (Expediente.persisted d) (expedientes w)) w).
Proof.
  intros Hnew Hmod Hvalid.
  unfold Expediente.save, Expediente.pre_save, bind, gets, modify, ret.
  rewrite Hvalid, Hmod. simpl. rewrite Hnew. reflexivity.
Qed.

(** The run of a creation that goes through. *)
Lemma createExpediente_eq (dir : string) (path_join : list string -> string)
    (req : Request) (b : ExpedienteCreate.Body) (w : World) (p : Paciente) :
  user_role (user req) = "doctor" ->
  fst (Paciente_findById (ExpedienteCreate.b_paciente b) w) = Return (Some p) ->
  Expediente.validate
    (ExpedienteCreate.nuevo (next_id w) (now w) b (user_id (user req))) = [] ->
  (forall x, In x (expedientes w) -> ExpedienteDoc._id x <> next_id w) ->
  (forall e, exists pdf, generarPDF e (Some p) = Return pdf) ->
  exists d w' pdf,
    ExpedienteCreate.createExpediente dir path_join req b w = (Return d, w') /\
    ExpedienteDoc._id d = next_id w /\
    ExpedienteDoc.estado d = ExpedienteDoc.Borrador /\
    ExpedienteDoc.createdBy d = Some (user_id (user req)) /\
    ExpedienteDoc.active d
    = ExpedienteCreate.or_else (ExpedienteCreate.b_active b) true /\
    ExpedienteDoc.contenido d
    = ExpedienteCreate.contenido_of (ExpedienteCreate.b_contenido b) (now w) /\
    Expediente.verificarIntegridad d = true /\
    ExpedienteDoc.url (ExpedienteDoc.documento d)
    = Some (String.append "/uploads/expedientes/"
              (ExpedienteCreate.pdfFileName d)) /\
    expedientes w' = (expedientes w ++ [d])%list /\
    files w'
    = (files w ++ [(path_join [dir; "expedientes";
                               ExpedienteCreate.pdfFileName d], pdf)])%list /\
    auditlogs w' = auditlogs w.
Proof.
  intros Hrole Hp Hvalid Hfresh Hpdf.
  destruct (validate_needs_contenido _ _ _ _ Hvalid) as (c & Hc).
  unfold ExpedienteCreate.createExpediente. rewrite Hrole.
  change (negb (String.eqb "doctor" "doctor")) with false. cbv iota.
  unfold Paciente_findById, gets in Hp. cbn [fst] in Hp. inversion Hp as [Hp'].
  unfold bind at 1. unfold Paciente_findById at 1, gets at 1.
  rewrite Hp'. cbv beta iota.
  unfold bind at 1. unfold ExpedienteCreate.create, bind at 1 2, fresh_id, gets at 1.
  cbv beta iota. cbn [now next_id].
  rewrite save_new_eq;
    [ | reflexivity | unfold ExpedienteCreate.nuevo; rewrite Hc; reflexivity
      | exact Hvalid ].
  cbv zeta. cbv beta iota.
  match goal with
  | |- context [lift (generarPDF ?e (Some p))] =>
      destruct (Hpdf e) as (pdf & Hgen); set (d1 := e) in *
  end.
  unfold bind at 1. unfold lift at 1. rewrite Hgen. cbv beta iota.
  unfold bind at 1. unfold writeFile at 1, modify at 1. cbv beta iota.
  unfold bind at 1. unfold gets at 1. cbv beta iota.
  unfold bind at 1.
  rewrite save_stored_eq; [ | reflexivity | reflexivity | exact Hvalid ].
  cbv beta iota.
  unfold bind at 1.
  match goal with
  | |- context [ExpedienteController.registrarAuditoria ?r ?a ?i ?dt ?ex ?m ?w0] =>
      destruct (registrarAuditoria_eq r a i dt ex m w0) as (paths & Haud);
      rewrite Haud
  end.
  cbv beta iota. unfold ret.
  eexists. eexists. exists pdf. split; [reflexivity|].
  cbn [set_files set_expedientes after_refused_audit auditlogs expedientes
       files now next_id].
  rewrite (replace_last _ d1 (expedientes w)); [ | exact Hfresh | reflexivity ].
  repeat split.
  unfold Expediente.verificarIntegridad. simpl. apply opt_eqb_refl.
Qed.


(** X17. Creating a record. For a doctor, a patient that exists, a body
    that passes validation, an id no stored record has and a PDF that
    renders, the creation answers with a draft that carries the fresh
    id, the creator and the content of the body; its hash is bound, so
    its integrity check passes, and its URL names the PDF of its id.
    The record is appended to the store, one file is written at the
    joined path of that PDF, and the audit collection is left as it
    was: the record of the creation is refused. *)
Theorem createExpediente_stores_bound_record (dir : string)
    (path_join : list string -> string) (req : Request)
    (b : ExpedienteCreate.Body) (w : World) (p : Paciente) :
  user_role (user req) = "doctor" ->
  fst (Paciente_findById (ExpedienteCreate.b_paciente b) w) = Return (Some p) ->
  Expediente.validate
    (ExpedienteCreate.nuevo (next_id w) (now w) b (user_id (user req))) = [] ->
  (forall x, In x (expedientes w) -> ExpedienteDoc._id x <> next_id w) ->
  (forall e, exists pdf, generarPDF e (Some p) = Return pdf) ->
  exists d w' pdf,
    ExpedienteCreate.createExpediente dir path_join req b w = (Return d, w') /\
    ExpedienteDoc._id d = next_id w /\
    ExpedienteDoc.estado d = ExpedienteDoc.Borrador /\
    ExpedienteDoc.createdBy d = Some (user_id (user req)) /\
    ExpedienteDoc.active d
    = ExpedienteCreate.or_else (ExpedienteCreate.b_active b) true /\
    ExpedienteDoc.contenido d
    = ExpedienteCreate.contenido_of (ExpedienteCreate.b_contenido b) (now w) /\
    Expediente.verificarIntegridad d = true /\
    ExpedienteDoc.url (ExpedienteDoc.documento d)
    = Some (String.append "/uploads/expedientes/"
              (ExpedienteCreate.pdfFileName d)) /\
    expedientes w' = (expedientes w ++ [d])%list /\
    files w'
    = (files w ++ [(path_join [dir; "expedientes";
                               ExpedienteCreate.pdfFileName d], pdf)])%list /\
    auditlogs w' = auditlogs w.
Proof. exact (createExpediente_eq dir path_join req b w p). Qed.

(** X18. A body without [firmaDigital] is always refused. The schema
    requires [firmaDigital.firmante] of every record, so for a doctor
    and a patient that exists the creation of a draft fails with a
    [ValidationError] that names that path; no record is stored, no
    file is written and no audit record is added. *)
Theorem createExpediente_refuses_unsigned_body (dir : string)
    (path_join : list string -> string) (req : Request)
    (b : ExpedienteCreate.Body) (w : World) (p : Paciente) :
  user_role (user req) = "doctor" ->
  fst (Paciente_findById (ExpedienteCreate.b_paciente b) w) = Return (Some p) ->
  ExpedienteCreate.b_firmaDigital b = None ->
  exists paths w',
    ExpedienteCreate.createExpediente dir path_join req b w
    = (Throw (ValidationError paths), w') /\
    In "firmaDigital.firmante" paths /\
    expedientes w' = expedientes w /\
    files w' = files w /\
    auditlogs w' = auditlogs w.
Proof.
  intros Hrole Hp Hnone.
  unfold ExpedienteCreate.createExpediente. rewrite Hrole.
  change (negb (String.eqb "doctor" "doctor")) with false. cbv iota.
  unfold Paciente_findById, gets in Hp. cbn [fst] in Hp. inversion Hp as [Hp'].
  unfold bind at 1. unfold Paciente_findById at 1, gets at 1.
  rewrite Hp'. cbv beta iota.
  unfold bind at 1. unfold ExpedienteCreate.create, bind at 1 2, fresh_id,
    gets at 1.
  cbv beta iota. cbn [now next_id].
  unfold Expediente.save at 1. unfold bind at 1 2 3.
  match goal with
  | |- context [Expediente.validate ?d] =>
      assert (Hin : In "firmaDigital.firmante" (Expediente.validate d))
  end.
  { unfold Expediente.validate, ExpedienteCreate.nuevo.
    cbn [ExpedienteDoc.firmaDigital]. rewrite Hnone.
    do 4 (apply in_or_app; right). apply in_or_app. left.
    simpl. left. reflexivity. }
  match goal with
  | |- context [Expediente.validate ?d] =>
      destruct (Expediente.validate d) as [|x paths] eqn:Ev
  end.
  - destruct Hin.
  - unfold throw. cbv beta iota.
    eexists. eexists. split; [reflexivity|]. repeat split.
    exact Hin.
Qed.


End Creation.

Lemma createExpediente_stores_bound_record_witness :
  exists d w' pdf,
    ExpedienteCreate.createExpediente (P := sample_platform) "./uploads"
      sample_join (request_for doctor "") signed_body
      (world_with stale_expediente)
    = (Return d, w') /\
    ExpedienteDoc._id d = "a" /\
    Expediente.verificarIntegridad (P := sample_platform) d = true /\
    expedientes w' = [stale_expediente; d] /\
    files w' = [("./uploads/expedientes/expediente_a.pdf", pdf)].
Proof.
  destruct (createExpediente_stores_bound_record (P := sample_platform)
              "./uploads" sample_join (request_for doctor "") signed_body
              (world_with stale_expediente) (mkPaciente "p1" "Eva Luna"))
    as (d & w' & pdf & Hrun & Hd & _ & _ & _ & _ & Hint & _ & Hexp & Hfiles
        & _).
  - reflexivity.
  - reflexivity.
  - reflexivity.
  - simpl. intros x [Hx|[]]. subst x. discriminate.
  - intros e. exists "%PDF". reflexivity.
  - exists d, w', pdf. split; [exact Hrun|]. split; [exact Hd|].
    split; [exact Hint|]. split; [exact Hexp|].
    rewrite Hfiles. unfold ExpedienteCreate.pdfFileName. rewrite Hd.
    reflexivity.
Defined.

Lemma createExpediente_refuses_unsigned_body_witness :
  exists paths w',
    ExpedienteCreate.createExpediente (P := sample_platform) "./uploads"
      sample_join (request_for doctor "") draft_body
      (world_with stale_expediente)
    = (Throw (ValidationError paths), w') /\
    In "firmaDigital.firmante" paths /\
    expedientes w' = expedientes (world_with stale_expediente) /\
    files w' = files (world_with stale_expediente) /\
    auditlogs w' = auditlogs (world_with stale_expediente).
Proof.
  apply (createExpediente_refuses_unsigned_body (P := sample_platform)
           "./uploads" sample_join (request_for doctor "") draft_body
           (world_with stale_expediente) (mkPaciente "p1" "Eva Luna"));
    reflexivity.
Defined.


(** The creation on the samples: the keys of the content are in the
    order the constructor leaves them, and the hash is bound over the
    content in that order. *)
Example createExpediente_sample :
  fst (ExpedienteCreate.createExpediente (P := sample_platform) "./uploads"
         sample_join (request_for doctor "") signed_body
         (world_with stale_expediente))
  = Return
      (ExpedienteDoc.mk "a" (Some "p1") (Some "nota_evolucion")
         created_contenido
         (ExpedienteDoc.mkDocumento
            (Some "/uploads/expedientes/expediente_a.pdf")
            (Some (String.append "sha256:"
                     (sample_stringify created_contenido)))
            (Some 1700000000000))
         (Some (ExpedienteDoc.mkFirmaDigital (Some "u1") (Some 1700000000000)
                  None None None None))
         ExpedienteDoc.Borrador (Some "u1") true false false).
Proof. vm_compute. reflexivity. Qed.

Lemma getAuditStats_counts_witness :
  exists r w',
    AuditReports.getAuditStats (P := sample_platform)
      (fun t => t - thirty_days) stats_request stats_world
    = (Return r, w') /\
    auditlogs w' = auditlogs stats_world /\
    AuditReports.periodo r = (1704153600000, 1706745600000) /\
    suma (AuditReports.distribucionAcciones r) = 2.
Proof.
  destruct (getAuditStats_counts (P := sample_platform)
              (fun t => t - thirty_days) stats_request stats_world eq_refl)
    as (r & w' & Hrun & Haud & Hper & _ & _ & _ & _ & _ & _ & Hsum & _).
  exists r, w'. split; [exact Hrun|]. split; [exact Haud|].
  split; [exact Hper|]. exact Hsum.
Defined.

Example getAuditStats_sample :
  fst (AuditReports.getAuditStats (P := sample_platform)
         (fun t => t - thirty_days) stats_request stats_world)
  = Return
      (AuditReports.mkEstadisticas
         (Some (AuditReports.mkStats 2 1 1))
         [(Some "login", 2)] [(Some "doctor", 2)]
         (1704153600000, 1706745600000)).
Proof. vm_compute. reflexivity. Qed.
